(* ===== verification/_CoqProject ===== *)
-Q . S2P
Prelude.v
PyFloat.v
FloatBounds.v
Hardware.v
Contracts.v
Params.v
Spectrum.v
SpectrumBounds.v
Acquisition.v
ModeMachine.v
Program.v
WellTyped.v
