(* ===== verification/Prelude.v ===== *)
(** * Pocket Spectrometer V2: a verification development of [src/Software/main.py]

    ** The program

    [src/Software/main.py] is a MicroPython script for an M5Stack
    handheld. It drives an AS7341 multi-channel optical sensor over I2C,
    reads the two buttons A and B, and draws on a 135x240 TFT display.
    It is one module with module-level globals:
    - the parameter tables [gain_codes], [gain_factors], [atime_settings],
      [wavelength_names], [wavelength_values] (lines 11-19) and the
      colour constants (lines 44-52);
    - the mutable globals [gain_index], [atime_index], [current_mode]
      (an integer 0..3) and [wavelength_index];
    - the start-up sequence (lines 8-29, 41): I2C, sensor, presence check
      ([sys.exit(1)] when absent), initial sensor configuration, display;
    - [update_settings] (lines 54-57): pushes ATIME and AGAIN to the sensor;
    - three settings screens [display_gain_settings],
      [display_integration_settings], [display_wavelength_selection]
      (lines 59-116) and the spectrum screen [display_spectrum]
      (lines 118-187), which scales nine bars with a float factor;
    - the polling loop (lines 189-238): in mode 0 button A runs a
      two-phase measurement (LED on, [F1F4CN] then [F5F8CN], render,
      LED off); button B walks the ring 0 -> 3 -> 1 -> 2 -> 0; in the
      settings modes button A cycles an index with [(i + 1) % len];
    - the [KeyboardInterrupt] handler and [sensor.disable()] (lines 240-243).

    ** The library (one file per part, in dependency order)

    - [Prelude] (this file): the effect monad [PyM] shared by every part
      (state passing, Python exceptions, and the log of hardware calls),
      its notations in [py_scope], Python list indexing [py_nth], Python
      [max] ([py_max]), the index-cycling arithmetic, the hint database
      [spectro] and the tactics used throughout.
    - [PyFloat]: Python floats as IEEE-754 values, on the Standard
      Library's [SpecFloat] (an executable model of IEEE arithmetic):
      [float(int)], int true division, float product and [int(float)] in
      any binary format (the [_in] definitions, by precision and
      exponent range), used by the script at binary64; [str(round(x, 1))]
      and [str] of the small floats of the gain table.
    - [FloatBounds]: the error analysis of that arithmetic on the Reals:
      SpecFloat's rounding ([binary_round_aux], [shr_fexp]) related to
      integer division by powers of two, and the bounds it gives on
      [125 / M] and on [int(b * (125 / M))] for every 16-bit [M].
    - [Hardware]: the external collaborators (AS7341 sensor, TFT, the
      two buttons) as the events they log and the world they read, the
      primitive calls of the script, asynchronous Ctrl-C (delivered once,
      in place of the call it interrupts), and the [Interruptible]
      discipline of computations built from them.
    - [Contracts]: the argument types of the collaborators' calls
      ([event_ok], from specification section 6) and [calls_ok], a Hoare
      logic for [HW] (triples with a world invariant, rules for each
      monadic construct, and the tactic [calls_step] that applies them).
    - [Params]: the tables, the globals record, [update_settings] and the
      three settings screens.
    - [Spectrum]: [display_spectrum], its bar geometry and header lines.
    - [SpectrumBounds]: the bar loop run symbolically for every 16-bit
      reading ([bar_heights], [bars_calls]): what it draws, and where.
    - [Acquisition]: the measurement branch of mode 0 (LED, two sensor
      phases, render, LED off).
    - [ModeMachine]: one iteration of the polling loop ([tick]), the
      abstract four-state machine of the specification and the
      refinement between them, the index invariant, reachable states, the A and B
      rings. Its [Section Rounds] proves once, for any button, step
      function and invariant, what repeated press-and-tick rounds do.
    - [Program]: start-up, the loop under [try ... except
      KeyboardInterrupt] with the presses the user makes before each
      poll given as a schedule ([user_presses]), the final
      [sensor.disable()], and what Ctrl-C does to a run.
    - [WellTyped]: the triples of [Contracts] for every function of the
      script, composed up to [main].

    ** Modelling choices

    - Integers are [Z] (Python integers are unbounded); Python's [%] and
      [//] on a positive divisor are [Z.modulo] and [Z.div] (both floor).
    - Indexing [l[i]] is [py_nth] (negative indices count from the end)
      and raises [IndexError] out of range, so the index invariant is a
      theorem and not an assumption of the model.
    - Floats are binary64 ([PyFloat]), the width of CPython and of
      double-precision MicroPython builds. The source does not fix the
      width and MicroPython's ESP32 port builds with single precision,
      so the bounds on the bars are proved for binary64 and the short
      tallest bar is counted in both binary64 and binary32.
    - Ctrl-C is a countdown in the world: due after [k] more hardware
      calls, it is raised once in place of the next call and is then no
      longer pending, so the handler's [print] and the final
      [sensor.disable()] run.
    - The user's presses are a schedule, one list of buttons per loop
      iteration, latched before that iteration's polls.
    - Every hardware call is one logged event; the log of a run is the
      exact sequence of calls the script makes.
    - The infinite [while True] loop is run with fuel; running out of
      fuel ends the run with the marker [LoopFuelExhausted], which no
      [except] clause catches, so a run with too little fuel is never
      mistaken for a terminated one.

    ** What the theorems show

    - The mode machine ([ModeMachine]): from globals with a mode code
      0..3, one iteration of the loop is equivalent, on every world
      (Ctrl-C and sensor failures included), to polling A then B and
      running the specification's transition table [Spec.step] with its
      effects ([tick_refines_spec], a setoid equivalence [m_eq] proved by
      rewriting under [bind]); a completed iteration preserves the index
      invariant [globals_inv] ([tick_preserves_inv]); every state
      reachable by presses and iterations ([reachable], an inductive
      step relation) satisfies it, and from it every iteration
      completes, a measurement included when the sensor answers with
      16-bit counts ([reachable_safe], by rule induction); four B presses give back the same globals
      ([B_ring_closes]), and so do [len(table)] presses of A in each
      settings mode ([A_ring_closes]); A in the normal mode keeps the
      mode and makes one acquisition, one render, and the LED calls on
      then off ([normal_A_one_acquisition]); a B press made together
      with an A press is handled at the next tick
      ([press_A_and_B_both_handled]).
    - Types ([WellTyped]): every call of every run of [main] (any
      schedule of presses, so all four modes, any Ctrl-C, any number of
      iterations), given 16-bit
      sensor answers, has the argument types of the collaborators
      ([main_calls_typed]).
    - The measurement ([Acquisition]): the exact call sequence, with the
      NIR of the second phase ([take_measurement_sequence]); a failed
      read leaves the LED on ([take_measurement_read_error_led_on]).
    - The script ([Program]): Ctrl-C during the first measurement ends
      the run through the handler with the exact calls made, the LED
      switched on and never off ([main_interrupt_led_on]); Ctrl-C after
      start-up always ends the run normally with [print] then
      [sensor.disable()] last, or with an exception the script raises
      itself, never with [KeyboardInterrupt]
      ([main_interrupt_handled]); and the outcome is the same for
      every fuel above [k], so the unbounded loop terminates
      ([main_interrupt_fuel_stable]); a sensor [OSError] escapes without
      [sensor.disable()] ([main_read_error_escapes]); a missing sensor
      exits with [SystemExit(1)] ([main_sensor_absent]); with no press the
      loop never leaves by itself ([loop_idle]); start-up writes the
      configuration [update_settings] would push.
    - The screens ([Spectrum], [SpectrumBounds], [Params]): for in-range
      globals and any 16-bit readings the spectrum screen is drawn
      without exception with every bar 0..125 pixels high
      ([display_spectrum_bars_fit]); a bar of the maximal reading is 124
      or 125 pixels ([display_spectrum_tallest_bar]), and, over all
      65535 positive maxima, 124 for 9137 of them in binary64 and 9453 in
      binary32 ([display_spectrum_short_tallest_count], by exhaustive
      evaluation); the labels are drawn at
      y = 245 ([display_spectrum_labels_offscreen]); the header shows
      the selected channel, its count, the gain and the time
      ([display_spectrum_header]); the filled bars lie on the canvas
      but the selection outline ends 2 pixels below it
      ([display_spectrum_outline_below_canvas]); an all-zero
      reading draws nine empty bars without error
      ([display_spectrum_all_zero]); the texts of the three settings
      screens for every index.

    ** Fuel and bounds

    [loop n] runs at most [n] iterations.
    Readings are 16-bit ([reading_ok]: [0 <= r < 2^16]), the AS7341's
    count width; the float bounds use it: with [0 < M < 2^16] the float
    [s = 125 / M] has [M * s] within [2^-43] of 125, and the float
    product [b * s] is within [3 * 2^-30] of the real one, far from the
    next integer, so [int(b * s)] is in [0, 125]. The termination theorem after
    Ctrl-C due after [k] calls needs [n > k]: every completed iteration
    makes at least one call (its [sleep_ms(100)]), so after [k + 1]
    iterations the interrupt has been raised. The count of short
    tallest bars runs [count_range] over the 65535 maxima. Everything
    else is structural: [draw_bars] and [bar_heights] recurse on the
    list of nine bars, [session] on the list of actions, [digits_fixed]
    on a digit count.

    ** Findings

    The models of lines 135/143 (float scale: the tallest bar is 124 or
    125 px, and 124 px for 9137 of the 16-bit maxima in binary64, 9453 in
    binary32), 90/186 against
    28 (2.78 ms shown per step while ASTEP 599 gives about 1.668 ms), 195-203
    (no [try/finally] around the LED: a read error or a Ctrl-C leaves
    it on), 240 (only [KeyboardInterrupt] is
    caught, so an [OSError] skips [sensor.disable()]), 161/164 (labels at
    y = 245 on a 240-pixel canvas), 149 (the selection outline ends at
    y = 242), 215 (a B press behind an A press is kept for the next
    iteration, which the specification does not say) and 24 ([sys]
    never imported) record
    where the code and the specification part.

    ** Not modelled

    The AS7341 register protocol, the TFT pixel and font rendering, the
    button debouncing of the m5stack firmware and the 100 ms timing are
    external libraries: they are the events of [Hardware] and nothing
    more. The [print] output is logged as an event. [str] of a float is
    the fixed-point form, correct for the magnitudes the script prints
    (the gain factors and the rounded times), not Python's general
    shortest-repr algorithm. The floats are analysed only where the
    script computes with them: the scale, the bar products and the
    integration-time text. The imports and the construction of the
    hardware objects (lines 1-7 and 41) are no computation of the script;
    the constructors' calls are the start-up events [EvI2CInit],
    [EvSensorInit] and [EvTftInit]. *)

From Stdlib Require Import ZArith List String Lia Bool DecimalString.
From Stdlib Require Import Morphisms Setoid.
Import ListNotations.

Declare Scope py_scope.
Delimit Scope py_scope with py.

Create HintDb spectro discriminated.
Create Rewrite HintDb py_rw.

(** ** The effect monad of the script

    A computation reads and updates a state [St], logs events [Ev] and
    may raise an exception [Exn]. An outcome keeps the log produced so
    far on both exits, since a hardware call made before an exception has
    still happened. *)

Inductive outcome (St Ev Exn A : Type) : Type :=
| Ok (a : A) (s : St) (log : list Ev)
| Exc (e : Exn) (s : St) (log : list Ev).
Arguments Ok {St Ev Exn A} a s log.
Arguments Exc {St Ev Exn A} e s log.

Definition PyM (St Ev Exn A : Type) : Type := St -> outcome St Ev Exn A.

Section Monad.
Context {St Ev Exn : Type}.

Definition prepend {A} (l : list Ev) (o : outcome St Ev Exn A)
  : outcome St Ev Exn A :=
  match o with
  | Ok a s l' => Ok a s (l ++ l')
  | Exc e s l' => Exc e s (l ++ l')
  end.

Definition ret {A} (a : A) : PyM St Ev Exn A := fun s => Ok a s [].

Definition raise {A} (e : Exn) : PyM St Ev Exn A := fun s => Exc e s [].

Definition bind {A B} (c : PyM St Ev Exn A) (k : A -> PyM St Ev Exn B)
  : PyM St Ev Exn B :=
  fun s =>
    match c s with
    | Ok a s1 l1 => prepend l1 (k a s1)
    | Exc e s1 l1 => Exc e s1 l1
    end.

(** [try: c except E: h] where [handles e] says whether [e] is an [E]. *)
Definition try_except {A} (c : PyM St Ev Exn A) (handles : Exn -> bool)
  (h : Exn -> PyM St Ev Exn A) : PyM St Ev Exn A :=
  fun s =>
    match c s with
    | Ok a s1 l1 => Ok a s1 l1
    | Exc e s1 l1 => if handles e then prepend l1 (h e s1) else Exc e s1 l1
    end.

Definition lift_option {A} (e : Exn) (o : option A) : PyM St Ev Exn A :=
  match o with Some a => ret a | None => raise e end.

Lemma prepend_nil {A} (o : outcome St Ev Exn A) : prepend [] o = o.
Proof. destruct o; reflexivity. Qed.

Lemma prepend_app {A} (l1 l2 : list Ev) (o : outcome St Ev Exn A) :
  prepend l1 (prepend l2 o) = prepend (l1 ++ l2) o.
Proof. destruct o; simpl; rewrite app_assoc; reflexivity. Qed.

Lemma bind_ret_l {A B} (a : A) (k : A -> PyM St Ev Exn B) s :
  bind (ret a) k s = k a s.
Proof. unfold bind, ret. apply prepend_nil. Qed.

Lemma bind_ret_r {A} (c : PyM St Ev Exn A) s : bind c ret s = c s.
Proof. unfold bind, ret. destruct (c s); simpl; rewrite ?app_nil_r; reflexivity. Qed.

Lemma bind_assoc {A B C} (c : PyM St Ev Exn A) (k1 : A -> PyM St Ev Exn B)
  (k2 : B -> PyM St Ev Exn C) s :
  bind (bind c k1) k2 s = bind c (fun a => bind (k1 a) k2) s.
Proof.
  unfold bind. destruct (c s) as [a s1 l1|e s1 l1]; [|reflexivity].
  destruct (k1 a s1) as [b s2 l2|e s2 l2]; simpl; [|reflexivity].
  destruct (k2 b s2); simpl; rewrite ?app_assoc; reflexivity.
Qed.

Lemma bind_Ok {A B} (c : PyM St Ev Exn A) (k : A -> PyM St Ev Exn B) s a s1 l1 :
  c s = Ok a s1 l1 -> bind c k s = prepend l1 (k a s1).
Proof. unfold bind. intros ->. reflexivity. Qed.

Lemma bind_Exc {A B} (c : PyM St Ev Exn A) (k : A -> PyM St Ev Exn B) s e s1 l1 :
  c s = Exc e s1 l1 -> bind c k s = Exc e s1 l1.
Proof. unfold bind. intros ->. reflexivity. Qed.

Lemma bind_Ok_inv {A B} (c : PyM St Ev Exn A) (k : A -> PyM St Ev Exn B) s b s2 l :
  bind c k s = Ok b s2 l ->
  exists a s1 l1 l2, c s = Ok a s1 l1 /\ k a s1 = Ok b s2 l2 /\ l = l1 ++ l2.
Proof.
  unfold bind. destruct (c s) as [a s1 l1|e s1 l1]; [|discriminate].
  destruct (k a s1) as [b' s2' l2|e s2' l2] eqn:E; simpl; intros H; [|discriminate].
  injection H as <- <- <-. exists a, s1, l1, l2. auto.
Qed.

Lemma bind_Exc_inv {A B} (c : PyM St Ev Exn A) (k : A -> PyM St Ev Exn B) s e s2 l :
  bind c k s = Exc e s2 l ->
  c s = Exc e s2 l \/
  exists a s1 l1 l2, c s = Ok a s1 l1 /\ k a s1 = Exc e s2 l2 /\ l = l1 ++ l2.
Proof.
  unfold bind. destruct (c s) as [a s1 l1|e1 s1 l1] eqn:Ec; [|intros H; injection H as -> -> ->; left; reflexivity].
  destruct (k a s1) as [b' s2' l2|e' s2' l2] eqn:E; simpl; intros H; [discriminate|].
  injection H as <- <- <-. right. exists a, s1, l1, l2. auto.
Qed.
End Monad.

#[export] Hint Rewrite @prepend_nil @prepend_app @bind_ret_l : py_rw.

(** ** Equivalence of computations

    Two computations are equivalent when they give the same outcome from
    every state. Bind respects it, so programs are rewritten with the
    monad laws under binders ([setoid_rewrite]). *)

Section Equiv.
Context {St Ev Exn : Type}.

Definition m_eq {A} (c1 c2 : PyM St Ev Exn A) : Prop := forall s, c1 s = c2 s.

#[export] Instance m_eq_equiv {A} : Equivalence (@m_eq A).
Proof.
  split; [intros c s; reflexivity|intros c1 c2 H s; symmetry; apply H|].
  intros c1 c2 c3 H1 H2 s. rewrite H1. apply H2.
Qed.

#[export] Instance bind_proper {A B} :
  Proper (m_eq ==> pointwise_relation A m_eq ==> m_eq) (@bind St Ev Exn A B).
Proof.
  intros c1 c2 Hc k1 k2 Hk s. unfold bind. rewrite Hc.
  destruct (c2 s); [rewrite Hk|]; reflexivity.
Qed.

Lemma bind_assoc_eq {A B C} (c : PyM St Ev Exn A) (k1 : A -> PyM St Ev Exn B)
  (k2 : B -> PyM St Ev Exn C) :
  m_eq (bind (bind c k1) k2) (bind c (fun a => bind (k1 a) k2)).
Proof. intros s. apply bind_assoc. Qed.

Lemma bind_ret_l_eq {A B} (a : A) (k : A -> PyM St Ev Exn B) :
  m_eq (bind (ret a) k) (k a).
Proof. intros s. apply bind_ret_l. Qed.

Lemma bind_if_eq {A B} (b : bool) (c1 c2 : PyM St Ev Exn A) (k : A -> PyM St Ev Exn B) :
  m_eq (bind (if b then c1 else c2) k) (if b then bind c1 k else bind c2 k).
Proof. destruct b; reflexivity. Qed.
End Equiv.

(** Normalise a program: binds to the right, [ret] consumed, [if]
    commuted out of binds. *)
Ltac m_norm :=
  repeat (setoid_rewrite bind_assoc_eq || setoid_rewrite bind_ret_l_eq
          || setoid_rewrite bind_if_eq).

Notation "x <- c ;; k" := (bind c (fun x => k))
  (at level 61, c at next level, right associativity) : py_scope.
Notation "' p <- c ;; k" := (bind c (fun x => match x with p => k end))
  (at level 61, p pattern, c at next level, right associativity) : py_scope.
Notation "c ;; k" := (bind c (fun _ => k))
  (at level 61, right associativity) : py_scope.

(** ** Python lists

    [l[i]]: a non-negative index counts from the front, a negative one
    from the end; anything else is an [IndexError] (here [None]). *)

Definition py_nth {A} (l : list A) (i : Z) : option A :=
  if (i <? 0)%Z
  then if (- i <=? Z.of_nat (List.length l))%Z
       then nth_error l (Z.to_nat (Z.of_nat (List.length l) + i))
       else None
  else nth_error l (Z.to_nat i).

(** [max(l)] on a non-empty list of integers ([ValueError] on []). *)
Definition py_max (l : list Z) : option Z :=
  match l with
  | [] => None
  | x :: r => Some (fold_left Z.max r x)
  end.

(** [str(n)] for a Python integer: its decimal digits, with a leading
    [-] when negative. *)
Definition py_str_int (z : Z) : string := NilEmpty.string_of_int (Z.to_int z).

(** [len(s)] for a string, as the Python integer. *)
Definition py_len (s : string) : Z := Z.of_nat (String.length s).

Lemma py_nth_nonneg {A} (l : list A) (i : Z) :
  (0 <= i)%Z -> py_nth l i = nth_error l (Z.to_nat i).
Proof. intros H. unfold py_nth. destruct (Z.ltb_spec i 0); [lia|reflexivity]. Qed.

Lemma py_nth_in_range {A} (l : list A) (i : Z) :
  (0 <= i < Z.of_nat (List.length l))%Z -> exists x, py_nth l i = Some x.
Proof.
  intros H. rewrite py_nth_nonneg by lia.
  destruct (nth_error l (Z.to_nat i)) eqn:E; [eauto|].
  apply nth_error_None in E. lia.
Qed.

Lemma py_nth_In {A} (l : list A) (i : Z) (a : A) : py_nth l i = Some a -> In a l.
Proof.
  unfold py_nth. destruct (i <? 0)%Z; [destruct (_ <=? _)%Z; [|discriminate]|];
    apply nth_error_In.
Qed.

Lemma py_nth_nth {A} (l : list A) (i : Z) (a d : A) :
  (0 <= i)%Z -> py_nth l i = Some a -> nth (Z.to_nat i) l d = a.
Proof. intros Hi. rewrite py_nth_nonneg by exact Hi. apply nth_error_nth. Qed.

(** How many of the [n] integers from [lo] satisfy [f]. *)
Fixpoint count_range (f : Z -> bool) (n : nat) (lo : Z) : Z :=
  match n with
  | O => 0
  | S n => (if f lo then 1 else 0) + count_range f n (lo + 1)
  end%Z.

Lemma fold_max_ge (r : list Z) (x : Z) :
  (x <= fold_left Z.max r x)%Z /\ Forall (fun y => y <= fold_left Z.max r x)%Z r.
Proof.
  revert x. induction r as [|y r IH]; intros x; simpl; [split; [lia|constructor]|].
  destruct (IH (Z.max x y)) as [H1 H2]. split; [lia|constructor; [lia|exact H2]].
Qed.

Lemma fold_max_in (r : list Z) (x : Z) :
  fold_left Z.max r x = x \/ In (fold_left Z.max r x) r.
Proof.
  revert x. induction r as [|y r IH]; intros x; simpl; [left; reflexivity|].
  destruct (IH (Z.max x y)) as [E|E]; [|right; right; exact E].
  rewrite E. destruct (Z.max_spec x y) as [[_ ->]|[_ ->]]; [right; left|left]; reflexivity.
Qed.

(** [max] returns an element of the list that bounds every element. *)
Lemma py_max_spec (l : list Z) (m : Z) :
  py_max l = Some m -> In m l /\ Forall (fun y => y <= m)%Z l.
Proof.
  destruct l as [|x r]; simpl; [discriminate|]. intros [= <-].
  destruct (fold_max_ge r x) as [H1 H2]. split.
  - destruct (fold_max_in r x) as [E|E]; [left; symmetry; exact E|right; exact E].
  - constructor; assumption.
Qed.

(** ** Cycling an index: [i = (i + 1) % n] *)

Definition cycle (n i : Z) : Z := ((i + 1) mod n)%Z.

Lemma cycle_range (n i : Z) : (0 < n)%Z -> (0 <= cycle n i < n)%Z.
Proof. intros H. unfold cycle. apply Z.mod_pos_bound. exact H. Qed.

Lemma cycle_iter (n i : Z) (k : nat) :
  (0 < n)%Z -> (0 <= i < n)%Z ->
  Nat.iter k (cycle n) i = ((i + Z.of_nat k) mod n)%Z.
Proof.
  intros Hn Hi. induction k as [|k IH]; simpl Nat.iter.
  - rewrite Z.add_0_r, Z.mod_small by lia. reflexivity.
  - rewrite IH. unfold cycle. rewrite Z.add_mod_idemp_l by lia. f_equal. lia.
Qed.

(** [n] presses bring any in-range index back to itself. *)
Lemma cycle_period (n i : Z) :
  (0 < n)%Z -> (0 <= i < n)%Z -> Nat.iter (Z.to_nat n) (cycle n) i = i.
Proof.
  intros Hn Hi. rewrite cycle_iter by lia. rewrite Z2Nat.id by lia.
  rewrite <- (Z.mod_small i n) at 2 by lia.
  replace (i + n)%Z with (i + 1 * n)%Z by lia. apply Z.mod_add. lia.
Qed.

#[export] Hint Resolve cycle_range : spectro.

(** Every in-range index is one of [0 .. n-1]: turns a goal about a
    symbolic index into one goal per table entry, each computed. *)
Lemma range_enum (i n : Z) :
  (0 <= i < n)%Z -> In i (map Z.of_nat (seq 0 (Z.to_nat n))).
Proof.
  intros H. apply in_map_iff. exists (Z.to_nat i). split; [apply Z2Nat.id; lia|].
  apply in_seq. lia.
Qed.

Ltac enum_range H :=
  apply range_enum in H; simpl in H;
  repeat (destruct H as [H|H]; [subst|]); try contradiction.

