(* ===== verification/PyFloat.v ===== *)
(** * Python floats as IEEE-754 binary64

    The script computes two float quantities: the bar scale
    [(240 - top_margin - 20) / max_val] with the bar heights
    [int(bar * scale)] (main.py lines 135, 143), and the integration time
    [(atime_settings[atime_index] + 1) * 2.78] shown as
    [str(round(atime_ms, 1))] (lines 90-91, 186-187). The gain table also
    holds the float [0.5] (line 12), printed by [str].

    The values are the Standard Library's [spec_float] and the operations
    are [SpecFloat]'s round-to-nearest-even [SFdiv] and [SFmul], in a
    format given by its precision [p] and largest exponent [e] (the
    [_in] definitions). The script runs in the binary64 format
    ([prec = 53], [emax = 1024]) of CPython and of MicroPython builds with
    double-precision floats; MicroPython builds with single-precision
    floats use binary32 ([24], [128]), and the theorems that depend on
    the width say which one they use. On top of them the Python conversions: [float(n)]
    ([float_of_int], [None] when it overflows), true division of two ints
    ([int_truediv]: the correctly rounded quotient, which [SFdiv]
    computes from the exact integer operands), [int(x)] ([float_to_int],
    truncation toward zero) and the two string conversions the screens use. *)

From Stdlib Require Import ZArith List String Lia Bool.
From Stdlib Require Import Floats.SpecFloat.
From S2P Require Import Prelude.
Import ListNotations.
Open Scope Z_scope.

Definition prec : Z := 53.
Definition emax : Z := 1024.

Abbreviation float := spec_float.

(** An integer as an (unnormalised) float operand: exact, any size. *)
Definition sf_of_Z (z : Z) : float :=
  match z with
  | Z0 => S754_zero false
  | Zpos p => S754_finite false p 0
  | Zneg p => S754_finite true p 0
  end.

(** [float(n)]: round to nearest even; an integer beyond the largest
    finite float raises [OverflowError] ([None]). *)
Definition float_of_int_in (p e : Z) (z : Z) : option float :=
  match binary_normalize p e z 0 false with
  | S754_infinity _ => None
  | f => Some f
  end.

(** [a / b] on two Python ints with [b <> 0]: the quotient rounded once. *)
Definition int_truediv_in (p e : Z) (a b : Z) : float := SFdiv p e (sf_of_Z a) (sf_of_Z b).

Definition fmul_in (p e : Z) (x y : float) : float := SFmul p e x y.

(** The binary64 operations of the model. *)
Definition float_of_int (z : Z) : option float := float_of_int_in prec emax z.
Definition int_truediv (a b : Z) : float := int_truediv_in prec emax a b.
Definition fmul (x y : float) : float := fmul_in prec emax x y.

(** The float a decimal literal [m * 10^-d] denotes (Python parses
    literals with correct rounding), e.g. [float_lit 278 2] is [2.78]. *)
Definition float_lit (m : Z) (d : nat) : float := int_truediv m (10 ^ Z.of_nat d).

(** [int(x)]: truncation toward zero; [None] on an infinity
    ([OverflowError]) or a NaN ([ValueError]). *)
Definition float_to_int (x : float) : option Z :=
  match x with
  | S754_zero _ => Some 0
  | S754_finite s m e =>
      let a := if 0 <=? e then Zpos m * 2 ^ e else Z.shiftr (Zpos m) (- e) in
      Some (if s then - a else a)
  | _ => None
  end.

(** ** [str(round(x, 1))]

    CPython's [round(x, 1)] rounds the exact binary value of [x] to the
    nearest tenth, ties to even, and returns the double nearest to that
    decimal; [str] of a double prints the shortest decimal that reads back
    to it, with at least one digit after the point. For a decimal with one
    fractional digit and fewer than 15 significant digits that shortest
    string is the decimal itself, so the composite prints the rounded
    tenths [t] as [t // 10] "." [t % 10]. *)

(** The integer nearest to [n / d] ([0 <= n], [0 < d]), ties to even. *)
Definition round_half_even (n d : Z) : Z :=
  let q := n / d in
  let r := n mod d in
  match Z.compare (2 * r) d with
  | Lt => q
  | Gt => q + 1
  | Eq => if Z.even q then q else q + 1
  end.

(** [|m * 2^e|] in tenths, rounded. *)
Definition tenths (m : positive) (e : Z) : Z :=
  if 0 <=? e then 10 * Zpos m * 2 ^ e
  else round_half_even (10 * Zpos m) (2 ^ (- e)).

Definition fmt_tenths (neg : bool) (t : Z) : string :=
  ((if neg then "-" else "") ++ py_str_int (t / 10) ++ "." ++ py_str_int (t mod 10))%string.

Definition str_round1 (x : float) : string :=
  match x with
  | S754_zero s => fmt_tenths s 0
  | S754_finite s m e => fmt_tenths s (tenths m e)
  | S754_infinity s => if s then "-inf"%string else "inf"%string
  | S754_nan => "nan"%string
  end.

(** ** [str(x)] for the floats of the gain table

    A double [m * 2^e] is a finite decimal; printed in fixed notation with
    its trailing zeros dropped (keeping one fractional digit), this is the
    shortest round-trip string of CPython's [repr] whenever the expansion
    has at most 15 significant digits and [1e-4 <= |x| < 1e16], which is
    the case of [0.5]. *)

Fixpoint digits_fixed (k : nat) (n : Z) : list Z :=
  match k with
  | O => []
  | S k' => digits_fixed k' (n / 10) ++ [n mod 10]
  end.

Fixpoint drop_zeros (ds : list Z) : list Z :=
  match ds with
  | 0 :: r => drop_zeros r
  | _ => ds
  end.

Definition drop_trailing_zeros (ds : list Z) : list Z :=
  match rev (drop_zeros (rev ds)) with
  | [] => [0]
  | l => l
  end.

Definition string_of_digits (ds : list Z) : string :=
  fold_right (fun d s => (py_str_int d ++ s)%string) ""%string ds.

Definition repr_float (x : float) : string :=
  match x with
  | S754_zero s => if s then "-0.0"%string else "0.0"%string
  | S754_finite s m e =>
      let sign := if s then "-"%string else ""%string in
      if 0 <=? e then (sign ++ py_str_int (Zpos m * 2 ^ e) ++ ".0")%string
      else
        let k := Z.to_nat (- e) in
        let n := Zpos m * 5 ^ (- e) in
        (sign ++ py_str_int (n / 10 ^ (- e)) ++ "."
              ++ string_of_digits (drop_trailing_zeros (digits_fixed k (n mod 10 ^ (- e)))))%string
  | S754_infinity s => if s then "-inf"%string else "inf"%string
  | S754_nan => "nan"%string
  end.

(** ** Python numbers: an [int] or a [float]

    [gain_factors] mixes both ([0.5] and the ints [1, 2, ..., 512]) and
    [scale] is the float [125 / max_val] or the int [1]. *)

Inductive py_num := PyInt (z : Z) | PyFloat (f : float).

Definition py_str_num (n : py_num) : string :=
  match n with PyInt z => py_str_int z | PyFloat f => repr_float f end.

(** [a * n] for an int [a]: the int product, or [float(a) * n]; [None]
    where [float(a)] raises [OverflowError]. *)
Definition num_mul_int_in (p e : Z) (a : Z) (n : py_num) : option py_num :=
  match n with
  | PyInt b => Some (PyInt (a * b))
  | PyFloat f => option_map (fun fa => PyFloat (fmul_in p e fa f)) (float_of_int_in p e a)
  end.

Definition num_mul_int (a : Z) (n : py_num) : option py_num := num_mul_int_in prec emax a n.

(** [int(n)]; [None] on an infinity or a NaN. *)
Definition num_int (n : py_num) : option Z :=
  match n with PyInt z => Some z | PyFloat f => float_to_int f end.

(** [int(a * n)], the height of a bar (line 143). *)
Definition int_of_product_in (p e : Z) (a : Z) (n : py_num) : option Z :=
  match num_mul_int_in p e a n with Some q => num_int q | None => None end.

Definition int_of_product (a : Z) (n : py_num) : option Z := int_of_product_in prec emax a n.

(** ** Exactness of the conversion of small integers

    The digit count [digits2_pos] of [SpecFloat] is [Pos.size]; an
    integer with at most 53 bits is shifted to a 53-bit mantissa, which
    rounding leaves unchanged. *)

Lemma digits2_pos_size p : digits2_pos p = Pos.size p.
Proof. induction p; simpl; rewrite ?IHp; reflexivity. Qed.

Lemma log2_size p : Z.log2 (Zpos p) = Zpos (Pos.size p) - 1.
Proof. destruct p; cbn [Z.log2 Pos.size]; rewrite ?Pos2Z.inj_succ; lia. Qed.

Lemma size_bounds p : 2 ^ (Zpos (Pos.size p) - 1) <= Zpos p < 2 ^ Zpos (Pos.size p).
Proof.
  rewrite <- log2_size. pose proof (Z.log2_spec (Zpos p)) as H.
  replace (Zpos (Pos.size p)) with (Z.succ (Z.log2 (Zpos p))) by (rewrite log2_size; lia).
  apply H. lia.
Qed.

Lemma size_unique p k : 0 < k -> 2 ^ (k - 1) <= Zpos p < 2 ^ k -> Zpos (Pos.size p) = k.
Proof.
  intros Hk [Hl Hh]. destruct (size_bounds p) as [Sl Sh].
  destruct (Z.lt_trichotomy (Zpos (Pos.size p)) k) as [C|[C|C]]; [|exact C|].
  - assert (2 ^ Zpos (Pos.size p) <= 2 ^ (k - 1)) by (apply Z.pow_le_mono_r; lia). lia.
  - assert (2 ^ k <= 2 ^ (Zpos (Pos.size p) - 1)) by (apply Z.pow_le_mono_r; lia). lia.
Qed.

Lemma iter_xO p k : Zpos (Pos.iter xO p k) = Zpos p * 2 ^ Zpos k.
Proof.
  induction k using Pos.peano_ind.
  - simpl. lia.
  - rewrite Pos.iter_succ, Pos2Z.inj_xO, IHk, Pos2Z.inj_succ, Z.pow_succ_r by lia. lia.
Qed.

Lemma fexp_prec e : -1021 <= e -> fexp prec emax e = e - prec.
Proof. intros H. unfold fexp, emin, prec, emax. lia. Qed.

Lemma round_aux_exact s m e :
  Zpos (Pos.size m) = prec -> -1074 <= e <= emax - prec ->
  binary_round_aux prec emax s (Zpos m) e loc_Exact = S754_finite s m e.
Proof.
  intros Hm He. unfold binary_round_aux, shr_fexp, Zdigits2.
  rewrite digits2_pos_size, Hm, (fexp_prec (prec + e)) by (unfold prec, emax in *; lia).
  replace (prec + e - prec - e) with 0 by lia.
  cbn [shr shr_record_of_loc loc_of_shr_record round_nearest_even shr_m].
  rewrite digits2_pos_size, Hm, (fexp_prec (prec + e)) by (unfold prec, emax in *; lia).
  replace (prec + e - prec - e) with 0 by lia.
  cbn [shr shr_record_of_loc loc_of_shr_record round_nearest_even shr_m].
  replace (e <=? emax - prec) with true by (symmetry; apply Z.leb_le; lia). reflexivity.
Qed.

Lemma round_int_exact s p :
  Zpos p < 2 ^ prec ->
  exists m e, binary_round prec emax s p 0 = S754_finite s m e /\
              e <= 0 /\ Zpos m = Zpos p * 2 ^ (- e).
Proof.
  intros Hp. unfold binary_round.
  destruct (size_bounds p) as [Sl Sh].
  assert (Hd : Zpos (Pos.size p) <= prec).
  { destruct (Z.le_gt_cases (Zpos (Pos.size p)) prec) as [|C]; [assumption|].
    assert (2 ^ prec <= 2 ^ (Zpos (Pos.size p) - 1)) by (apply Z.pow_le_mono_r; unfold prec in *; lia).
    lia. }
  rewrite digits2_pos_size, (fexp_prec (Zpos (Pos.size p) + 0)) by lia.
  unfold shl_align.
  destruct (Zpos (Pos.size p) + 0 - prec - 0) as [|k|k] eqn:E.
  - exists p, 0. rewrite round_aux_exact by (unfold prec, emax in *; lia).
    split; [reflexivity|]. split; [lia|]. simpl. lia.
  - lia.
  - exists (Pos.iter xO p k), (Zpos (Pos.size p) + 0 - prec).
    assert (Hk : Zpos k = prec - Zpos (Pos.size p)) by lia.
    assert (Hm : Zpos (Pos.iter xO p k) = Zpos p * 2 ^ Zpos k) by apply iter_xO.
    rewrite round_aux_exact.
    + split; [reflexivity|]. split; [lia|]. rewrite Hm. do 2 f_equal. lia.
    + apply size_unique; [unfold prec; lia|]. rewrite Hm, Hk.
      set (d := Zpos (Pos.size p)) in *.
      assert (E1 : 2 ^ (prec - 1) = 2 ^ (d - 1) * 2 ^ (prec - d))
        by (rewrite <- Z.pow_add_r by lia; f_equal; lia).
      assert (E2 : 2 ^ prec = 2 ^ d * 2 ^ (prec - d))
        by (rewrite <- Z.pow_add_r by lia; f_equal; lia).
      assert (0 < 2 ^ (prec - d)) by (apply Z.pow_pos_nonneg; lia).
      rewrite E1, E2. split; nia.
    + unfold prec, emax in *. lia.
Qed.

