(* ===== verification/FloatBounds.v ===== *)
(** * Error bounds of binary64 rounding, for the bar heights

    [SpecFloat] rounds a result [m * 2^e] in two passes: [shr_fexp]
    shifts the mantissa right to the exponent the format allows, and the
    dropped bits decide a round-to-nearest-even increment; a second pass
    renormalises a mantissa that the increment carried to [2^53]. This file
    relates those integer steps to the real value [m * 2^e]: the rounded
    value never exceeds the exact one by more than one unit of the last
    place, and its exponent is the one computed from the digits. From this
    follow the bounds on [scale = 125 / max_val] and on [int(bar * scale)]
    of [display_spectrum] for every 16-bit reading. *)

From Stdlib Require Import ZArith Reals Lra Lia.
From Stdlib Require Import Floats.SpecFloat.
From S2P Require Import Prelude PyFloat.
Open Scope Z_scope.

(** ** Powers of two and the value of a float *)

Definition bpow (e : Z) : R := powerRZ 2 e.

(** The real number a float denotes (0 for the non-finite ones). *)
Definition fval (x : float) : R :=
  match x with
  | S754_finite s m e => ((if s then -1 else 1) * IZR (Zpos m) * bpow e)%R
  | _ => 0%R
  end.

(** A finite float of sign [+]: [+0.0] or a positive finite value. *)
Definition fin_nonneg (x : float) : Prop :=
  match x with
  | S754_zero false | S754_finite false _ _ => True
  | _ => False
  end.

(** The exponent of a finite float is at most [k]. *)
Definition fexp_le (x : float) (k : Z) : Prop :=
  match x with S754_finite _ _ e => e <= k | _ => True end.

(** The exponent [binary_round_aux] shifts a mantissa [m] at exponent [e]
    to in its first pass. *)
Definition rnd_exp (m e : Z) : Z := Z.max e (fexp prec emax (Zdigits2 m + e)).

Lemma bpow_pos e : (0 < bpow e)%R.
Proof. apply powerRZ_lt. lra. Qed.

Lemma bpow_add a b : bpow (a + b) = (bpow a * bpow b)%R.
Proof. apply powerRZ_add. lra. Qed.

Lemma bpow_IZR n : 0 <= n -> IZR (2 ^ n) = bpow n.
Proof.
  intros Hn. destruct n as [|p|p]; [reflexivity| |lia].
  unfold bpow. simpl powerRZ. rewrite pow_IZR, positive_nat_Z. reflexivity.
Qed.

Lemma bpow_le a b : a <= b -> (bpow a <= bpow b)%R.
Proof.
  intros H. replace b with (a + (b - a)) by lia. rewrite bpow_add, <- (bpow_IZR (b - a)) by lia.
  pose proof (bpow_pos a). assert (H1 : 0 < 2 ^ (b - a)) by (apply Z.pow_pos_nonneg; lia).
  assert (H2 : (1 <= IZR (2 ^ (b - a)))%R) by (apply IZR_le; lia). nra.
Qed.

#[export] Hint Resolve bpow_pos : spectro.

(** Side conditions on powers of two. *)
Ltac pow2 := first [apply Z.pow_pos_nonneg; lia | apply Z.pow_nonzero; lia | lia].

(** Shifting [a] right by [k] bits and raising the exponent by [k] never
    increases the value. *)
Lemma div_pow_le a k E :
  0 <= a -> 0 <= k -> (IZR (a / 2 ^ k) * bpow (E + k) <= IZR a * bpow E)%R.
Proof.
  intros Ha Hk. rewrite bpow_add, <- (bpow_IZR k Hk).
  assert (H : a / 2 ^ k * 2 ^ k <= a).
  { rewrite Z.mul_comm. apply Z.mul_div_le. apply Z.pow_pos_nonneg; lia. }
  apply IZR_le in H. rewrite mult_IZR in H. pose proof (bpow_pos E). nra.
Qed.

(** ** Digits *)

Lemma Zdigits2_lt m : 0 <= m -> m < 2 ^ Zdigits2 m.
Proof.
  destruct m as [|p|p]; intros H; [reflexivity| |lia].
  simpl. rewrite digits2_pos_size. apply size_bounds.
Qed.

Lemma Zdigits2_le m k : 0 <= k -> 0 <= m < 2 ^ k -> Zdigits2 m <= k.
Proof.
  intros Hk Hm. destruct m as [|p|p]; [simpl; lia| |lia].
  simpl. rewrite digits2_pos_size. destruct (size_bounds p) as [Sl _].
  destruct (Z.le_gt_cases (Zpos (Pos.size p)) k) as [|C]; [assumption|].
  assert (2 ^ k <= 2 ^ (Zpos (Pos.size p) - 1)) by (apply Z.pow_le_mono_r; lia). lia.
Qed.

(** ** The shifts of [SpecFloat] *)

Lemma shr_1_m mrs : 0 <= shr_m mrs -> shr_m (shr_1 mrs) = shr_m mrs / 2.
Proof.
  destruct mrs as [m r s]. simpl. intros H.
  destruct m as [|[p|p|]|p]; simpl;
    first [reflexivity | exfalso; lia | apply (Z.div_unique _ 2 _ 1); lia
          | apply (Z.div_unique _ 2 _ 0); lia].
Qed.

Lemma iter_shr_m p : forall mrs, 0 <= shr_m mrs ->
  shr_m (iter_pos shr_1 p mrs) = shr_m mrs / 2 ^ Zpos p.
Proof.
  induction p as [p IH|p IH|]; intros mrs H; simpl iter_pos.
  - assert (H1 : 0 <= shr_m (shr_1 mrs)) by (rewrite shr_1_m; [apply Z.div_pos|]; lia).
    assert (H2 : 0 <= shr_m (iter_pos shr_1 p (shr_1 mrs)))
      by (rewrite IH by exact H1; apply Z.div_pos; [exact H1|apply Z.pow_pos_nonneg; lia]).
    rewrite IH, IH, shr_1_m by assumption.
    rewrite !Z.div_div by pow2.
    f_equal. replace (Zpos p~1) with (1 + Zpos p + Zpos p) by lia.
    rewrite !Z.pow_add_r by lia. ring.
  - assert (H2 : 0 <= shr_m (iter_pos shr_1 p mrs))
      by (rewrite IH by exact H; apply Z.div_pos; [exact H|apply Z.pow_pos_nonneg; lia]).
    rewrite IH, IH by assumption.
    rewrite Z.div_div by pow2.
    f_equal. replace (Zpos p~0) with (Zpos p + Zpos p) by lia.
    rewrite Z.pow_add_r by lia. ring.
  - apply shr_1_m. exact H.
Qed.

Lemma shr_record_of_loc_m m l : shr_m (shr_record_of_loc m l) = m.
Proof. destruct l as [|[]]; reflexivity. Qed.

(** The first pass: the mantissa is shifted to exponent [rnd_exp m e]. *)
Lemma shr_fexp_spec m e l :
  0 <= m ->
  shr_m (fst (shr_fexp prec emax m e l)) = m / 2 ^ (rnd_exp m e - e) /\
  snd (shr_fexp prec emax m e l) = rnd_exp m e.
Proof.
  intros Hm. unfold shr_fexp, shr, rnd_exp.
  destruct (fexp prec emax (Zdigits2 m + e) - e) as [|p|p] eqn:D; simpl fst; simpl snd.
  - rewrite shr_record_of_loc_m. replace (_ - e) with 0 by lia. rewrite Z.div_1_r. split; lia.
  - rewrite iter_shr_m by (rewrite shr_record_of_loc_m; exact Hm).
    rewrite shr_record_of_loc_m. replace (_ - e) with (Zpos p) by lia. split; [reflexivity|lia].
  - rewrite shr_record_of_loc_m. replace (_ - e) with 0 by lia. rewrite Z.div_1_r. split; lia.
Qed.

Lemma rne_bounds m l : m <= round_nearest_even m l <= m + 1.
Proof. destruct l as [|[]]; simpl; try lia. destruct (Z.even m); lia. Qed.

(** ** One rounding *)

Lemma rnd_exp_bounds m e :
  e <= rnd_exp m e /\ Zdigits2 m + e - prec <= rnd_exp m e /\ -1074 <= rnd_exp m e.
Proof. unfold rnd_exp, fexp, emin, prec, emax. lia. Qed.

(** After the first pass the mantissa has at most [prec] digits. *)
Lemma shifted_mantissa_lt m e :
  0 <= m -> m / 2 ^ (rnd_exp m e - e) < 2 ^ prec.
Proof.
  intros Hm. destruct (rnd_exp_bounds m e) as (B1 & B2 & _).
  apply Z.div_lt_upper_bound; [pow2|].
  rewrite <- Z.pow_add_r by (unfold prec in *; lia).
  apply (Z.lt_le_trans _ (2 ^ Zdigits2 m)); [apply Zdigits2_lt; exact Hm|].
  apply Z.pow_le_mono_r; [lia|]. lia.
Qed.

(** Shifting [a] right by [k] bits loses less than one unit of the new
    last place. *)
Lemma div_pow_gt a k E :
  0 <= a -> 0 <= k -> (IZR a * bpow E < IZR (a / 2 ^ k) * bpow (E + k) + bpow (E + k))%R.
Proof.
  intros Ha Hk. rewrite bpow_add, <- (bpow_IZR k Hk).
  assert (H : a < (a / 2 ^ k + 1) * 2 ^ k).
  { assert (0 < 2 ^ k) by pow2. pose proof (Z.mod_pos_bound a (2 ^ k) H).
    pose proof (Z.div_mod a (2 ^ k) ltac:(lia)). nia. }
  apply IZR_lt in H. rewrite mult_IZR, plus_IZR in H. pose proof (bpow_pos E). nra.
Qed.

Lemma bpow_succ E : bpow (E + 1) = (2 * bpow E)%R.
Proof. rewrite bpow_add. replace (bpow 1) with 2%R by (unfold bpow; simpl; ring). ring. Qed.

(** A non-negative mantissa [m] at exponent [e] rounds to [+0.0] or a
    positive finite float within [-3] and [+1] units of [2^(rnd_exp m e)]
    of [m * 2^e], at exponent at most [rnd_exp m e + 1] (the second pass
    shifts at most once more). *)
Lemma round_aux_spec m e l :
  0 <= m -> rnd_exp m e + 1 <= emax - prec ->
  fin_nonneg (binary_round_aux prec emax false m e l) /\
  (IZR m * bpow e - 3 * bpow (rnd_exp m e) <= fval (binary_round_aux prec emax false m e l)
   <= IZR m * bpow e + bpow (rnd_exp m e))%R /\
  fexp_le (binary_round_aux prec emax false m e l) (rnd_exp m e + 1).
Proof.
  intros Hm Hx. unfold binary_round_aux.
  destruct (rnd_exp_bounds m e) as (B1 & _ & B3).
  destruct (shr_fexp_spec m e l Hm) as [M1 E1].
  destruct (shr_fexp prec emax m e l) as [r1 e1]. simpl in M1, E1. subst e1.
  pose proof (shifted_mantissa_lt m e Hm) as L1. rewrite <- M1 in L1.
  assert (P1 : 0 <= shr_m r1) by (rewrite M1; apply Z.div_pos; [exact Hm|pow2]).
  set (E := rnd_exp m e) in *. set (m1 := shr_m r1) in *.
  pose proof (rne_bounds m1 (loc_of_shr_record r1)) as R.
  set (m2 := round_nearest_even m1 (loc_of_shr_record r1)) in *.
  assert (P2 : 0 <= m2) by lia.
  destruct (shr_fexp_spec m2 E loc_Exact P2) as [M2 E2].
  destruct (shr_fexp prec emax m2 E loc_Exact) as [r2 e2]. simpl in M2, E2.
  assert (D2 : Zdigits2 m2 <= prec + 1).
  { apply Zdigits2_le; [unfold prec; lia|]. rewrite Z.pow_add_r by (unfold prec; lia). lia. }
  assert (Ee : E <= e2 <= E + 1) by (rewrite E2; unfold rnd_exp, fexp, emin, prec, emax in *; lia).
  assert (A1 : (IZR (shr_m r2) * bpow e2 <= IZR m2 * bpow E)%R).
  { rewrite M2, <- E2. replace e2 with (E + (e2 - E)) at 2 by lia. apply div_pow_le; lia. }
  assert (A1' : (IZR m2 * bpow E < IZR (shr_m r2) * bpow e2 + bpow e2)%R).
  { pose proof (div_pow_gt m2 (e2 - E) E P2 ltac:(lia)) as G.
    replace (E + (e2 - E)) with e2 in G by lia. rewrite M2, <- E2. exact G. }
  assert (A2 : (IZR m1 * bpow E <= IZR m * bpow e)%R).
  { rewrite M1. replace E with (e + (E - e)) at 2 by lia. apply div_pow_le; lia. }
  assert (A2' : (IZR m * bpow e < IZR m1 * bpow E + bpow E)%R).
  { pose proof (div_pow_gt m (E - e) e Hm ltac:(lia)) as G.
    replace (e + (E - e)) with E in G by lia. rewrite M1. exact G. }
  assert (A3 : (IZR m1 <= IZR m2 <= IZR m1 + 1)%R)
    by (rewrite <- plus_IZR; split; apply IZR_le; lia).
  pose proof (bpow_pos E) as BE.
  assert (B2 : (bpow e2 <= 2 * bpow E)%R) by (rewrite <- bpow_succ; apply bpow_le; lia).
  assert (P3 : 0 <= shr_m r2) by (rewrite M2; apply Z.div_pos; [exact P2|pow2]).
  destruct (shr_m r2) as [|p|p] eqn:M3; [| |lia].
  - split; [exact I|]. split; [|exact I]. simpl fval. simpl IZR in A1, A1'.
    assert (0 <= IZR m)%R by (apply IZR_le; exact Hm). pose proof (bpow_pos e). nra.
  - replace (e2 <=? emax - prec) with true by (symmetry; apply Z.leb_le; lia).
    split; [exact I|]. split; [|simpl; lia]. simpl fval. nra.
Qed.

Lemma fexp_le_mono x a b : fexp_le x a -> a <= b -> fexp_le x b.
Proof. destruct x; simpl; lia. Qed.

Lemma fval_nonneg x : fin_nonneg x -> (0 <= fval x)%R.
Proof.
  destruct x as [[]|[]| |[] m e]; simpl; intros H; try contradiction; try lra.
  assert (0 < IZR (Zpos m))%R by (apply IZR_lt; lia). pose proof (bpow_pos e). nra.
Qed.

(** ** [scale = (240 - top_margin - 20) / max_val] *)

Lemma Zdigits2_pos_bounds p : 2 ^ (Zdigits2 (Zpos p) - 1) <= Zpos p < 2 ^ Zdigits2 (Zpos p).
Proof. simpl. rewrite digits2_pos_size. apply size_bounds. Qed.

(** For a 16-bit [max_val > 0], [125 / max_val] is a finite positive
    float of exponent at most [-45], and [max_val * scale] is within
    [2^-43] of 125. *)
Lemma truediv_125_bound M :
  0 < M < 2 ^ 16 ->
  fin_nonneg (int_truediv 125 M) /\
  (125 - bpow (-43) <= IZR M * fval (int_truediv 125 M) <= 125 + bpow (-45))%R /\
  fexp_le (int_truediv 125 M) (-45).
Proof.
  intros HM. destruct M as [|p|p]; [lia| |lia].
  destruct (Zdigits2_pos_bounds p) as [Dl Dh].
  set (d := Zdigits2 (Zpos p)) in *.
  assert (Hd : 1 <= d <= 16).
  { split; [unfold d; simpl; lia|]. apply Zdigits2_le; lia. }
  unfold int_truediv, int_truediv_in, sf_of_Z, SFdiv, SFdiv_core_binary. fold d.
  replace (Zdigits2 125) with 7 by reflexivity.
  replace (Z.min (fexp prec emax (7 + 0 - (d + 0))) (0 - 0)) with (-46 - d)
    by (unfold fexp, emin, prec, emax; lia).
  replace (0 - 0 - (-46 - d)) with (Zpos (Z.to_pos (46 + d))) by lia.
  rewrite Z.shiftl_mul_pow2 by lia. rewrite Z2Pos.id by lia.
  destruct (Z.div_eucl (125 * 2 ^ (46 + d)) (Zpos p)) as [q r] eqn:D.
  assert (Q : q = 125 * 2 ^ (46 + d) / Zpos p) by (unfold Z.div; rewrite D; reflexivity).
  assert (E1 : 2 ^ (d + 53) = 2 ^ 7 * 2 ^ (46 + d)) by (rewrite <- Z.pow_add_r by lia; f_equal; lia).
  assert (E2 : 2 ^ (d + 53) = 2 ^ (d - 1) * 2 ^ 54) by (rewrite <- Z.pow_add_r by lia; f_equal; lia).
  assert (Hq : 0 <= q < 2 ^ 54).
  { rewrite Q. split; [apply Z.div_pos; [pow2|lia]|].
    apply Z.div_lt_upper_bound; [lia|]. assert (0 < 2 ^ (46 + d)) by pow2.
    change (2 ^ 7) with 128 in E1. nia. }
  assert (Hr : rnd_exp q (-46 - d) <= -45 - d).
  { assert (Zdigits2 q <= 54) by (apply Zdigits2_le; lia).
    unfold rnd_exp, fexp, emin, prec, emax. lia. }
  (* [q * 2^(-46-d)] is [125 / max_val] rounded down to a multiple of [2^(-46-d)]. *)
  assert (Hmul : q * Zpos p <= 125 * 2 ^ (46 + d) < (q + 1) * Zpos p).
  { rewrite Q. pose proof (Z.mod_pos_bound (125 * 2 ^ (46 + d)) (Zpos p) ltac:(lia)).
    pose proof (Z.div_mod (125 * 2 ^ (46 + d)) (Zpos p) ltac:(lia)). nia. }
  assert (Hbb : (bpow (-46 - d) * bpow (46 + d) = 1)%R)
    by (rewrite <- bpow_add; replace (-46 - d + (46 + d)) with 0 by lia; reflexivity).
  assert (HP : (0 < IZR (Zpos p))%R) by (apply IZR_lt; lia).
  set (u := bpow (-46 - d)) in *. pose proof (bpow_pos (-46 - d)) as Hu. fold u in Hu.
  assert (Hq1 : (IZR q * u * IZR (Zpos p) <= 125 <= (IZR q + 1) * u * IZR (Zpos p))%R).
  { destruct Hmul as [Hm1 Hm2]. apply IZR_le in Hm1. apply IZR_lt in Hm2.
    rewrite !mult_IZR, bpow_IZR in Hm1, Hm2 by lia. rewrite plus_IZR in Hm2. split; nra. }
  destruct (round_aux_spec q (-46 - d) (new_location (Zpos p) r)) as (F & [Vl Vh] & X);
    [lia|unfold prec, emax; lia|].
  cbn [xorb]. split; [exact F|]. split; [|eapply fexp_le_mono; [exact X|lia]].
  fold u in Vl, Vh.
  pose proof (bpow_le _ _ Hr) as Bl.
  assert (Hu2 : (2 * u = bpow (-45 - d))%R)
    by (unfold u; rewrite <- bpow_succ; f_equal; lia).
  assert (HPd : (IZR (Zpos p) <= bpow d)%R) by (rewrite <- bpow_IZR by lia; apply IZR_le; lia).
  assert (Bd : (bpow d * bpow (-45 - d) = bpow (-45))%R) by (rewrite <- bpow_add; f_equal; lia).
  assert (Bd' : (bpow (-43) = 4 * bpow (-45))%R).
  { replace (-43) with (-45 + 1 + 1) by lia. rewrite !bpow_succ. ring. }
  pose proof (bpow_pos (rnd_exp q (-46 - d))). pose proof (bpow_pos (-45 - d)).
  assert (K1 : (IZR (Zpos p) * bpow (rnd_exp q (-46 - d)) <= bpow (-45))%R)
    by (rewrite <- Bd; apply Rmult_le_compat; lra).
  assert (Du : (bpow d * u = bpow (-45) / 2)%R) by (rewrite <- Bd, <- Hu2; field).
  assert (K2 : (IZR (Zpos p) * u <= bpow (-45) / 2)%R)
    by (rewrite <- Du; apply Rmult_le_compat_r; lra).
  assert (U : (IZR (Zpos p) * fval (binary_round_aux prec emax false q (-46 - d) (new_location (Zpos p) r))
               <= IZR (Zpos p) * (IZR q * u + bpow (rnd_exp q (-46 - d))))%R)
    by (apply Rmult_le_compat_l; lra).
  assert (L : (IZR (Zpos p) * (IZR q * u - 3 * bpow (rnd_exp q (-46 - d)))
               <= IZR (Zpos p) * fval (binary_round_aux prec emax false q (-46 - d) (new_location (Zpos p) r)))%R)
    by (apply Rmult_le_compat_l; lra).
  split; nra.
Qed.

(** ** [int(bar * scale)] *)

(** [int(x)] of a finite non-negative float is its floor. *)
Lemma float_to_int_floor x :
  fin_nonneg x -> exists h, float_to_int x = Some h /\ (IZR h <= fval x < IZR h + 1)%R.
Proof.
  destruct x as [[]|[]| |[] m e]; simpl fval; intros F; try contradiction.
  - exists 0. split; [reflexivity|]. simpl. lra.
  - rewrite Rmult_1_l. unfold float_to_int. destruct (Z.leb_spec 0 e).
    + exists (Zpos m * 2 ^ e). split; [reflexivity|].
      rewrite mult_IZR, bpow_IZR by lia. lra.
    + exists (Z.shiftr (Zpos m) (- e)). split; [reflexivity|].
      rewrite Z.shiftr_div_pow2 by lia.
      pose proof (div_pow_le (Zpos m) (- e) e ltac:(lia) ltac:(lia)) as D1.
      pose proof (div_pow_gt (Zpos m) (- e) e ltac:(lia) ltac:(lia)) as D2.
      replace (e + - e) with 0 in D1, D2 by lia. change (bpow 0) with 1%R in D1, D2. lra.
Qed.

Lemma bpow_small : (bpow (-45) <= bpow (-43) <= bpow (-30) /\ bpow (-30) <= / 4)%R.
Proof.
  assert (H2 : (bpow (-2) = / 4)%R) by (unfold bpow; simpl; field).
  pose proof (bpow_le (-45) (-43) ltac:(lia)). pose proof (bpow_le (-43) (-30) ltac:(lia)).
  pose proof (bpow_le (-30) (-2) ltac:(lia)). lra.
Qed.

(** [float(bar) * scale] for [0 <= bar <= max_val < 2^16], [max_val > 0]:
    a finite non-negative float within [3 * 2^-30] below and [2^-30]
    above the exact product of [bar] and the rounded [scale]. The
    conversion [float(bar)] is exact; the product of the two mantissas has
    at most 23 integer bits, so its rounding unit is at most [2^-30]. *)
Lemma product_bounds b M :
  0 <= b <= M -> 0 < M < 2 ^ 16 ->
  exists x, num_mul_int b (PyFloat (int_truediv 125 M)) = Some (PyFloat x) /\ fin_nonneg x /\
    (IZR b * fval (int_truediv 125 M) - 3 * bpow (-30) <= fval x
     <= IZR b * fval (int_truediv 125 M) + bpow (-30))%R.
Proof.
  intros Hb HM. destruct (truediv_125_bound M HM) as (Fs & [_ Vs] & Xs).
  set (s := int_truediv 125 M) in *. pose proof (bpow_pos (-30)).
  unfold num_mul_int, num_mul_int_in, float_of_int, float_of_int_in.
  destruct b as [|pb|pb]; [| |lia]; cbn [binary_normalize option_map].
  - eexists. split; [reflexivity|].
    destruct s as [[]|[]| |[] ms es]; try contradiction; simpl; split; auto; lra.
  - assert (Hp : Zpos pb < 2 ^ prec) by (unfold prec; lia).
    destruct (round_int_exact false pb Hp) as (mb & eb & Eb & Heb & Hmb).
    unfold binary_normalize. rewrite Eb. cbn [option_map].
    eexists. split; [reflexivity|].
    destruct s as [[]|[]| |[] ms es]; try contradiction.
    + simpl. split; [exact I|]. lra.
    + simpl in Xs. simpl fval in Vs |- *. unfold fmul, fmul_in, SFmul. cbn [xorb].
      assert (Eb1 : (IZR (Zpos mb) * bpow eb = IZR (Zpos pb))%R).
      { rewrite Hmb, mult_IZR, bpow_IZR by lia. rewrite Rmult_assoc, <- bpow_add.
        replace (- eb + eb) with 0 by lia. change (bpow 0) with 1%R. ring. }
      set (v := (IZR (Zpos pb) * (1 * IZR (Zpos ms) * bpow es))%R).
      assert (Hv : (IZR (Zpos (mb * ms)) * bpow (eb + es) = v)%R)
        by (unfold v; rewrite Pos2Z.inj_mul, mult_IZR, bpow_add, <- Eb1; ring).
      assert (Hs0 : (0 <= 1 * IZR (Zpos ms) * bpow es)%R).
      { assert (0 < IZR (Zpos ms))%R by (apply IZR_lt; lia). pose proof (bpow_pos es). nra. }
      assert (Hv1 : (v <= 125 + bpow (-45))%R).
      { unfold v. assert (IZR (Zpos pb) <= IZR M)%R by (apply IZR_le; lia). nra. }
      assert (Hd : Zdigits2 (Zpos (mb * ms)) <= 23 - (eb + es)).
      { apply Zdigits2_le; [lia|]. split; [lia|]. apply lt_IZR. rewrite bpow_IZR by lia.
        pose proof (bpow_pos (eb + es)) as Pe.
        assert (B23 : (bpow (eb + es) * bpow (23 - (eb + es)) = 8388608)%R)
          by (rewrite <- bpow_add; replace (eb + es + (23 - (eb + es))) with 23 by lia;
              rewrite <- bpow_IZR by lia; reflexivity).
        pose proof bpow_small. nra. }
      assert (Hr : rnd_exp (Zpos (mb * ms)) (eb + es) <= -30)
        by (unfold rnd_exp, fexp, emin, prec, emax; lia).
      destruct (round_aux_spec (Zpos (mb * ms)) (eb + es) loc_Exact) as (F & [Vl Vh] & X);
        [lia|unfold prec, emax; lia|]. rewrite Hv in Vl, Vh.
      pose proof (bpow_le _ _ Hr). split; [exact F|]. fold v. lra.
Qed.

(** The height of a bar: for [0 <= bar <= max_val < 2^16] and
    [max_val > 0], [int(bar * (125 / max_val))] is defined (no
    [OverflowError] or [ValueError]) and lies in [0..125]: the product
    exceeds 125 by less than [2^-45 + 2^-30], so truncation never gives
    126. *)
Lemma bar_height_bound b M :
  0 <= b <= M -> 0 < M < 2 ^ 16 ->
  exists h, int_of_product b (PyFloat (int_truediv 125 M)) = Some h /\ 0 <= h <= 125.
Proof.
  intros Hb HM. destruct (truediv_125_bound M HM) as (Fs & [_ Vs] & _).
  destruct (product_bounds b M Hb HM) as (x & Ex & Fx & [_ Vx]).
  destruct (float_to_int_floor x Fx) as (h & Eh & Hl & Hh).
  exists h. unfold int_of_product, int_of_product_in. change (num_mul_int_in prec emax) with num_mul_int. rewrite Ex. split; [exact Eh|].
  pose proof (fval_nonneg _ Fs). pose proof (fval_nonneg _ Fx). pose proof bpow_small.
  assert (IZR b <= IZR M)%R by (apply IZR_le; lia).
  assert (IZR h < 126 /\ -1 < IZR h)%R as [U1 U2] by nra.
  apply lt_IZR in U1. apply lt_IZR in U2. lia.
Qed.

(** The tallest bar: [int(max_val * (125 / max_val))] is 124 or 125 for
    every 16-bit [max_val > 0]; the product lies within [2^-43 + 3 * 2^-30]
    of 125, on either side. *)
Lemma max_bar_height M :
  0 < M < 2 ^ 16 ->
  exists h, int_of_product M (PyFloat (int_truediv 125 M)) = Some h /\ 124 <= h <= 125.
Proof.
  intros HM. destruct (truediv_125_bound M HM) as (Fs & [Vl Vs] & _).
  destruct (product_bounds M M ltac:(lia) HM) as (x & Ex & Fx & [Lx Ux]).
  destruct (float_to_int_floor x Fx) as (h & Eh & Hl & Hh).
  exists h. unfold int_of_product, int_of_product_in. change (num_mul_int_in prec emax) with num_mul_int. rewrite Ex. split; [exact Eh|].
  pose proof bpow_small.
  assert (IZR h < 126 /\ 123 < IZR h)%R as [U1 U2] by lra.
  apply lt_IZR in U1. apply lt_IZR in U2. lia.
Qed.
