(* ===== verification/Hardware.v ===== *)
(** * The hardware collaborators and the primitive calls of the script

    The script talks to three libraries it imports: the AS7341 driver
    ([sensor.*], [from as7341 import *]), the TFT display ([tft.*],
    [import display]) and the m5stack buttons ([btnA], [btnB]), plus
    [print] and [sleep_ms]. Their internals are out of scope; what the
    script does with them is a sequence of calls, each of which is one
    [event] of the log. The answers the script receives (button latches,
    sensor presence, spectral readings) come from the [world].

    Ctrl-C is asynchronous: [intr] counts the hardware calls still to be
    made before [KeyboardInterrupt] is raised, in place of the next one;
    the interrupt is delivered once, so the calls an [except] handler
    makes afterwards run normally.
    The class [Interruptible] states what that means for a whole
    computation: interrupted after [k] calls, it logs exactly the first
    [k] events of the uninterrupted run and then raises. Its instances
    prove it for every computation built from the primitives. *)

From Stdlib Require Import ZArith List String Lia Bool.
From Stdlib Require Import Floats.SpecFloat.
From S2P Require Import Prelude PyFloat.
Import ListNotations.
Open Scope Z_scope.
Open Scope py_scope.

(** ** What the script can observe and do *)

(** The named colours of the display library ([tft.BLACK] ...) and the
    script's own RGB constants (lines 44-52). *)
Inductive color := BLACK | WHITE | YELLOW | CYAN | RGB (v : Z).

Inductive font := FONT_Default | FONT_DejaVu18 | FONT_DejaVu24.

Inductive measure_mode := AS7341_MODE_SPM.

Inductive button := BtnA | BtnB.

(** [get_spectral_data()] answers six channel counts. *)
Definition reading6 : Type := (Z * Z * Z * Z * Z * Z)%type.

Inductive event :=
| EvI2CInit (sda scl : Z)
| EvSensorInit
| EvIsConnected (r : bool)
| EvPrint (s : string)
| EvSetMeasureMode (m : measure_mode)
| EvSetAtime (v : Z)
| EvSetAstep (v : Z)
| EvSetAgain (v : Z)
| EvSetLedCurrent (ma : Z)
| EvEnableLed (on : bool)
| EvStartMeasure (sel : string)
| EvGetSpectralData (r : option reading6)
| EvTftInit
| EvClear (c : color)
| EvFont (f : font)
| EvText (x y : Z) (s : string) (c : color)
| EvRect (x y w h : Z) (c : color) (fill : option color)
| EvWasPressed (b : button) (r : bool)
| EvSleepMs (ms : Z)
| EvSensorDisable.

(** The exceptions the script can raise; [LoopFuelExhausted] is the
    model's marker for a [while True] loop still running. *)
Inductive exn :=
| KeyboardInterrupt
| OSError
| IndexError
| ValueError
| OverflowError
| ZeroDivisionError
| SystemExit (code : Z)
| LoopFuelExhausted.

Definition is_KeyboardInterrupt (e : exn) : bool :=
  match e with KeyboardInterrupt => true | _ => false end.

(** The outside world: the button latches of the m5stack library (set by a
    press, cleared by [wasPressed()]), whether the sensor answers, and the
    successive answers of [get_spectral_data()] ([None]: the I2C transfer
    fails with [OSError]). *)
Record ext_world := mkExt {
  btn_a : bool;
  btn_b : bool;
  sensor_ok : bool;
  spectra : list (option reading6)
}.

Record world := mkWorld { ext : ext_world; intr : option nat }.

Abbreviation HW := (PyM world event exn).

(** ** Primitive calls *)

(** One hardware call: unless Ctrl-C is due, it acts on the outside
    world and logs one event. When it is due, the call is not made,
    [KeyboardInterrupt] is raised and the pending interrupt is cleared. *)
Definition hw_call {A} (f : ext_world -> A * ext_world) (ev : A -> event) : HW A :=
  fun w =>
    match intr w with
    | Some O => Exc KeyboardInterrupt (mkWorld (ext w) None) []
    | Some (S n) => let '(a, x) := f (ext w) in Ok a (mkWorld x (Some n)) [ev a]
    | None => let '(a, x) := f (ext w) in Ok a (mkWorld x None) [ev a]
    end.

(** A call whose only effect is its event (a setter or a draw call). *)
Definition emit (e : event) : HW unit := hw_call (fun x => (tt, x)) (fun _ => e).

Definition take_latch (b : button) (x : ext_world) : bool * ext_world :=
  match b with
  | BtnA => (btn_a x, mkExt false (btn_b x) (sensor_ok x) (spectra x))
  | BtnB => (btn_b x, mkExt (btn_a x) false (sensor_ok x) (spectra x))
  end.

(** [btnA.wasPressed()] / [btnB.wasPressed()]: reads and clears the latch. *)
Definition was_pressed (b : button) : HW bool :=
  hw_call (take_latch b) (EvWasPressed b).

(** A press of a button by the user, between two calls of the script. *)
Definition press (b : button) (x : ext_world) : ext_world :=
  match b with
  | BtnA => mkExt true (btn_b x) (sensor_ok x) (spectra x)
  | BtnB => mkExt (btn_a x) true (sensor_ok x) (spectra x)
  end.

Definition is_connected : HW bool :=
  hw_call (fun x => (sensor_ok x, x)) EvIsConnected.

Definition next_spectrum (x : ext_world) : option reading6 * ext_world :=
  match spectra x with
  | [] => (None, x)
  | r :: rest => (r, mkExt (btn_a x) (btn_b x) (sensor_ok x) rest)
  end.

(** [sensor.get_spectral_data()]: a failed transfer raises [OSError]. *)
Definition get_spectral_data : HW reading6 :=
  r <- hw_call next_spectrum EvGetSpectralData ;;
  lift_option OSError r.

(** ** Python built-ins that can raise *)

(** [l[i]] *)
Definition py_get {A} (l : list A) (i : Z) : HW A := lift_option IndexError (py_nth l i).

(** [max(l)] *)
Definition py_max_hw (l : list Z) : HW Z := lift_option ValueError (py_max l).

(** [a / b] on ints. *)
Definition py_truediv (a b : Z) : HW float :=
  if b =? 0 then raise ZeroDivisionError
  else match int_truediv a b with
       | S754_infinity _ => raise OverflowError
       | f => ret f
       end.

(** [a * n] with [a] an int: int product, or [float(a) * n]. *)
Definition py_mul_int (a : Z) (n : py_num) : HW py_num :=
  lift_option OverflowError (num_mul_int a n).

(** [int(n)] *)
Definition py_int (n : py_num) : HW Z :=
  match n with
  | PyInt z => ret z
  | PyFloat f =>
      match f with
      | S754_nan => raise ValueError
      | S754_infinity _ => raise OverflowError
      | _ => lift_option ValueError (float_to_int f)
      end
  end.

(** ** Ctrl-C: the interruptible discipline *)

Definition out_log {A} (o : outcome world event exn A) : list event :=
  match o with Ok _ _ l | Exc _ _ l => l end.

(** The exceptions the script raises itself: neither the loop's fuel
    marker nor [KeyboardInterrupt], which only a delivered Ctrl-C raises. *)
Definition code_exn (e : exn) : bool :=
  match e with LoopFuelExhausted | KeyboardInterrupt => false | _ => true end.

(** An outcome without Ctrl-C: no interrupt pending, and an exception, if
    any, one the script raises itself. *)
Definition quiet {A} (o : outcome world event exn A) : Prop :=
  match o with
  | Ok _ w _ => intr w = None
  | Exc e w _ => intr w = None /\ code_exn e = true
  end.

(** [o'] is what becomes of the uninterrupted outcome [o] when Ctrl-C is
    due after [k] calls: the same outcome with the counter run down when
    [o] made at most [k] calls, else [KeyboardInterrupt] after exactly the
    first [k] events. *)
Definition interrupted {A} (o : outcome world event exn A) (k : nat)
    (o' : outcome world event exn A) : Prop :=
  if (List.length (out_log o) <=? k)%nat then
    match o with
    | Ok a w l => o' = Ok a (mkWorld (ext w) (Some (k - List.length l)%nat)) l
    | Exc e w l => o' = Exc e (mkWorld (ext w) (Some (k - List.length l)%nat)) l
    end
  else exists x', o' = Exc KeyboardInterrupt (mkWorld x' None) (firstn k (out_log o)).

Class Interruptible {A} (c : HW A) : Prop :=
  interruptible : forall x,
    quiet (c (mkWorld x None)) /\
    forall k, interrupted (c (mkWorld x None)) k (c (mkWorld x (Some k))).

Lemma interrupted_prepend {A} (o o' : outcome world event exn A) l k :
  interrupted o (k - List.length l) o' -> (List.length l <= k)%nat ->
  interrupted (prepend l o) k (prepend l o').
Proof.
  unfold interrupted. intros H Hl.
  destruct o as [a w l2|e w l2]; simpl in *; rewrite length_app;
    destruct (Nat.leb_spec (List.length l2) (k - List.length l)) as [C|C];
    destruct (Nat.leb_spec (List.length l + List.length l2) k) as [C'|C']; try lia.
  - subst o'. simpl. rewrite Nat.sub_add_distr. reflexivity.
  - destruct H as [w' ->]. exists w'. simpl. rewrite firstn_app, (firstn_all2 (n := k) l) by lia. reflexivity.
  - subst o'. simpl. rewrite Nat.sub_add_distr. reflexivity.
  - destruct H as [w' ->]. exists w'. simpl. rewrite firstn_app, (firstn_all2 (n := k) l) by lia. reflexivity.
Qed.

Lemma interrupted_cut {A} (o : outcome world event exn A) l k x' :
  (k < List.length l)%nat ->
  interrupted (prepend l o) k (Exc KeyboardInterrupt (mkWorld x' None) (firstn k l)).
Proof.
  intros Hk. unfold interrupted.
  destruct o as [a w l2|e w l2]; simpl; rewrite length_app;
    destruct (Nat.leb_spec (List.length l + List.length l2) k); try lia;
    exists x'; rewrite firstn_app; replace (k - List.length l)%nat with O by lia;
    rewrite app_nil_r; reflexivity.
Qed.

(** After an interrupted run that still completed, some of the [k] calls
    remain. *)
Lemma interruptible_counter {A} (c : HW A) x k a w l :
  Interruptible c -> c (mkWorld x (Some k)) = Ok a w l ->
  exists k', intr w = Some k' /\ (k' + List.length l = k)%nat.
Proof.
  intros Hc E. destruct (Hc x) as [_ Hi]. specialize (Hi k). unfold interrupted in Hi.
  rewrite E in Hi.
  destruct (c (mkWorld x None)) as [a0 w0 l0|e0 w0 l0]; simpl in Hi;
    destruct (Nat.leb_spec (List.length l0) k).
  - injection Hi as _ Hw Hl. subst w l. exists (k - List.length l0)%nat. split; [reflexivity|lia].
  - destruct Hi as [? Hi]. discriminate Hi.
  - discriminate Hi.
  - destruct Hi as [? Hi]. discriminate Hi.
Qed.

#[export] Instance ret_interruptible {A} (a : A) : Interruptible (ret a).
Proof.
  intros x. split; [reflexivity|]. intros k. unfold interrupted. simpl.
  rewrite Nat.sub_0_r. reflexivity.
Qed.

#[export] Instance raise_interruptible {A} (e : exn) :
  code_exn e = true -> Interruptible (@raise _ _ _ A e).
Proof.
  intros He x. split; [split; [reflexivity|exact He]|]. intros k. unfold interrupted. simpl.
  rewrite Nat.sub_0_r. reflexivity.
Qed.

#[export] Instance hw_call_interruptible {A} f (ev : A -> event) :
  Interruptible (hw_call f ev).
Proof.
  intros x. unfold hw_call. simpl. destruct (f x) as [a x']. split; [reflexivity|].
  intros [|k]; unfold interrupted; simpl.
  - exists x. reflexivity.
  - rewrite Nat.sub_0_r. reflexivity.
Qed.

#[export] Instance bind_interruptible {A B} (c : HW A) (k : A -> HW B) :
  Interruptible c -> (forall a, Interruptible (k a)) -> Interruptible (bind c k).
Proof.
  intros Hc Hk x. destruct (Hc x) as [Hc0 Hc1]. unfold bind.
  destruct (c (mkWorld x None)) as [a w l|e w l] eqn:E.
  - simpl in Hc0. destruct w as [x1 i1]. simpl in Hc0. subst i1.
    destruct (Hk a x1) as [Hk0 Hk1]. split.
    + destruct (k a (mkWorld x1 None)); exact Hk0.
    + intros j. specialize (Hc1 j). unfold interrupted in Hc1. simpl in Hc1.
      destruct (Nat.leb_spec (List.length l) j) as [C|C].
      * rewrite Hc1. apply interrupted_prepend; [apply Hk1|exact C].
      * destruct Hc1 as [w' ->]. apply interrupted_cut. exact C.
  - split; [exact Hc0|]. intros j. specialize (Hc1 j). unfold interrupted in *. simpl in *.
    destruct (Nat.leb_spec (List.length l) j).
    + rewrite Hc1. reflexivity.
    + destruct Hc1 as [w' ->]. exists w'. reflexivity.
Qed.

#[export] Instance lift_option_interruptible {A} e (o : option A) :
  code_exn e = true -> Interruptible (lift_option e o).
Proof. intros He. destruct o; [apply ret_interruptible|apply raise_interruptible; exact He]. Qed.

#[export] Hint Extern 1 (code_exn _ = true) => reflexivity : typeclass_instances.

#[export] Hint Extern 1 (Interruptible (if ?b then _ else _)) =>
  destruct b : typeclass_instances.
#[export] Hint Extern 1 (Interruptible (match ?x with _ => _ end)) =>
  destruct x : typeclass_instances.
Ltac head_of t := match t with ?f _ => head_of f | _ => t end.

#[export] Hint Extern 2 (Interruptible ?c) =>
  let h := head_of c in progress (unfold h) : typeclass_instances.
#[export] Hint Extern 3 (Interruptible _) =>
  progress (cbv beta zeta) : typeclass_instances.

