(* ===== verification/Contracts.v ===== *)
(** * The collaborators' parameter types, and a logic of calls

    Specification section 6 gives the interfaces the script calls: the
    sensor's setters (integration step, gain code, LED current
    [0..100] mA), the display's [clear], [fillRect], [outlineRect] and
    [drawText] with RGB colours, and the buttons. [event_ok] is the type
    of each call's arguments: 24-bit colours, non-negative rectangle
    sizes, a gain code of the table ([0..10]), the 8- and 16-bit ATIME
    and ASTEP registers of the AS7341, the LED current range, a
    non-negative sleep.

    [calls_ok Iw c Q] is a Hoare triple for the monad [HW]: from a world
    whose outside part satisfies the invariant [Iw], every call [c]
    makes is well-typed, [Iw] holds again on both exits, and a normal
    result satisfies [Q]. The rules below (return, raise, bind,
    consequence, one hardware call, [try/except]) compose it along the
    program; Ctrl-C needs no rule of its own, since an interrupted call
    makes no call and leaves the world as it was. *)

From Stdlib Require Import ZArith List String Lia Bool.
From S2P Require Import Prelude PyFloat Hardware.
Import ListNotations.
Open Scope Z_scope.
Open Scope py_scope.

(** ** The types of the calls' arguments *)

Definition color_ok (c : color) : bool :=
  match c with RGB v => (0 <=? v) && (v <? 2 ^ 24) | _ => true end.

Definition event_ok (e : event) : bool :=
  match e with
  | EvSetAtime v => (0 <=? v) && (v <=? 255)
  | EvSetAstep v => (0 <=? v) && (v <=? 65534)
  | EvSetAgain v => (0 <=? v) && (v <=? 10)
  | EvSetLedCurrent ma => (0 <=? ma) && (ma <=? 100)
  | EvClear c => color_ok c
  | EvText _ _ _ c => color_ok c
  | EvRect _ _ w h c fill =>
      (0 <=? w) && (0 <=? h) && color_ok c
      && match fill with Some f => color_ok f | None => true end
  | EvSleepMs ms => 0 <=? ms
  | _ => true
  end.

Definition typed (e : event) : Prop := event_ok e = true.

(** ** Triples *)

Section CallSpec.
Variable Iw : ext_world -> Prop.

Definition calls_ok {A} (c : HW A) (Q : A -> Prop) : Prop :=
  forall w, Iw (ext w) ->
    match c w with
    | Ok a w' l => Forall typed l /\ Iw (ext w') /\ Q a
    | Exc _ w' l => Forall typed l /\ Iw (ext w')
    end.

Lemma calls_ok_ret {A} (a : A) (Q : A -> Prop) : Q a -> calls_ok (ret a) Q.
Proof. intros Hq w Hw. repeat split; auto. Qed.

Lemma calls_ok_ret_True {A} (a : A) : calls_ok (ret a) (fun _ => True).
Proof. apply calls_ok_ret. exact I. Qed.

Lemma calls_ok_raise {A} (e : exn) (Q : A -> Prop) : calls_ok (raise e) Q.
Proof. intros w Hw. split; auto. Qed.

Lemma calls_ok_weaken {A} (c : HW A) (P Q : A -> Prop) :
  calls_ok c P -> (forall a, P a -> Q a) -> calls_ok c Q.
Proof.
  intros Hc H w Hw. specialize (Hc w Hw). destruct (c w); intuition.
Qed.

Lemma calls_ok_bind {A B} (c : HW A) (k : A -> HW B) (P : A -> Prop) (Q : B -> Prop) :
  calls_ok c P -> (forall a, P a -> calls_ok (k a) Q) -> calls_ok (bind c k) Q.
Proof.
  intros Hc Hk w Hw. specialize (Hc w Hw). unfold bind.
  destruct (c w) as [a w1 l1|e w1 l1]; [|exact Hc].
  destruct Hc as (T1 & I1 & P1). specialize (Hk a P1 w1 I1).
  destruct (k a w1); simpl; rewrite Forall_app; intuition.
Qed.

Lemma calls_ok_try_except {A} (c : HW A) (p : exn -> bool) (h : exn -> HW A) (Q : A -> Prop) :
  calls_ok c Q -> (forall e, calls_ok (h e) Q) -> calls_ok (try_except c p h) Q.
Proof.
  intros Hc Hh w Hw. specialize (Hc w Hw). unfold try_except.
  destruct (c w) as [a w1 l1|e w1 l1]; [exact Hc|]. destruct Hc as (T1 & I1).
  destruct (p e); [|auto]. specialize (Hh e w1 I1).
  destruct (h e w1); simpl; rewrite Forall_app; intuition.
Qed.

(** One call: its answer and the new outside world come from [f]. *)
Lemma calls_ok_hw_call {A} (f : ext_world -> A * ext_world) (ev : A -> event) (Q : A -> Prop) :
  (forall x, Iw x -> Iw (snd (f x)) /\ Q (fst (f x)) /\ typed (ev (fst (f x)))) ->
  calls_ok (hw_call f ev) Q.
Proof.
  intros H w Hw. unfold hw_call.
  destruct (H _ Hw) as (I & Qa & T). destruct (f (ext w)) as [a x]. simpl in *.
  destruct (intr w) as [[|n]|]; repeat constructor; auto.
Qed.

Lemma calls_ok_emit (e : event) : typed e -> calls_ok (emit e) (fun _ => True).
Proof. intros He. apply calls_ok_hw_call. intros x Hx. simpl. auto. Qed.

Lemma calls_ok_lift_option {A} (e : exn) (o : option A) :
  calls_ok (lift_option e o) (fun a => o = Some a).
Proof. destruct o; [apply calls_ok_ret; reflexivity|apply calls_ok_raise]. Qed.

Lemma calls_ok_py_get {A} (l : list A) (i : Z) : calls_ok (py_get l i) (fun a => In a l).
Proof.
  unfold py_get. destruct (py_nth l i) as [a|] eqn:E; [|apply calls_ok_raise].
  apply calls_ok_ret. exact (py_nth_In _ _ _ E).
Qed.
Lemma calls_ok_py_int (p : py_num) : calls_ok (py_int p) (fun h => num_int p = Some h).
Proof.
  unfold py_int. destruct p as [z|f]; [apply calls_ok_ret; reflexivity|].
  destruct f as [s|s| |s m e]; first [apply calls_ok_raise | apply calls_ok_lift_option].
Qed.
End CallSpec.

Arguments calls_ok Iw {A} c Q.

(** ** Proving triples along a program

    [calls_step] takes one step of a program: a bind is split with the
    triple of its first part (its postcondition named [H] for the rest),
    a branch is split, a call is discharged by its rule, and a named
    operation is unfolded. [typed_tac] proves a call well-typed, looking
    up the table a colour or a value came from when it is not a constant. *)

Ltac in_cases :=
  cbv beta in *;
  repeat match goal with
  | H : In ?a _ |- context [?a] => simpl in H; repeat destruct H as [<-|H]; try contradiction
  end.

Ltac typed_tac :=
  first [reflexivity
        | in_cases; unfold typed; cbn;
          repeat rewrite andb_true_iff; rewrite ?Z.leb_le, ?Z.ltb_lt;
          first [reflexivity | repeat split; lia]].

Ltac calls_step :=
  match goal with
  | |- calls_ok _ (bind _ _) _ => eapply calls_ok_bind; [|intros ?a ?H]
  | |- calls_ok _ (ret _) _ => first [apply calls_ok_ret_True | apply calls_ok_ret]
  | |- calls_ok _ (raise _) _ => apply calls_ok_raise
  | |- calls_ok _ (emit _) _ => apply calls_ok_emit; try typed_tac
  | |- calls_ok _ (py_get _ _) _ => apply calls_ok_py_get
  | |- calls_ok _ (lift_option _ _) _ => apply calls_ok_lift_option
  | |- calls_ok _ (if ?b then _ else _) _ => destruct b
  | |- calls_ok _ (match ?x with _ => _ end) _ => destruct x
  | |- calls_ok _ ?c _ => let h := head_of c in progress (unfold h)
  end.
