(* ===== verification/Params.v ===== *)
(** * The parameter tables, the globals and the settings screens

    main.py keeps its configuration in module-level lists (lines 11-19,
    44-52) and four mutable globals (lines 13, 15, 16, 17). This file
    holds those tables, the globals as a record, [update_settings]
    (lines 54-57), the integration time in milliseconds (lines 90, 186)
    and the three settings screens (lines 59-116), each a sequence of
    display calls in the order of the source. *)

From Stdlib Require Import ZArith List String Lia Bool.
From Stdlib Require Import Floats.SpecFloat.
From S2P Require Import Prelude PyFloat Hardware.
Import ListNotations.
Open Scope Z_scope.
Open Scope string_scope.
Open Scope py_scope.

(** ** Tables *)

Definition gain_codes : list Z := [0; 1; 2; 3; 4; 5; 6; 7; 8; 9; 10].

(** [0.5] is a float literal, the others are ints. *)
Definition gain_factors : list py_num :=
  [PyFloat (float_lit 5 1); PyInt 1; PyInt 2; PyInt 4; PyInt 8; PyInt 16;
   PyInt 32; PyInt 64; PyInt 128; PyInt 256; PyInt 512].

Definition atime_settings : list Z := [9; 19; 29; 39; 49; 59].

Definition wavelength_names : list string :=
  ["Violet"; "Vio-Blue"; "Blue"; "Cyan"; "Green"; "Yellow"; "Orange"; "Red"; "NIR"].

Definition wavelength_values : list Z := [415; 445; 480; 515; 555; 590; 630; 680; 940].

Definition DEEP_VIOLET : color := RGB 0x8000FF.
Definition VIOLET_BLUE : color := RGB 0x4B0082.
Definition BLUE : color := RGB 0x0000FF.
Definition CYAN_F4 : color := RGB 0x00FFFF.
Definition GREEN : color := RGB 0x00FF00.
Definition YELLOW_F6 : color := RGB 0xFFFF00.
Definition ORANGE : color := RGB 0xFF8000.
Definition DEEP_RED : color := RGB 0xFF0000.
Definition GREY : color := RGB 0x808080.

(** ** The globals

    [current_mode] is the integer of the source (0 normal, 1 gain,
    2 integration time, 3 wavelength). *)
Record globals := mkGlobals {
  gain_index : Z;
  atime_index : Z;
  current_mode : Z;
  wavelength_index : Z
}.

(** Lines 13, 15, 16, 17. *)
Definition initial_globals : globals := mkGlobals 4 2 0 2.

Definition set_gain_index (g : globals) (i : Z) : globals :=
  mkGlobals i (atime_index g) (current_mode g) (wavelength_index g).
Definition set_atime_index (g : globals) (i : Z) : globals :=
  mkGlobals (gain_index g) i (current_mode g) (wavelength_index g).
Definition set_mode (g : globals) (m : Z) : globals :=
  mkGlobals (gain_index g) (atime_index g) m (wavelength_index g).
Definition set_wavelength_index (g : globals) (i : Z) : globals :=
  mkGlobals (gain_index g) (atime_index g) (current_mode g) i.

(** ** Sensor configuration *)

(** [update_settings()]: ATIME first, then the gain code. *)
Definition update_settings (g : globals) : HW unit :=
  v <- py_get atime_settings (atime_index g) ;;
  emit (EvSetAtime v) ;;
  c <- py_get gain_codes (gain_index g) ;;
  emit (EvSetAgain c).

(** [(atime_settings[atime_index] + 1) * 2.78]: an int times a float. *)
Definition atime_ms (raw : Z) : HW py_num := py_mul_int (raw + 1) (PyFloat (float_lit 278 2)).

(** [str(round(n, 1))] ([round] of an int with digits is the int). *)
Definition str_round1_num (n : py_num) : string :=
  match n with PyInt z => py_str_int z | PyFloat f => str_round1 f end.

(** ** The settings screens *)

Definition text (x y : Z) (s : string) (c : color) : HW unit := emit (EvText x y s c).
Definition set_font (f : font) : HW unit := emit (EvFont f).
Definition clear (c : color) : HW unit := emit (EvClear c).

Definition display_gain_settings (g : globals) : HW unit :=
  clear BLACK ;;
  set_font FONT_DejaVu18 ;;
  text 10 20 "GAIN" YELLOW ;;
  set_font FONT_DejaVu24 ;;
  f <- py_get gain_factors (gain_index g) ;;
  text 10 60 ("x" ++ py_str_num f) WHITE ;;
  set_font FONT_DejaVu18 ;;
  text 10 120 "A: Change" CYAN ;;
  text 10 160 "B: Time" CYAN.

Definition display_integration_settings (g : globals) : HW unit :=
  clear BLACK ;;
  set_font FONT_DejaVu18 ;;
  text 10 20 "INT TIME" YELLOW ;;
  set_font FONT_DejaVu24 ;;
  raw <- py_get atime_settings (atime_index g) ;;
  ms <- atime_ms raw ;;
  text 10 60 (str_round1_num ms ++ "ms") WHITE ;;
  set_font FONT_DejaVu18 ;;
  text 10 120 "A: Change" CYAN ;;
  text 10 160 "B: Exit" CYAN.

Definition display_wavelength_selection (g : globals) : HW unit :=
  clear BLACK ;;
  set_font FONT_DejaVu18 ;;
  text 10 20 "WAVE LENT" YELLOW ;;
  set_font FONT_DejaVu24 ;;
  name <- py_get wavelength_names (wavelength_index g) ;;
  text 10 60 name WHITE ;;
  v <- py_get wavelength_values (wavelength_index g) ;;
  text 10 95 (py_str_int v ++ " nm") WHITE ;;
  set_font FONT_DejaVu18 ;;
  text 10 140 "A: Change" CYAN ;;
  text 10 180 "B: Gain" CYAN.

(** ** Well-formedness of the tables and of the globals *)

(** The indices the globals hold are in range of the tables they index
    (the gain index addresses both [gain_codes] and [gain_factors]). *)
Definition indices_ok (g : globals) : Prop :=
  0 <= gain_index g < Z.of_nat (List.length gain_codes) /\
  0 <= atime_index g < Z.of_nat (List.length atime_settings) /\
  0 <= wavelength_index g < Z.of_nat (List.length wavelength_names).

Lemma initial_indices_ok : indices_ok initial_globals.
Proof. unfold indices_ok; simpl; lia. Qed.

#[export] Hint Resolve initial_indices_ok : spectro.

(** What each screen draws, given the one line that depends on the globals. *)
Definition gain_screen (label : string) : list event :=
  [EvClear BLACK; EvFont FONT_DejaVu18; EvText 10 20 "GAIN" YELLOW;
   EvFont FONT_DejaVu24; EvText 10 60 label WHITE; EvFont FONT_DejaVu18;
   EvText 10 120 "A: Change" CYAN; EvText 10 160 "B: Time" CYAN].

Definition integration_screen (label : string) : list event :=
  [EvClear BLACK; EvFont FONT_DejaVu18; EvText 10 20 "INT TIME" YELLOW;
   EvFont FONT_DejaVu24; EvText 10 60 label WHITE; EvFont FONT_DejaVu18;
   EvText 10 120 "A: Change" CYAN; EvText 10 160 "B: Exit" CYAN].

Definition wavelength_screen (name nm : string) : list event :=
  [EvClear BLACK; EvFont FONT_DejaVu18; EvText 10 20 "WAVE LENT" YELLOW;
   EvFont FONT_DejaVu24; EvText 10 60 name WHITE; EvText 10 95 nm WHITE;
   EvFont FONT_DejaVu18; EvText 10 140 "A: Change" CYAN; EvText 10 180 "B: Gain" CYAN].

Definition gain_labels : list string :=
  ["x0.5"; "x1"; "x2"; "x4"; "x8"; "x16"; "x32"; "x64"; "x128"; "x256"; "x512"].

(** [str(round(atime_ms, 1))] for the six ATIME values. *)
Definition time_labels : list string :=
  ["27.8"; "55.6"; "83.4"; "111.2"; "139.0"; "166.8"].

Definition integration_labels : list string := List.map (fun t => t ++ "ms") time_labels.

(** ** Sensor configuration *)

(** C26: [update_settings] always makes exactly two sensor calls, ATIME then
    AGAIN, with [atime_settings[atime_index] = 10 * atime_index + 9] and
    [gain_codes[gain_index] = gain_index], and changes nothing else. *)
Theorem update_settings_pushes (g : globals) (x : ext_world) :
  indices_ok g ->
  update_settings g (mkWorld x None)
  = Ok tt (mkWorld x None)
       [EvSetAtime (10 * atime_index g + 9); EvSetAgain (gain_index g)].
Proof.
  destruct g as [gi ai m wi]. unfold indices_ok; simpl. intros (Hg & Ha & _).
  enum_range Hg; enum_range Ha; reflexivity.
Qed.

Lemma update_settings_pushes_witness :
  indices_ok (set_atime_index (set_gain_index initial_globals 10) 5) /\
  update_settings (set_atime_index (set_gain_index initial_globals 10) 5) (mkWorld (mkExt false false true []) None)
  = Ok tt (mkWorld (mkExt false false true []) None) [EvSetAtime (10 * 5 + 9); EvSetAgain 10].
Proof.
  assert (H : indices_ok (set_atime_index (set_gain_index initial_globals 10) 5))
    by (unfold indices_ok; simpl; lia).
  split; [exact H|]. apply (update_settings_pushes _ _ H).
Defined.

(** ** The settings screens *)

(** C28: the gain screen shows [x] followed by [str(gain_factors[i])]:
    [x0.5] for the float [0.5], then [x1] to [x512] for the ints. *)
Theorem display_gain_settings_shows (g : globals) (x : ext_world) :
  0 <= gain_index g < 11 ->
  display_gain_settings g (mkWorld x None)
  = Ok tt (mkWorld x None)
       (gain_screen (nth (Z.to_nat (gain_index g)) gain_labels "")).
Proof.
  destruct g as [gi ai m wi]. simpl. intros Hg. enum_range Hg; reflexivity.
Qed.

Lemma display_gain_settings_shows_witness :
  0 <= gain_index (set_gain_index initial_globals 0) < 11 /\
  display_gain_settings (set_gain_index initial_globals 0) (mkWorld (mkExt false false true []) None)
  = Ok tt (mkWorld (mkExt false false true []) None) (gain_screen "x0.5").
Proof. split; [simpl; lia|]. apply display_gain_settings_shows. simpl. lia. Defined.

(** C27: the integration-time screen shows [str(round((raw + 1) * 2.78, 1))]
    with [ms], computed in binary64: [27.8ms], [55.6ms], [83.4ms],
    [111.2ms], [139.0ms], [166.8ms] for the six ATIME values, although
    the products themselves are [27.799999999999997], ..., and [139.0]. *)
Theorem display_integration_settings_shows (g : globals) (x : ext_world) :
  0 <= atime_index g < 6 ->
  display_integration_settings g (mkWorld x None)
  = Ok tt (mkWorld x None)
       (integration_screen (nth (Z.to_nat (atime_index g)) integration_labels "")).
Proof.
  destruct g as [gi ai m wi]. simpl. intros Ha. enum_range Ha; vm_compute; reflexivity.
Qed.

Lemma display_integration_settings_shows_witness :
  0 <= atime_index (set_atime_index initial_globals 5) < 6 /\
  display_integration_settings (set_atime_index initial_globals 5) (mkWorld (mkExt false false true []) None)
  = Ok tt (mkWorld (mkExt false false true []) None) (integration_screen "166.8ms").
Proof. split; [simpl; lia|]. apply display_integration_settings_shows. simpl. lia. Defined.

(** C2: the wavelength screen shows the channel's name and its centre
    wavelength followed by [ nm]. *)
Theorem display_wavelength_selection_shows (g : globals) (x : ext_world) :
  0 <= wavelength_index g < 9 ->
  display_wavelength_selection g (mkWorld x None)
  = Ok tt (mkWorld x None)
       (wavelength_screen (nth (Z.to_nat (wavelength_index g)) wavelength_names "")
          (py_str_int (nth (Z.to_nat (wavelength_index g)) wavelength_values 0) ++ " nm")).
Proof.
  destruct g as [gi ai m wi]. simpl. intros Hw. enum_range Hw; reflexivity.
Qed.

Lemma display_wavelength_selection_shows_witness :
  0 <= wavelength_index (set_wavelength_index initial_globals 8) < 9 /\
  display_wavelength_selection (set_wavelength_index initial_globals 8) (mkWorld (mkExt false false true []) None)
  = Ok tt (mkWorld (mkExt false false true []) None) (wavelength_screen "NIR" ("940" ++ " nm")).
Proof. split; [simpl; lia|]. apply display_wavelength_selection_shows. simpl. lia. Defined.

(** Under the invariant the three screens and the configuration push
    complete; used by the state machine. *)
Lemma screens_complete (g : globals) (x : ext_world) :
  indices_ok g ->
  (exists l, update_settings g (mkWorld x None) = Ok tt (mkWorld x None) l) /\
  (exists l, display_gain_settings g (mkWorld x None) = Ok tt (mkWorld x None) l) /\
  (exists l, display_integration_settings g (mkWorld x None) = Ok tt (mkWorld x None) l) /\
  (exists l, display_wavelength_selection g (mkWorld x None) = Ok tt (mkWorld x None) l).
Proof.
  destruct g as [gi ai m wi]. unfold indices_ok; simpl. intros (Hg & Ha & Hw).
  split; [|split; [|split]].
  - enum_range Hg; enum_range Ha; eexists; reflexivity.
  - enum_range Hg; eexists; reflexivity.
  - enum_range Ha; eexists; vm_compute; reflexivity.
  - enum_range Hw; eexists; reflexivity.
Qed.
