(* ===== verification/Spectrum.v ===== *)
(** * The spectrum screen: [display_spectrum] (main.py lines 118-187)

    Nine bars, one per channel F1..F8 and NIR, scaled by the float
    [scale = (240 - top_margin - 20) / max(bars)] (or the int [1] when
    the maximum is not positive), each [int(bar * scale)] pixels high and
    bottom-aligned at [y = 240]; the selected channel gets a white outline
    drawn first; a label under each bar; four header lines. *)

From Stdlib Require Import ZArith List String Lia Bool.
From Stdlib Require Import Floats.SpecFloat.
From S2P Require Import Prelude PyFloat Hardware Params.
Import ListNotations.
Open Scope string_scope.
Open Scope Z_scope.
Open Scope py_scope.

(** The local [colors] list of line 125. *)
Definition spectrum_colors : list color :=
  [DEEP_VIOLET; VIOLET_BLUE; BLUE; CYAN_F4; GREEN; YELLOW_F6; ORANGE; DEEP_RED; GREY].

Definition top_margin : Z := 95.
Definition bar_width : Z := 10.
Definition spacing : Z := 4.
Definition start_x : Z := (135 - (9 * bar_width + 8 * spacing)) / 2.

(** The left edge of bar [i]. *)
Definition bar_x (i : Z) : Z := start_x + i * (bar_width + spacing).

(** [scale] (line 135); the division is Python's true division. *)
Definition compute_scale (max_val : Z) : HW py_num :=
  if 0 <? max_val
  then f <- py_truediv (240 - top_margin - 20) max_val ;; ret (PyFloat f)
  else ret (PyInt 1).

(** One iteration of [for i, bar in enumerate(bars)] (lines 143-164). *)
Definition draw_bar (g : globals) (scale : py_num) (i bar : Z) : HW unit :=
  prod <- py_mul_int bar scale ;;
  height <- py_int prod ;;
  color <- py_get spectrum_colors i ;;
  (if i =? wavelength_index g
   then emit (EvRect (bar_x i - 2) (240 - height - 2) (bar_width + 4) (height + 4) WHITE None)
   else ret tt) ;;
  emit (EvRect (bar_x i) (240 - height) bar_width height color (Some color)) ;;
  set_font FONT_Default ;;
  if i <? 8
  then v <- py_get wavelength_values i ;; text (bar_x i - 2) 245 (py_str_int v) WHITE
  else text (bar_x i - 2) 245 "NIR" WHITE.

Fixpoint draw_bars (g : globals) (scale : py_num) (i : Z) (bars : list Z) : HW unit :=
  match bars with
  | [] => ret tt
  | b :: rest => draw_bar g scale i b ;; draw_bars g scale (i + 1) rest
  end.

Definition display_spectrum (g : globals) (f1 f2 f3 f4 f5 f6 f7 f8 nir : Z) : HW unit :=
  clear BLACK ;;
  let bars := [f1; f2; f3; f4; f5; f6; f7; f8; nir] in
  selected_bar <- py_get bars (wavelength_index g) ;;
  selected_color <- py_get spectrum_colors (wavelength_index g) ;;
  selected_name <- py_get wavelength_names (wavelength_index g) ;;
  max_val <- py_max_hw bars ;;
  scale <- compute_scale max_val ;;
  draw_bars g scale 0 bars ;;
  set_font FONT_DejaVu24 ;;
  let name_width := py_len selected_name * 14 in
  let center_x := (135 - name_width) / 2 in
  text center_x 5 selected_name selected_color ;;
  let count_width := py_len (py_str_int selected_bar) * 14 in
  let count_x := (135 - count_width) / 2 in
  text count_x 30 (py_str_int selected_bar) WHITE ;;
  set_font FONT_DejaVu18 ;;
  gf <- py_get gain_factors (gain_index g) ;;
  text 5 55 ("Gain: x" ++ py_str_num gf) WHITE ;;
  raw <- py_get atime_settings (atime_index g) ;;
  ms <- atime_ms raw ;;
  text 5 75 ("Time: " ++ str_round1_num ms) WHITE.

#[export] Instance draw_bars_interruptible g scale i bars :
  Interruptible (draw_bars g scale i bars).
Proof.
  revert i. induction bars as [|b rest IH]; intros i; simpl; typeclasses eauto.
Qed.

#[export] Instance display_spectrum_interruptible g f1 f2 f3 f4 f5 f6 f7 f8 nir :
  Interruptible (display_spectrum g f1 f2 f3 f4 f5 f6 f7 f8 nir).
Proof. unfold display_spectrum. typeclasses eauto. Qed.
