(* ===== verification/SpectrumBounds.v ===== *)
(** * The spectrum screen for every 16-bit reading

    [Spectrum] evaluates [display_spectrum] on given readings; this file
    runs it symbolically. The nine bars are drawn by [draw_bars] as the
    calls [bars_calls] of their heights [bar_heights] (the list
    [int(bar * scale)] of line 143), and [FloatBounds] bounds each height
    by 125 when the readings are 16-bit counts, the AS7341's ADC width.
    The result: [display_spectrum] never raises on such readings and
    every bar stays inside the 125 pixels between the header and the
    bottom of the screen. *)

From Stdlib Require Import ZArith List String Lia Bool.
From Stdlib Require Import Floats.SpecFloat.
From S2P Require Import Prelude PyFloat FloatBounds Hardware Params Spectrum.
Import ListNotations.
Open Scope string_scope.
Open Scope Z_scope.
Open Scope list_scope.
Open Scope py_scope.

(** [[int(bar * scale) for bar in bars]], [None] where one raises. *)
Fixpoint bar_heights (scale : py_num) (bars : list Z) : option (list Z) :=
  match bars with
  | [] => Some []
  | b :: rest =>
      match int_of_product b scale, bar_heights scale rest with
      | Some h, Some hs => Some (h :: hs)
      | _, _ => None
      end
  end.

(** The label under bar [i] (lines 160-164). *)
Definition bar_label (i : Z) : string :=
  if i <? 8 then py_str_int (nth (Z.to_nat i) wavelength_values 0) else "NIR".

(** The calls of one iteration of the bar loop, for a bar of height [h]. *)
Definition bar_calls (g : globals) (i h : Z) : list event :=
  (if i =? wavelength_index g
   then [EvRect (bar_x i - 2) (240 - h - 2) (bar_width + 4) (h + 4) WHITE None] else []) ++
  [EvRect (bar_x i) (240 - h) bar_width h (nth (Z.to_nat i) spectrum_colors BLACK)
     (Some (nth (Z.to_nat i) spectrum_colors BLACK));
   EvFont FONT_Default; EvText (bar_x i - 2) 245 (bar_label i) WHITE].

Fixpoint bars_calls (g : globals) (i : Z) (hs : list Z) : list event :=
  match hs with
  | [] => []
  | h :: rest => bar_calls g i h ++ bars_calls g (i + 1) rest
  end.

(** The four header lines (lines 166-187): the selected channel's name in
    its colour and its count, both centred for 14-pixel glyphs, then the
    gain and the integration time. *)
Definition spectrum_header (g : globals) (sel : Z) : list event :=
  let name := nth (Z.to_nat (wavelength_index g)) wavelength_names "" in
  [EvFont FONT_DejaVu24;
   EvText ((135 - py_len name * 14) / 2) 5 name
          (nth (Z.to_nat (wavelength_index g)) spectrum_colors BLACK);
   EvText ((135 - py_len (py_str_int sel) * 14) / 2) 30 (py_str_int sel) WHITE;
   EvFont FONT_DejaVu18;
   EvText 5 55 ("Gain: " ++ nth (Z.to_nat (gain_index g)) gain_labels "")%string WHITE;
   EvText 5 75 ("Time: " ++ nth (Z.to_nat (atime_index g)) time_labels "")%string WHITE].

(** ** Running the bar loop *)

Lemma py_int_run (p : py_num) (h : Z) (w : world) :
  num_int p = Some h -> py_int p w = Ok h w [].
Proof.
  destruct p as [z|f]; simpl; intros H; [injection H as ->; reflexivity|].
  destruct f as [s|s| |s m e]; simpl in *; try discriminate; injection H as <-; reflexivity.
Qed.

Lemma draw_bar_run g scale i bar h x :
  0 <= i < 9 -> int_of_product bar scale = Some h ->
  draw_bar g scale i bar (mkWorld x None) = Ok tt (mkWorld x None) (bar_calls g i h).
Proof.
  intros Hi Hh. unfold int_of_product, int_of_product_in in Hh. change (num_mul_int_in prec emax) with num_mul_int in Hh. unfold draw_bar, py_mul_int.
  destruct (num_mul_int bar scale) as [p|]; [|discriminate].
  cbv [lift_option]. rewrite bind_ret_l, (bind_Ok _ _ _ _ _ _ (py_int_run p h _ Hh)).
  enum_range Hi; unfold bar_calls, bar_label;
    (destruct (_ =? wavelength_index g); reflexivity).
Qed.

Lemma draw_bars_run g scale bars : forall i hs x,
  0 <= i -> i + Z.of_nat (List.length bars) <= 9 -> bar_heights scale bars = Some hs ->
  draw_bars g scale i bars (mkWorld x None) = Ok tt (mkWorld x None) (bars_calls g i hs).
Proof.
  induction bars as [|b rest IH]; intros i hs x Hi Hl Hh; simpl in Hh.
  - injection Hh as <-. reflexivity.
  - simpl List.length in Hl.
    destruct (int_of_product b scale) as [h|] eqn:Eb; [|discriminate].
    destruct (bar_heights scale rest) as [hs'|] eqn:Er; [|discriminate].
    injection Hh as <-. simpl draw_bars.
    rewrite (bind_Ok _ _ _ _ _ _ (draw_bar_run g scale i b h x ltac:(lia) Eb)).
    rewrite (IH (i + 1) hs' x ltac:(lia) ltac:(lia) eq_refl). reflexivity.
Qed.

(** ** Running the whole screen *)

Lemma py_get_run {A} (l : list A) (i : Z) (a : A) (w : world) :
  py_nth l i = Some a -> py_get l i w = Ok a w [].
Proof. unfold py_get. intros ->. reflexivity. Qed.

Lemma emit_run e x : emit e (mkWorld x None) = Ok tt (mkWorld x None) [e].
Proof. reflexivity. Qed.

(** [float(n) * f] is defined for [0 <= n < 2^53]. *)
Lemma num_mul_int_float a f :
  0 <= a < 2 ^ prec -> exists p, num_mul_int a (PyFloat f) = Some p.
Proof.
  intros Ha. unfold num_mul_int, num_mul_int_in, float_of_int, float_of_int_in, binary_normalize.
  destruct a as [|pa|pa]; [eexists; reflexivity| |lia].
  destruct (round_int_exact false pa ltac:(lia)) as (m & e & -> & _). eexists; reflexivity.
Qed.

Lemma compute_scale_pos M x :
  0 < M < 2 ^ 16 ->
  compute_scale M (mkWorld x None) = Ok (PyFloat (int_truediv 125 M)) (mkWorld x None) [].
Proof.
  intros HM. destruct (truediv_125_bound M HM) as (F & _ & _).
  unfold compute_scale, py_truediv. replace (0 <? M) with true by (symmetry; apply Z.ltb_lt; lia).
  replace (M =? 0) with false by (symmetry; apply Z.eqb_neq; lia).
  change (240 - top_margin - 20) with 125.
  destruct (int_truediv 125 M) as [[]|[]| |[] m e]; try contradiction; reflexivity.
Qed.

Lemma compute_scale_zero M x :
  M <= 0 -> compute_scale M (mkWorld x None) = Ok (PyInt 1) (mkWorld x None) [].
Proof.
  intros HM. unfold compute_scale. replace (0 <? M) with false by (symmetry; apply Z.ltb_ge; lia).
  reflexivity.
Qed.

(** The header's gain and time texts are the labels of the tables. *)
Lemma gain_label_of gi gf :
  0 <= gi < 11 -> py_nth gain_factors gi = Some gf ->
  ("x" ++ py_str_num gf)%string = nth (Z.to_nat gi) gain_labels "".
Proof. intros H. enum_range H; intros E; injection E as <-; reflexivity. Qed.

Lemma time_label_of ai raw ms :
  0 <= ai < 6 -> py_nth atime_settings ai = Some raw ->
  num_mul_int (raw + 1) (PyFloat (float_lit 278 2)) = Some ms ->
  str_round1_num ms = nth (Z.to_nat ai) time_labels "".
Proof.
  intros H. enum_range H; intros E; injection E as <-; intros E; vm_compute in E;
    injection E as <-; vm_compute; reflexivity.
Qed.

(** With in-range globals, once the scale and the heights are defined the
    screen is the clear, the bars, and the header. *)
Lemma display_spectrum_run g f1 f2 f3 f4 f5 f6 f7 f8 nir x M scale hs :
  indices_ok g ->
  py_max [f1; f2; f3; f4; f5; f6; f7; f8; nir] = Some M ->
  compute_scale M (mkWorld x None) = Ok scale (mkWorld x None) [] ->
  bar_heights scale [f1; f2; f3; f4; f5; f6; f7; f8; nir] = Some hs ->
  display_spectrum g f1 f2 f3 f4 f5 f6 f7 f8 nir (mkWorld x None)
  = Ok tt (mkWorld x None)
      (EvClear BLACK :: bars_calls g 0 hs
         ++ spectrum_header g (nth (Z.to_nat (wavelength_index g)) [f1; f2; f3; f4; f5; f6; f7; f8; nir] 0)).
Proof.
  intros (Hg & Ha & Hw) HM Hs Hh. simpl in Hg, Ha, Hw. unfold display_spectrum, clear.
  set (bars := [f1; f2; f3; f4; f5; f6; f7; f8; nir]) in *.
  destruct (py_nth_in_range bars (wavelength_index g)) as [sel Esel]; [unfold bars; simpl; lia|].
  destruct (py_nth_in_range spectrum_colors (wavelength_index g)) as [col Ecol]; [simpl; lia|].
  destruct (py_nth_in_range wavelength_names (wavelength_index g)) as [nm Enm]; [simpl; lia|].
  destruct (py_nth_in_range gain_factors (gain_index g)) as [gf Egf]; [simpl; lia|].
  destruct (py_nth_in_range atime_settings (atime_index g)) as [raw Eraw]; [simpl; lia|].
  assert (Hraw : 0 <= raw + 1 < 2 ^ prec).
  { apply py_nth_In in Eraw. simpl in Eraw.
    repeat destruct Eraw as [<-|Eraw]; try contradiction; (split; [lia|reflexivity]). }
  destruct (num_mul_int_float (raw + 1) (float_lit 278 2) Hraw) as [ms Ems].
  unfold spectrum_header.
  rewrite (py_nth_nth _ _ _ "" (proj1 Hw) Enm), (py_nth_nth _ _ _ BLACK (proj1 Hw) Ecol),
    (py_nth_nth _ _ _ 0 (proj1 Hw) Esel).
  rewrite <- (gain_label_of _ _ Hg Egf), <- (time_label_of _ _ _ Ha Eraw Ems).
  rewrite (bind_Ok _ _ _ _ _ _ (emit_run _ _)). cbv beta zeta.
  rewrite (bind_Ok _ _ _ _ _ _ (py_get_run _ _ _ _ Esel)).
  rewrite (bind_Ok _ _ _ _ _ _ (py_get_run _ _ _ _ Ecol)).
  rewrite (bind_Ok _ _ _ _ _ _ (py_get_run _ _ _ _ Enm)).
  unfold py_max_hw. rewrite HM. cbv [lift_option]. rewrite bind_ret_l.
  rewrite (bind_Ok _ _ _ _ _ _ Hs).
  rewrite (bind_Ok _ _ _ _ _ _ (draw_bars_run g scale bars 0 hs x ltac:(lia) ltac:(reflexivity) Hh)).
  unfold set_font, text. cbv [bind ret emit hw_call prepend]. cbn -[py_get atime_ms].
  rewrite (py_get_run _ _ _ _ Egf). cbn -[py_get atime_ms].
  rewrite (py_get_run _ _ _ _ Eraw). cbn -[atime_ms].
  unfold atime_ms, py_mul_int. rewrite Ems. cbn. reflexivity.
Qed.

Lemma bar_heights_all scale bars (P : Z -> Prop) :
  (forall b, In b bars -> exists h, int_of_product b scale = Some h /\ P h) ->
  exists hs, bar_heights scale bars = Some hs /\ List.length hs = List.length bars /\ Forall P hs.
Proof.
  induction bars as [|b rest IH]; intros H; [exists []; repeat split; constructor|].
  destruct (H b (or_introl eq_refl)) as (h & Eh & Ph).
  destruct IH as (hs & Ehs & Lhs & Phs); [intros b' Hb'; apply H; right; exact Hb'|].
  exists (h :: hs). simpl. rewrite Eh, Ehs. simpl. auto.
Qed.

(** Bar [i0 + j] is drawn with the [j]-th height. *)
Lemma bars_calls_incl g hs : forall i0 j,
  (j < List.length hs)%nat ->
  incl (bar_calls g (i0 + Z.of_nat j) (nth j hs 0)) (bars_calls g i0 hs).
Proof.
  induction hs as [|h rest IH]; intros i0 j Hj; simpl in Hj; [lia|].
  simpl bars_calls. destruct j as [|j].
  - rewrite Z.add_0_r. apply incl_appl, incl_refl.
  - apply incl_appr. replace (i0 + Z.of_nat (S j)) with (i0 + 1 + Z.of_nat j) by lia.
    apply IH. lia.
Qed.

Lemma bar_calls_rect g i h :
  In (EvRect (bar_x i) (240 - h) bar_width h (nth (Z.to_nat i) spectrum_colors BLACK)
             (Some (nth (Z.to_nat i) spectrum_colors BLACK))) (bar_calls g i h).
Proof. apply in_or_app. right. left. reflexivity. Qed.

Lemma bar_calls_label g i h : In (EvText (bar_x i - 2) 245 (bar_label i) WHITE) (bar_calls g i h).
Proof. apply in_or_app. right. right. right. left. reflexivity. Qed.

(** A call of bar [i] is a call of the screen. *)
Lemma screen_has_bar_call g hs lh i e :
  0 <= i -> (Z.to_nat i < List.length hs)%nat ->
  In e (bar_calls g i (nth (Z.to_nat i) hs 0)) -> In e (EvClear BLACK :: bars_calls g 0 hs ++ lh).
Proof.
  intros Hi Hl He. right. apply in_or_app. left.
  pose proof (bars_calls_incl g hs 0 (Z.to_nat i) Hl) as R.
  rewrite Z2Nat.id, Z.add_0_l in R by lia. apply R. exact He.
Qed.

(** The scale of a 16-bit maximum, and heights in [0..125] for every
    reading up to it. *)
Lemma scale_heights_ok M x :
  0 <= M < 2 ^ 16 ->
  exists scale, compute_scale M (mkWorld x None) = Ok scale (mkWorld x None) [] /\
    forall b, 0 <= b <= M -> exists h, int_of_product b scale = Some h /\ 0 <= h <= 125.
Proof.
  intros HM. destruct (Z.ltb_spec 0 M) as [Hp|Hz].
  - exists (PyFloat (int_truediv 125 M)). split; [apply compute_scale_pos; lia|].
    intros b Hb. apply bar_height_bound; lia.
  - exists (PyInt 1). split; [apply compute_scale_zero; lia|].
    intros b Hb. exists (b * 1). split; [reflexivity|lia].
Qed.

(** A 16-bit count, the width of the AS7341's ADC. *)
Definition reading_ok (r : Z) : Prop := 0 <= r < 2 ^ 16.

(** With in-range globals and 16-bit readings the screen is drawn with
    nine heights in [0..125]. *)
Lemma display_spectrum_heights g f1 f2 f3 f4 f5 f6 f7 f8 nir x :
  indices_ok g -> Forall reading_ok [f1; f2; f3; f4; f5; f6; f7; f8; nir] ->
  exists hs, List.length hs = 9%nat /\ Forall (fun h => 0 <= h <= 125) hs /\
    display_spectrum g f1 f2 f3 f4 f5 f6 f7 f8 nir (mkWorld x None)
    = Ok tt (mkWorld x None)
        (EvClear BLACK :: bars_calls g 0 hs
           ++ spectrum_header g (nth (Z.to_nat (wavelength_index g)) [f1; f2; f3; f4; f5; f6; f7; f8; nir] 0)).
Proof.
  intros Hg Hr. set (bars := [f1; f2; f3; f4; f5; f6; f7; f8; nir]) in *.
  assert (HM : py_max bars = Some (fold_left Z.max [f2; f3; f4; f5; f6; f7; f8; nir] f1)) by reflexivity.
  set (M := fold_left Z.max _ f1) in HM.
  destruct (py_max_spec bars M HM) as [Min Mall].
  rewrite Forall_forall in Hr, Mall.
  destruct (scale_heights_ok M x) as (scale & Hs & Hh); [apply Hr; exact Min|].
  destruct (bar_heights_all scale bars (fun h => 0 <= h <= 125)) as (hs & Ehs & Lhs & Phs).
  { intros b Hb. apply Hh. split; [apply Hr; exact Hb|apply Mall; exact Hb]. }
  pose proof (display_spectrum_run g f1 f2 f3 f4 f5 f6 f7 f8 nir x M scale hs Hg HM Hs Ehs) as E.
  exists hs. auto.
Qed.

Lemma bar_heights_nth scale bars : forall hs j,
  bar_heights scale bars = Some hs -> (j < List.length bars)%nat ->
  int_of_product (nth j bars 0) scale = Some (nth j hs 0).
Proof.
  induction bars as [|b rest IH]; intros hs j Hh Hj; simpl in Hj; [lia|].
  simpl in Hh. destruct (int_of_product b scale) as [h|] eqn:Eb; [|discriminate].
  destruct (bar_heights scale rest) as [hs'|] eqn:Er; [|discriminate].
  injection Hh as <-. destruct j as [|j]; [exact Eb|]. simpl. apply IH; [reflexivity|lia].
Qed.

(** C6: every bar fits. With in-range globals and 16-bit readings,
    [display_spectrum] draws the whole screen without exception (no
    [ZeroDivisionError], [OverflowError] or [IndexError]), and each of
    the nine bars is drawn with a height [h] in [0..125], from [y = 240 - h]
    down to the bottom of the screen, so no bar reaches into the 95-pixel
    header or the 20-pixel margin below it. *)
Theorem display_spectrum_bars_fit g f1 f2 f3 f4 f5 f6 f7 f8 nir x :
  indices_ok g -> Forall reading_ok [f1; f2; f3; f4; f5; f6; f7; f8; nir] ->
  exists l, display_spectrum g f1 f2 f3 f4 f5 f6 f7 f8 nir (mkWorld x None) = Ok tt (mkWorld x None) l /\
    forall i, 0 <= i < 9 -> exists h, 0 <= h <= 125 /\
      In (EvRect (bar_x i) (240 - h) bar_width h (nth (Z.to_nat i) spectrum_colors BLACK)
                 (Some (nth (Z.to_nat i) spectrum_colors BLACK))) l.
Proof.
  intros Hg Hr.
  destruct (display_spectrum_heights g f1 f2 f3 f4 f5 f6 f7 f8 nir x Hg Hr) as (hs & Lhs & Phs & E).
  eexists. split; [exact E|]. intros i Hi. exists (nth (Z.to_nat i) hs 0). split.
  - rewrite Forall_forall in Phs. apply Phs, nth_In. lia.
  - apply (screen_has_bar_call g hs _ i); [lia|lia|apply bar_calls_rect].
Qed.

Lemma display_spectrum_bars_fit_witness :
  indices_ok initial_globals /\
  Forall reading_ok [65535; 0; 19; 4096; 1; 65534; 300; 12345; 65535] /\
  exists l, display_spectrum initial_globals 65535 0 19 4096 1 65534 300 12345 65535
              (mkWorld (mkExt true false true []) None)
            = Ok tt (mkWorld (mkExt true false true []) None) l /\
    forall i, 0 <= i < 9 -> exists h, 0 <= h <= 125 /\
      In (EvRect (bar_x i) (240 - h) bar_width h (nth (Z.to_nat i) spectrum_colors BLACK)
                 (Some (nth (Z.to_nat i) spectrum_colors BLACK))) l.
Proof.
  assert (Hr : Forall reading_ok [65535; 0; 19; 4096; 1; 65534; 300; 12345; 65535])
    by (repeat constructor; unfold reading_ok; lia).
  split; [exact initial_indices_ok|]. split; [exact Hr|].
  apply display_spectrum_bars_fit; [exact initial_indices_ok|exact Hr].
Defined.

(** ** The all-zero reading *)

(** C20: an all-zero reading divides by nothing. When every channel reads
    0, [max(bars)] is 0, the scale falls back to the int [1], and for any
    in-range globals the screen is drawn without exception: the clear,
    the bar loop on nine heights 0, and the header with the count 0;
    every one of the nine bars is at its place with its colour and
    height 0. *)
Theorem display_spectrum_all_zero (g : globals) (x : ext_world) :
  indices_ok g ->
  exists l, display_spectrum g 0 0 0 0 0 0 0 0 0 (mkWorld x None) = Ok tt (mkWorld x None) l /\
    l = EvClear BLACK :: bars_calls g 0 (List.repeat 0 9) ++ spectrum_header g 0 /\
    forall i, 0 <= i < 9 ->
      In (EvRect (bar_x i) 240 bar_width 0 (nth (Z.to_nat i) spectrum_colors BLACK)
                 (Some (nth (Z.to_nat i) spectrum_colors BLACK))) l.
Proof.
  intros Hg.
  pose proof (display_spectrum_run g 0 0 0 0 0 0 0 0 0 x 0 (PyInt 1) (List.repeat 0 9) Hg
                eq_refl (compute_scale_zero 0 x ltac:(lia)) eq_refl) as E.
  assert (S0 : nth (Z.to_nat (wavelength_index g)) [0; 0; 0; 0; 0; 0; 0; 0; 0] 0 = 0).
  { change [0; 0; 0; 0; 0; 0; 0; 0; 0] with (List.repeat 0 9). apply nth_repeat. }
  rewrite S0 in E. eexists. split; [exact E|]. split; [reflexivity|]. intros i Hi.
  apply (screen_has_bar_call g (List.repeat 0 9) _ i); [lia|rewrite repeat_length; lia|].
  rewrite nth_repeat. rewrite <- (Z.sub_0_r 240) at 1. apply bar_calls_rect.
Qed.

Lemma display_spectrum_all_zero_witness :
  indices_ok initial_globals /\
  exists l, display_spectrum initial_globals 0 0 0 0 0 0 0 0 0 (mkWorld (mkExt false false true []) None)
            = Ok tt (mkWorld (mkExt false false true []) None) l /\
    l = EvClear BLACK :: bars_calls initial_globals 0 (List.repeat 0 9) ++ spectrum_header initial_globals 0 /\
    forall i, 0 <= i < 9 ->
      In (EvRect (bar_x i) 240 bar_width 0 (nth (Z.to_nat i) spectrum_colors BLACK)
                 (Some (nth (Z.to_nat i) spectrum_colors BLACK))) l.
Proof.
  split; [exact initial_indices_ok|]. apply display_spectrum_all_zero. exact initial_indices_ok.
Defined.

(** ** The labels *)

(** C19: the wavelength labels are drawn below the screen. With in-range
    globals and 16-bit readings, the screen draws under each bar [i] its
    label ([str(wavelength_values[i])], or ["NIR"] for the last bar) at
    [y = 245], while the display is 240 pixels high: all nine labels fall
    outside the visible canvas. *)
Theorem display_spectrum_labels_offscreen g f1 f2 f3 f4 f5 f6 f7 f8 nir x :
  indices_ok g -> Forall reading_ok [f1; f2; f3; f4; f5; f6; f7; f8; nir] ->
  exists l, display_spectrum g f1 f2 f3 f4 f5 f6 f7 f8 nir (mkWorld x None) = Ok tt (mkWorld x None) l /\
    forall i, 0 <= i < 9 -> In (EvText (bar_x i - 2) 245 (bar_label i) WHITE) l.
Proof.
  intros Hg Hr.
  destruct (display_spectrum_heights g f1 f2 f3 f4 f5 f6 f7 f8 nir x Hg Hr) as (hs & Lhs & _ & E).
  eexists. split; [exact E|]. intros i Hi.
  apply (screen_has_bar_call g hs _ i); [lia|lia|apply bar_calls_label].
Qed.

Lemma display_spectrum_labels_offscreen_witness :
  indices_ok initial_globals /\
  Forall reading_ok [10; 20; 30; 40; 50; 60; 70; 80; 90] /\
  exists l, display_spectrum initial_globals 10 20 30 40 50 60 70 80 90 (mkWorld (mkExt true false true []) None)
            = Ok tt (mkWorld (mkExt true false true []) None) l /\
    forall i, 0 <= i < 9 -> In (EvText (bar_x i - 2) 245 (bar_label i) WHITE) l.
Proof.
  assert (Hr : Forall reading_ok [10; 20; 30; 40; 50; 60; 70; 80; 90])
    by (repeat constructor; unfold reading_ok; lia).
  split; [exact initial_indices_ok|]. split; [exact Hr|].
  apply display_spectrum_labels_offscreen; [exact initial_indices_ok|exact Hr].
Defined.

(** ** The tallest bar *)

(** C7: the tallest bar is 124 or 125 pixels. With in-range globals and
    16-bit readings whose maximum is positive, every bar of a maximal
    reading is drawn [h] pixels high with [124 <= h <= 125]: the binary64
    scale [125 / max_val] and product are within [2^-29] of 125, so
    [int()] gives 125 or, when the product falls just below, 124. *)
Theorem display_spectrum_tallest_bar g f1 f2 f3 f4 f5 f6 f7 f8 nir x (i : Z) :
  indices_ok g -> Forall reading_ok [f1; f2; f3; f4; f5; f6; f7; f8; nir] ->
  0 <= i < 9 -> 0 < nth (Z.to_nat i) [f1; f2; f3; f4; f5; f6; f7; f8; nir] 0 ->
  Forall (fun r => r <= nth (Z.to_nat i) [f1; f2; f3; f4; f5; f6; f7; f8; nir] 0)
         [f1; f2; f3; f4; f5; f6; f7; f8; nir] ->
  exists l h, display_spectrum g f1 f2 f3 f4 f5 f6 f7 f8 nir (mkWorld x None) = Ok tt (mkWorld x None) l /\
    124 <= h <= 125 /\
    In (EvRect (bar_x i) (240 - h) bar_width h (nth (Z.to_nat i) spectrum_colors BLACK)
               (Some (nth (Z.to_nat i) spectrum_colors BLACK))) l.
Proof.
  intros Hg Hr Hi Hpos Hmax. set (bars := [f1; f2; f3; f4; f5; f6; f7; f8; nir]) in *.
  set (M := nth (Z.to_nat i) bars 0) in *.
  assert (HM : py_max bars = Some (fold_left Z.max [f2; f3; f4; f5; f6; f7; f8; nir] f1)) by reflexivity.
  destruct (py_max_spec bars _ HM) as [Min Mall].
  rewrite Forall_forall in Hr, Mall, Hmax.
  assert (EM : fold_left Z.max [f2; f3; f4; f5; f6; f7; f8; nir] f1 = M).
  { apply Z.le_antisymm; [apply Hmax; exact Min|apply Mall, nth_In; unfold bars; simpl; lia]. }
  rewrite EM in HM.
  assert (HM16 : 0 < M < 2 ^ 16) by (split; [exact Hpos|apply Hr, nth_In; unfold bars; simpl; lia]).
  set (scale := PyFloat (int_truediv 125 M)).
  destruct (bar_heights_all scale bars (fun h => True)) as (hs & Ehs & Lhs & _).
  { intros b Hb. destruct (bar_height_bound b M) as (h & Eh & _); [|exact HM16|eauto].
    split; [apply Hr; exact Hb|apply Hmax; exact Hb]. }
  pose proof (display_spectrum_run g f1 f2 f3 f4 f5 f6 f7 f8 nir x M scale hs Hg HM
                (compute_scale_pos M x HM16) Ehs) as E.
  destruct (max_bar_height M HM16) as (h & Eh & Hh).
  pose proof (bar_heights_nth scale bars hs (Z.to_nat i) Ehs ltac:(unfold bars; simpl; lia)) as En.
  fold M in En. unfold scale in En. rewrite Eh in En. injection En as En.
  eexists. exists h. split; [exact E|]. split; [exact Hh|].
  apply (screen_has_bar_call g hs _ i); [lia|simpl in Lhs; lia|]. rewrite <- En. apply bar_calls_rect.
Qed.

Lemma display_spectrum_tallest_bar_witness :
  indices_ok initial_globals /\
  Forall reading_ok [3; 19; 7; 0; 19; 2; 1; 5; 4] /\
  0 <= 1 < 9 /\ 0 < nth (Z.to_nat 1) [3; 19; 7; 0; 19; 2; 1; 5; 4] 0 /\
  Forall (fun r => r <= nth (Z.to_nat 1) [3; 19; 7; 0; 19; 2; 1; 5; 4] 0) [3; 19; 7; 0; 19; 2; 1; 5; 4] /\
  exists l h, display_spectrum initial_globals 3 19 7 0 19 2 1 5 4 (mkWorld (mkExt true false true []) None)
              = Ok tt (mkWorld (mkExt true false true []) None) l /\
    124 <= h <= 125 /\
    In (EvRect (bar_x 1) (240 - h) bar_width h (nth (Z.to_nat 1) spectrum_colors BLACK)
               (Some (nth (Z.to_nat 1) spectrum_colors BLACK))) l.
Proof.
  assert (Hr : Forall reading_ok [3; 19; 7; 0; 19; 2; 1; 5; 4]) by (repeat constructor; unfold reading_ok; lia).
  assert (Hm : Forall (fun r => r <= nth (Z.to_nat 1) [3; 19; 7; 0; 19; 2; 1; 5; 4] 0) [3; 19; 7; 0; 19; 2; 1; 5; 4])
    by (repeat constructor; simpl; lia).
  split; [exact initial_indices_ok|]. split; [exact Hr|]. split; [lia|]. split; [simpl; lia|].
  split; [exact Hm|].
  apply display_spectrum_tallest_bar; [exact initial_indices_ok|exact Hr|lia|simpl; lia|exact Hm].
Defined.

(** ** The header *)

(** C16: the header of the spectrum screen. With in-range globals and
    16-bit readings, the screen ends with its four header lines: the
    selected channel's name in that channel's colour, centred at
    [y = 5]; its raw count, centred at [y = 30]; [Gain: x] and the gain
    factor; [Time: ] and the integration time rounded to 0.1 ms, the
    ATIME table's [(raw + 1) * 2.78] in binary64. *)
Theorem display_spectrum_header g f1 f2 f3 f4 f5 f6 f7 f8 nir x :
  indices_ok g -> Forall reading_ok [f1; f2; f3; f4; f5; f6; f7; f8; nir] ->
  exists l, display_spectrum g f1 f2 f3 f4 f5 f6 f7 f8 nir (mkWorld x None)
            = Ok tt (mkWorld x None)
                (l ++ spectrum_header g (nth (Z.to_nat (wavelength_index g))
                                             [f1; f2; f3; f4; f5; f6; f7; f8; nir] 0)).
Proof.
  intros Hg Hr. destruct (display_spectrum_heights g f1 f2 f3 f4 f5 f6 f7 f8 nir x Hg Hr) as (hs & _ & _ & E).
  exists (EvClear BLACK :: bars_calls g 0 hs). rewrite E. reflexivity.
Qed.

(** The scenario of specification section 8: channel 2 (Blue) selected,
    readings 10 to 90; the header shows [Blue] in blue and the count 30. *)
Lemma display_spectrum_header_witness :
  indices_ok initial_globals /\
  Forall reading_ok [10; 20; 30; 40; 50; 60; 70; 80; 90] /\
  spectrum_header initial_globals 30
  = [EvFont FONT_DejaVu24; EvText 39 5 "Blue" BLUE; EvText 53 30 "30" WHITE; EvFont FONT_DejaVu18;
     EvText 5 55 "Gain: x8" WHITE; EvText 5 75 "Time: 83.4" WHITE] /\
  exists l, display_spectrum initial_globals 10 20 30 40 50 60 70 80 90 (mkWorld (mkExt true false true []) None)
            = Ok tt (mkWorld (mkExt true false true []) None)
                (l ++ spectrum_header initial_globals
                        (nth (Z.to_nat (wavelength_index initial_globals)) [10; 20; 30; 40; 50; 60; 70; 80; 90] 0)).
Proof.
  assert (Hr : Forall reading_ok [10; 20; 30; 40; 50; 60; 70; 80; 90])
    by (repeat constructor; unfold reading_ok; lia).
  split; [exact initial_indices_ok|]. split; [exact Hr|]. split; [vm_compute; reflexivity|].
  apply display_spectrum_header; [exact initial_indices_ok|exact Hr].
Defined.

(** ** The rectangles on the canvas *)

(** A call of the bar loop is a call of one bar. *)
Lemma In_bars_calls g e hs : forall i0,
  In e (bars_calls g i0 hs) ->
  exists j, (j < List.length hs)%nat /\ In e (bar_calls g (i0 + Z.of_nat j) (nth j hs 0)).
Proof.
  induction hs as [|h rest IH]; intros i0 He; simpl in He; [contradiction|].
  apply in_app_or in He as [He|He].
  - exists O. simpl. rewrite Z.add_0_r. split; [lia|exact He].
  - destruct (IH (i0 + 1) He) as (j & Hj & Hin). exists (S j). split; [simpl; lia|].
    replace (i0 + Z.of_nat (S j)) with (i0 + 1 + Z.of_nat j) by lia. exact Hin.
Qed.

(** The rectangles of bar [i] of height [h]: the filled bar from
    [240 - h] to the bottom edge, and the outline 2 pixels around it. *)
Lemma bar_calls_rects g i h e :
  0 <= i < 9 -> 0 <= h <= 125 -> In e (bar_calls g i h) ->
  match e with
  | EvRect x y w hh c (Some _) => 0 <= x /\ x + w <= 135 /\ 0 <= y /\ y + hh = 240
  | EvRect x y w hh c None => c = WHITE /\ 0 <= x /\ x + w <= 135 /\ 0 <= y /\ y + hh = 242
  | _ => True
  end.
Proof.
  intros Hi Hh He. unfold bar_calls, bar_x in *. change start_x with 6 in *.
  unfold bar_width, spacing in *.
  apply in_app_or in He as [He|He]; [destruct (i =? wavelength_index g)|];
    cbn [In] in He; repeat destruct He as [<-|He]; try contradiction; cbn beta iota;
    repeat split; first [reflexivity|lia].
Qed.

Lemma bar_calls_outline g h :
  In (EvRect (bar_x (wavelength_index g) - 2) (240 - h - 2) (bar_width + 4) (h + 4) WHITE None)
     (bar_calls g (wavelength_index g) h).
Proof. unfold bar_calls. rewrite Z.eqb_refl. left. reflexivity. Qed.

(** Where the rectangles of a whole screen lie, given nine heights in
    [0..125]. *)
Lemma screen_rects g hs s e :
  List.length hs = 9%nat -> Forall (fun h => 0 <= h <= 125) hs ->
  In e (EvClear BLACK :: bars_calls g 0 hs ++ spectrum_header g s) ->
  match e with
  | EvRect x y w hh c (Some _) => 0 <= x /\ x + w <= 135 /\ 0 <= y /\ y + hh = 240
  | EvRect x y w hh c None => c = WHITE /\ 0 <= x /\ x + w <= 135 /\ 0 <= y /\ y + hh = 242
  | _ => True
  end.
Proof.
  intros Lhs Phs He. destruct He as [<-|He]; [exact I|].
  apply in_app_or in He as [He|He].
  - destruct (In_bars_calls g e hs 0 He) as (j & Hj & Hin).
    apply (bar_calls_rects g (0 + Z.of_nat j) (nth j hs 0)); [lia| |exact Hin].
    rewrite Forall_forall in Phs. apply Phs, nth_In. exact Hj.
  - unfold spectrum_header in He. cbn [In] in He.
    repeat destruct He as [<-|He]; try contradiction; exact I.
Qed.

(** C17: the selection outline runs off the bottom of the screen. With
    in-range globals and 16-bit readings, every filled bar lies on the
    135 x 240 canvas and ends exactly at its bottom edge, while the white
    outline of the selected bar, drawn 2 pixels around it, ends at
    [y = 242]: its bottom side is below the canvas, and only three sides
    of the outline can be seen. *)
Theorem display_spectrum_outline_below_canvas g f1 f2 f3 f4 f5 f6 f7 f8 nir x :
  indices_ok g -> Forall reading_ok [f1; f2; f3; f4; f5; f6; f7; f8; nir] ->
  exists l, display_spectrum g f1 f2 f3 f4 f5 f6 f7 f8 nir (mkWorld x None) = Ok tt (mkWorld x None) l /\
    (forall x0 y w h c c', In (EvRect x0 y w h c (Some c')) l ->
                           0 <= x0 /\ x0 + w <= 135 /\ 0 <= y /\ y + h = 240) /\
    (exists x0 y w h, In (EvRect x0 y w h WHITE None) l) /\
    (forall x0 y w h c, In (EvRect x0 y w h c None) l -> y + h = 242).
Proof.
  intros Hg Hr. destruct (display_spectrum_heights g f1 f2 f3 f4 f5 f6 f7 f8 nir x Hg Hr) as (hs & Lhs & Phs & E).
  eexists. split; [exact E|]. split; [|split].
  - intros x0 y w h c c' He. exact (screen_rects g hs _ _ Lhs Phs He).
  - destruct Hg as (_ & _ & Hw). simpl in Hw. do 4 eexists.
    apply (screen_has_bar_call g hs _ (wavelength_index g)); [lia|lia|apply bar_calls_outline].
  - intros x0 y w h c He. apply (screen_rects g hs _ _ Lhs Phs He).
Qed.

Lemma display_spectrum_outline_below_canvas_witness :
  indices_ok initial_globals /\
  Forall reading_ok [10; 20; 30; 40; 50; 60; 70; 80; 90] /\
  exists l, display_spectrum initial_globals 10 20 30 40 50 60 70 80 90 (mkWorld (mkExt true false true []) None)
            = Ok tt (mkWorld (mkExt true false true []) None) l /\
    (forall x0 y w h c c', In (EvRect x0 y w h c (Some c')) l ->
                           0 <= x0 /\ x0 + w <= 135 /\ 0 <= y /\ y + h = 240) /\
    (exists x0 y w h, In (EvRect x0 y w h WHITE None) l) /\
    (forall x0 y w h c, In (EvRect x0 y w h c None) l -> y + h = 242).
Proof.
  assert (Hr : Forall reading_ok [10; 20; 30; 40; 50; 60; 70; 80; 90])
    by (repeat constructor; unfold reading_ok; lia).
  split; [exact initial_indices_ok|]. split; [exact Hr|].
  apply display_spectrum_outline_below_canvas; [exact initial_indices_ok|exact Hr].
Defined.

(** ** The tallest bar, for every maximum and both float widths *)

(** The height of the bar of a reading equal to the maximum [M] in the
    float format of precision [p] and largest exponent [e]:
    [int(M * ((240 - top_margin - 20) / M))] (lines 135 and 143). *)
Definition tallest_bar_in (p e M : Z) : option Z :=
  int_of_product_in p e M (PyFloat (int_truediv_in p e (240 - top_margin - 20) M)).

(** How many of the positive 16-bit maxima give a tallest bar of 124. *)
Definition short_maxima (p e : Z) : Z :=
  count_range (fun M => match tallest_bar_in p e M with Some h => h =? 124 | None => false end)
    (Z.to_nat (2 ^ 16 - 1)) 1.

(** C18: the tallest bar is one pixel short for thousands of maxima, in
    either float width. For every positive 16-bit maximum [M] the height
    the screen draws for a reading equal to [M] is [tallest_bar_in] in
    binary64; of the 65535 maxima, 9137 give 124 pixels instead of the
    specification's [floor(M * 125 / M) = 125], and in binary32, the
    width of single-precision MicroPython builds, 9453 do. *)
Theorem display_spectrum_short_tallest_count :
  (forall M x, 0 < M < 2 ^ 16 ->
     exists scale, compute_scale M (mkWorld x None) = Ok scale (mkWorld x None) [] /\
                   int_of_product M scale = tallest_bar_in prec emax M) /\
  short_maxima prec emax = 9137 /\ short_maxima 24 128 = 9453.
Proof.
  split; [|split; vm_compute; reflexivity].
  intros M x HM. exists (PyFloat (int_truediv 125 M)). split; [apply compute_scale_pos; exact HM|reflexivity].
Qed.
