(* ===== verification/Acquisition.v ===== *)
(** * The measurement branch of mode 0 (main.py lines 32-38, 192-203)

    Button A in normal mode prints a message, sets the LED current to
    25 mA, switches the LED on, runs the two sensor phases ([F1F4CN]:
    F1..F4, clear, NIR; [F5F8CN]: F5..F8, clear, NIR), draws the spectrum
    with the NIR value of the second phase, and switches the LED off. There
    is no [try/finally]: an exception in a phase or in the drawing leaves
    the LED on. *)

From Stdlib Require Import ZArith List String Lia Bool.
From S2P Require Import Prelude PyFloat Hardware Params Spectrum SpectrumBounds.
Import ListNotations.
Open Scope string_scope.
Open Scope Z_scope.
Open Scope py_scope.

Definition print (s : string) : HW unit := emit (EvPrint s).

(** [set_led_current(current_mA)] (lines 32-34). *)
Definition set_led_current (current_mA : Z) : HW unit := emit (EvSetLedCurrent current_mA).

(** [enable_led(enable)] (lines 36-38). *)
Definition enable_led (enable : bool) : HW unit := emit (EvEnableLed enable).

Definition start_measure (sel : string) : HW unit := emit (EvStartMeasure sel).

Definition take_measurement (g : globals) : HW unit :=
  print "Taking measurement" ;;
  set_led_current 25 ;;
  enable_led true ;;
  start_measure "F1F4CN" ;;
  '(f1, f2, f3, f4, clr, nir) <- get_spectral_data ;;
  start_measure "F5F8CN" ;;
  '(f5, f6, f7, f8, clr', nir') <- get_spectral_data ;;
  display_spectrum g f1 f2 f3 f4 f5 f6 f7 f8 nir' ;;
  enable_led false.

(** The calls made before the drawing, given the two answers. *)
Definition acquisition_prefix (r1 r2 : reading6) : list event :=
  [EvPrint "Taking measurement"; EvSetLedCurrent 25; EvEnableLed true;
   EvStartMeasure "F1F4CN"; EvGetSpectralData (Some r1);
   EvStartMeasure "F5F8CN"; EvGetSpectralData (Some r2)].

Definition with_spectra (x : ext_world) (l : list (option reading6)) : ext_world :=
  mkExt (btn_a x) (btn_b x) (sensor_ok x) l.

Lemma take_measurement_run (g : globals) (x : ext_world) (rest : list (option reading6))
    (f1 f2 f3 f4 c1 n1 f5 f6 f7 f8 c2 n2 : Z) :
  spectra x = Some (f1, f2, f3, f4, c1, n1) :: Some (f5, f6, f7, f8, c2, n2) :: rest ->
  take_measurement g (mkWorld x None)
  = prepend (acquisition_prefix (f1, f2, f3, f4, c1, n1) (f5, f6, f7, f8, c2, n2))
      ((display_spectrum g f1 f2 f3 f4 f5 f6 f7 f8 n2 ;; enable_led false)
         (mkWorld (with_spectra x rest) None)).
Proof.
  destruct x as [a b ok sp]. simpl. intros ->. unfold take_measurement.
  cbv [bind]. simpl. rewrite ?prepend_app. reflexivity.
Qed.

(** C9: the measurement sequence. With two sensor answers available and
    a drawing that completes with the calls [ld], the branch completes
    with exactly: the seven calls of [acquisition_prefix] in this order
    (message, LED current 25 mA, LED on, phase [F1F4CN], read, phase
    [F5F8CN], read), then the drawing of F1..F4 from the first answer and
    F5..F8 and NIR from the second (the first NIR is discarded), then the
    LED switched off; the two answers are consumed. *)
Theorem take_measurement_sequence (g : globals) (x : ext_world) (rest : list (option reading6))
    (f1 f2 f3 f4 c1 n1 f5 f6 f7 f8 c2 n2 : Z) (ld : list event) :
  spectra x = Some (f1, f2, f3, f4, c1, n1) :: Some (f5, f6, f7, f8, c2, n2) :: rest ->
  display_spectrum g f1 f2 f3 f4 f5 f6 f7 f8 n2 (mkWorld (with_spectra x rest) None)
  = Ok tt (mkWorld (with_spectra x rest) None) ld ->
  take_measurement g (mkWorld x None)
  = Ok tt (mkWorld (with_spectra x rest) None)
      (acquisition_prefix (f1, f2, f3, f4, c1, n1) (f5, f6, f7, f8, c2, n2)
         ++ ld ++ [EvEnableLed false]).
Proof.
  intros Hs Hd. rewrite (take_measurement_run g x rest _ _ _ _ _ _ _ _ _ _ _ _ Hs).
  rewrite (bind_Ok _ _ _ _ _ _ Hd). reflexivity.
Qed.

Lemma take_measurement_sequence_witness :
  exists ld,
    spectra (mkExt true false true [Some (1,2,3,4,5,6); Some (7,8,9,10,11,12)])
    = Some (1,2,3,4,5,6) :: Some (7,8,9,10,11,12) :: [] /\
    display_spectrum initial_globals 1 2 3 4 7 8 9 10 12
      (mkWorld (with_spectra (mkExt true false true [Some (1,2,3,4,5,6); Some (7,8,9,10,11,12)]) []) None)
    = Ok tt (mkWorld (with_spectra (mkExt true false true [Some (1,2,3,4,5,6); Some (7,8,9,10,11,12)]) []) None) ld /\
    take_measurement initial_globals
      (mkWorld (mkExt true false true [Some (1,2,3,4,5,6); Some (7,8,9,10,11,12)]) None)
    = Ok tt (mkWorld (with_spectra (mkExt true false true [Some (1,2,3,4,5,6); Some (7,8,9,10,11,12)]) []) None)
        (acquisition_prefix (1,2,3,4,5,6) (7,8,9,10,11,12) ++ ld ++ [EvEnableLed false]).
Proof.
  eexists. split; [reflexivity|]. split; [reflexivity|].
  apply take_measurement_sequence; reflexivity.
Defined.

(** The six counts of one phase are 16-bit. *)
Definition reading6_ok (r : reading6) : Prop :=
  let '(a, b, c, d, e, f) := r in Forall reading_ok [a; b; c; d; e; f].

(** With in-range globals and two 16-bit answers, the branch completes. *)
Lemma take_measurement_total g x rest r1 r2 :
  indices_ok g -> spectra x = Some r1 :: Some r2 :: rest -> reading6_ok r1 -> reading6_ok r2 ->
  exists l, take_measurement g (mkWorld x None) = Ok tt (mkWorld (with_spectra x rest) None) l.
Proof.
  intros Hg Hs H1 H2.
  destruct r1 as [[[[[f1 f2] f3] f4] c1] n1], r2 as [[[[[f5 f6] f7] f8] c2] n2].
  rewrite (take_measurement_run g x rest _ _ _ _ _ _ _ _ _ _ _ _ Hs).
  simpl in H1, H2. rewrite Forall_forall in H1, H2.
  destruct (display_spectrum_heights g f1 f2 f3 f4 f5 f6 f7 f8 n2 (with_spectra x rest) Hg)
    as (hs & _ & _ & E).
  { repeat constructor; first [apply H1; simpl; tauto | apply H2; simpl; tauto]. }
  rewrite (bind_Ok _ _ _ _ _ _ E). eexists. reflexivity.
Qed.

(** C10: a failed first read is an [OSError] that escapes with the LED on:
    the log ends with the LED switched on and the failed read, and
    [enable_led(False)] is never called, although the specification asks
    for the LED to be switched off on every path. *)
Theorem take_measurement_read_error_led_on (g : globals) (x : ext_world) rest :
  spectra x = None :: rest ->
  take_measurement g (mkWorld x None)
  = Exc OSError (mkWorld (with_spectra x rest) None)
      [EvPrint "Taking measurement"; EvSetLedCurrent 25; EvEnableLed true;
       EvStartMeasure "F1F4CN"; EvGetSpectralData None].
Proof.
  destruct x as [a b ok sp]. simpl. intros ->. reflexivity.
Qed.

Lemma take_measurement_read_error_led_on_witness :
  spectra (mkExt true false true [None]) = None :: [] /\
  take_measurement initial_globals (mkWorld (mkExt true false true [None]) None)
  = Exc OSError (mkWorld (with_spectra (mkExt true false true [None]) []) None)
      [EvPrint "Taking measurement"; EvSetLedCurrent 25; EvEnableLed true;
       EvStartMeasure "F1F4CN"; EvGetSpectralData None].
Proof.
  split; [reflexivity|]. apply (take_measurement_read_error_led_on initial_globals _ []).
  reflexivity.
Defined.

#[export] Instance take_measurement_interruptible g : Interruptible (take_measurement g).
Proof. unfold take_measurement. typeclasses eauto. Qed.

(** Ctrl-C due after [k < 7] calls falls in the calls before the
    drawing: the measurement raises [KeyboardInterrupt] after exactly the
    first [k] of them, and no interrupt is pending any more. *)
Lemma take_measurement_interrupted (g : globals) (x : ext_world) rest
    (r1 r2 : reading6) (k : nat) :
  spectra x = Some r1 :: Some r2 :: rest -> (k < 7)%nat ->
  exists x', take_measurement g (mkWorld x (Some k))
             = Exc KeyboardInterrupt (mkWorld x' None) (firstn k (acquisition_prefix r1 r2)).
Proof.
  intros Hs Hk. destruct (take_measurement_interruptible g x) as [_ Hi].
  specialize (Hi k).
  destruct r1 as [[[[[f1 f2] f3] f4] c1] n1], r2 as [[[[[f5 f6] f7] f8] c2] n2].
  rewrite (take_measurement_run g x rest _ _ _ _ _ _ _ _ _ _ _ _ Hs) in Hi.
  unfold interrupted in Hi.
  destruct (display_spectrum g f1 f2 f3 f4 f5 f6 f7 f8 n2 ;; enable_led false)%py as [a w l|e w l];
    cbn [out_log prepend] in Hi; rewrite length_app in Hi; simpl List.length in Hi;
    (destruct (Nat.leb_spec (7 + List.length l) k); [lia|]);
    destruct Hi as [x' Hw]; exists x'; rewrite Hw, firstn_app;
    simpl (List.length (acquisition_prefix _ _)); replace (k - 7)%nat with O by lia; rewrite app_nil_r;
    reflexivity.
Qed.
