(* ===== verification/ModeMachine.v ===== *)
(** * The polling loop's body and the four-state machine (main.py lines 191-238)

    [loop_body] is one pass of the [while True] body as written: an
    [if/elif] chain on the integer [current_mode], in each mode A polled
    before B (B is only polled when A reports no press), and the handler
    of the button that fired. [tick] adds the [sleep_ms(100)].

    [Spec] is the transition table of the specification (section 4.3) on
    an enumerated mode, with the effects each transition performs. The
    refinement theorem [tick_refines_spec] shows that the code is that
    table: from any globals whose mode is one of the four codes, [tick]
    is the computation that polls the buttons with A first, takes the
    table's transition and performs its effects, in this order. The
    invariant, the reachable states and the rings of buttons
    A and B follow from the table. *)

From Stdlib Require Import ZArith List String Lia Bool Morphisms Setoid.
From S2P Require Import Prelude PyFloat Hardware Params Spectrum SpectrumBounds Acquisition.
Import ListNotations.
Open Scope string_scope.
Open Scope Z_scope.
Open Scope py_scope.

(** ** The code *)

Definition loop_body (g : globals) : HW globals :=
  if current_mode g =? 0 then
    a <- was_pressed BtnA ;;
    if a then take_measurement g ;; ret g
    else
      b <- was_pressed BtnB ;;
      if b then (let g' := set_mode g 3 in display_wavelength_selection g' ;; ret g')
      else ret g
  else if current_mode g =? 1 then
    a <- was_pressed BtnA ;;
    if a then
      (let g' := set_gain_index g (cycle (Z.of_nat (List.length gain_codes)) (gain_index g)) in
       update_settings g' ;; display_gain_settings g' ;; ret g')
    else
      b <- was_pressed BtnB ;;
      if b then (let g' := set_mode g 2 in display_integration_settings g' ;; ret g')
      else ret g
  else if current_mode g =? 2 then
    a <- was_pressed BtnA ;;
    if a then
      (let g' := set_atime_index g (cycle (Z.of_nat (List.length atime_settings)) (atime_index g)) in
       update_settings g' ;; display_integration_settings g' ;; ret g')
    else
      b <- was_pressed BtnB ;;
      if b then (let g' := set_mode g 0 in clear BLACK ;; ret g')
      else ret g
  else if current_mode g =? 3 then
    a <- was_pressed BtnA ;;
    if a then
      (let g' := set_wavelength_index g
                   (cycle (Z.of_nat (List.length wavelength_names)) (wavelength_index g)) in
       display_wavelength_selection g' ;; ret g')
    else
      b <- was_pressed BtnB ;;
      if b then (let g' := set_mode g 1 in display_gain_settings g' ;; ret g')
      else ret g
  else ret g.

Definition tick (g : globals) : HW globals :=
  g' <- loop_body g ;;
  emit (EvSleepMs 100) ;;
  ret g'.

(** ** The specification's state machine *)

Module Spec.
Inductive mode := Normal | GainSettings | IntegrationSettings | WavelengthSelect.

Record config := mkConfig { gainIndex : Z; atimeIndex : Z; wavelengthIndex : Z }.

(** The button event of one tick, A taking precedence. *)
Inductive input := PressA | PressB | Idle.

Inductive effect :=
| Acquire            (* run the acquisition and render the spectrum *)
| PushConfig         (* integration-time and gain setters *)
| RenderGain
| RenderIntegration
| RenderWavelength
| ClearScreen.

Definition step (m : mode) (c : config) (i : input) : mode * config * list effect :=
  match m, i with
  | _, Idle => (m, c, [])
  | Normal, PressA => (Normal, c, [Acquire])
  | Normal, PressB => (WavelengthSelect, c, [RenderWavelength])
  | GainSettings, PressA =>
      (GainSettings, mkConfig (cycle 11 (gainIndex c)) (atimeIndex c) (wavelengthIndex c),
       [PushConfig; RenderGain])
  | GainSettings, PressB => (IntegrationSettings, c, [RenderIntegration])
  | IntegrationSettings, PressA =>
      (IntegrationSettings, mkConfig (gainIndex c) (cycle 6 (atimeIndex c)) (wavelengthIndex c),
       [PushConfig; RenderIntegration])
  | IntegrationSettings, PressB => (Normal, c, [ClearScreen])
  | WavelengthSelect, PressA =>
      (WavelengthSelect, mkConfig (gainIndex c) (atimeIndex c) (cycle 9 (wavelengthIndex c)),
       [RenderWavelength])
  | WavelengthSelect, PressB => (GainSettings, c, [RenderGain])
  end.

(** The mode reached by B: the ring Normal -> WavelengthSelect ->
    GainSettings -> IntegrationSettings -> Normal. *)
Definition ring_next (m : mode) : mode :=
  match m with
  | Normal => WavelengthSelect
  | WavelengthSelect => GainSettings
  | GainSettings => IntegrationSettings
  | IntegrationSettings => Normal
  end.

Definition config_ok (c : config) : Prop :=
  0 <= gainIndex c < 11 /\ 0 <= atimeIndex c < 6 /\ 0 <= wavelengthIndex c < 9.
End Spec.

(** ** Abstraction and concretisation *)

Definition mode_code (m : Spec.mode) : Z :=
  match m with
  | Spec.Normal => 0
  | Spec.GainSettings => 1
  | Spec.IntegrationSettings => 2
  | Spec.WavelengthSelect => 3
  end.

Definition globals_of (m : Spec.mode) (c : Spec.config) : globals :=
  mkGlobals (Spec.gainIndex c) (Spec.atimeIndex c) (mode_code m) (Spec.wavelengthIndex c).

Definition config_of (g : globals) : Spec.config :=
  Spec.mkConfig (gain_index g) (atime_index g) (wavelength_index g).

(** [A] is polled first; [B] only when [A] reports nothing. *)
Definition poll_input : HW Spec.input :=
  a <- was_pressed BtnA ;;
  if a then ret Spec.PressA
  else b <- was_pressed BtnB ;;
       if b then ret Spec.PressB else ret Spec.Idle.

Definition run_effect (g : globals) (e : Spec.effect) : HW unit :=
  match e with
  | Spec.Acquire => take_measurement g
  | Spec.PushConfig => update_settings g
  | Spec.RenderGain => display_gain_settings g
  | Spec.RenderIntegration => display_integration_settings g
  | Spec.RenderWavelength => display_wavelength_selection g
  | Spec.ClearScreen => clear BLACK
  end.

Fixpoint run_effects (g : globals) (es : list Spec.effect) : HW unit :=
  match es with
  | [] => ret tt
  | e :: rest => run_effect g e ;; run_effects g rest
  end.

(** The specification run as a program: poll, step the table, perform
    the effects on the new state, sleep. *)
Definition spec_tick (m : Spec.mode) (c : Spec.config) : HW globals :=
  i <- poll_input ;;
  let '(m', c', es) := Spec.step m c i in
  run_effects (globals_of m' c') es ;;
  emit (EvSleepMs 100) ;;
  ret (globals_of m' c').

(** ** Refinement *)

(** Case on the answer of the next button poll, on both sides at once. *)
Ltac poll_case :=
  apply bind_proper; [reflexivity|]; intros [|]; cbn beta iota zeta; m_norm.

Lemma tick_spec_equiv (m : Spec.mode) (c : Spec.config) :
  m_eq (tick (globals_of m c)) (spec_tick m c).
Proof.
  unfold tick, loop_body, spec_tick, poll_input.
  destruct m; cbn -[was_pressed take_measurement update_settings display_gain_settings
                    display_integration_settings display_wavelength_selection clear];
    m_norm.
  all: poll_case; [reflexivity|poll_case; reflexivity].
Qed.


(** ** The invariant of the globals *)

(** The indices are in range and the mode is one of the four codes. *)
Definition globals_inv (g : globals) : Prop := indices_ok g /\ 0 <= current_mode g < 4.

Definition mode_of_code (z : Z) : Spec.mode :=
  if z =? 0 then Spec.Normal
  else if z =? 1 then Spec.GainSettings
  else if z =? 2 then Spec.IntegrationSettings
  else Spec.WavelengthSelect.

Lemma globals_inv_abs (g : globals) :
  globals_inv g ->
  g = globals_of (mode_of_code (current_mode g)) (config_of g) /\ Spec.config_ok (config_of g).
Proof.
  destruct g as [gi ai m wi]. unfold globals_inv, indices_ok, Spec.config_ok. simpl.
  intros [(Hg & Ha & Hw) Hm]. split; [|lia].
  enum_range Hm; reflexivity.
Qed.

Lemma globals_of_inv m c : Spec.config_ok c -> globals_inv (globals_of m c).
Proof.
  unfold Spec.config_ok, globals_inv, indices_ok. destruct c, m; simpl; lia.
Qed.

Lemma step_config_ok m c i : Spec.config_ok c -> Spec.config_ok (snd (fst (Spec.step m c i))).
Proof.
  unfold Spec.config_ok. intros (Hg & Ha & Hw).
  destruct m, i; simpl; repeat split; try lia;
    apply cycle_range; lia.
Qed.

(** The value a [spec_tick] returns is the concretisation of a table step. *)
Lemma spec_tick_result m c w g' w' l :
  spec_tick m c w = Ok g' w' l ->
  exists i, g' = globals_of (fst (fst (Spec.step m c i))) (snd (fst (Spec.step m c i))).
Proof.
  unfold spec_tick. intros H.
  destruct (bind_Ok_inv _ _ _ _ _ _ H) as (i & w1 & l1 & l2 & _ & H2 & _).
  exists i. destruct (Spec.step m c i) as [[m' c'] es]. simpl.
  destruct (bind_Ok_inv _ _ _ _ _ _ H2) as (u & w2 & l3 & l4 & _ & H3 & _).
  destruct (bind_Ok_inv _ _ _ _ _ _ H3) as (u' & w3 & l5 & l6 & _ & H4 & _).
  injection H4 as ->. reflexivity.
Qed.

#[export] Hint Resolve globals_of_inv step_config_ok : spectro.

(** C1: the loop body implements the specification's transition table:
    from any globals whose mode is one of the four codes 0..3, one [tick]
    is the same computation as polling A then B, taking [Spec.step] of
    the abstract mode and configuration and performing its effects (the
    acquisition, the configuration push and the screens, in the table's
    order) on the new globals, then sleeping. The equivalence holds on
    every world, Ctrl-C and sensor failures included. *)
Theorem tick_refines_spec (g : globals) :
  0 <= current_mode g < 4 ->
  m_eq (tick g) (spec_tick (mode_of_code (current_mode g)) (config_of g)).
Proof.
  intros Hm. destruct g as [gi ai m wi]. simpl in Hm.
  enum_range Hm;
    match goal with |- m_eq _ (spec_tick ?m ?c) => exact (tick_spec_equiv m c) end.
Qed.

Lemma tick_refines_spec_witness :
  0 <= current_mode initial_globals < 4 /\
  m_eq (tick initial_globals)
       (spec_tick (mode_of_code (current_mode initial_globals)) (config_of initial_globals)).
Proof. split; [simpl; lia|]. apply tick_refines_spec. simpl. lia. Defined.

(** A completed tick from a state of the invariant returns the
    concretisation of a table step from a well-formed configuration. *)
Lemma tick_result_abs (g : globals) (w : world) (g' : globals) (w' : world) l :
  globals_inv g -> tick g w = Ok g' w' l ->
  Spec.config_ok (config_of g) /\
  exists i, g' = globals_of (fst (fst (Spec.step (mode_of_code (current_mode g)) (config_of g) i)))
                            (snd (fst (Spec.step (mode_of_code (current_mode g)) (config_of g) i))).
Proof.
  intros Hinv H. destruct (globals_inv_abs g Hinv) as [Eg Hc].
  rewrite Eg, (tick_spec_equiv _ _ w) in H. split; [exact Hc|].
  exact (spec_tick_result _ _ _ _ _ _ H).
Qed.

(** C3: invariant. A tick that completes leaves the indices in range of
    their tables and the mode one of 0..3, whatever the buttons, the
    sensor and Ctrl-C did. *)
Theorem tick_preserves_inv (g : globals) (w : world) (g' : globals) (w' : world) l :
  globals_inv g -> tick g w = Ok g' w' l -> globals_inv g'.
Proof.
  intros Hinv H. destruct (tick_result_abs g w g' w' l Hinv H) as [Hc [i ->]].
  auto with spectro.
Qed.

Lemma tick_preserves_inv_witness :
  globals_inv initial_globals /\
  tick initial_globals (mkWorld (mkExt false true true []) None)
  = Ok (set_mode initial_globals 3) (mkWorld (mkExt false false true []) None)
       (EvWasPressed BtnA false :: EvWasPressed BtnB true
          :: wavelength_screen "Blue" "480 nm" ++ [EvSleepMs 100])
  /\ globals_inv (set_mode initial_globals 3).
Proof.
  assert (Hi : globals_inv initial_globals) by (unfold globals_inv, indices_ok; simpl; lia).
  assert (Ht : tick initial_globals (mkWorld (mkExt false true true []) None)
  = Ok (set_mode initial_globals 3) (mkWorld (mkExt false false true []) None)
       (EvWasPressed BtnA false :: EvWasPressed BtnB true
          :: wavelength_screen "Blue" "480 nm" ++ [EvSleepMs 100])) by reflexivity.
  split; [exact Hi|]. split; [exact Ht|].
  exact (tick_preserves_inv _ _ _ _ _ Hi Ht).
Defined.

(** ** Totality of the settings transitions *)

Definition input_of (x : ext_world) : Spec.input :=
  if btn_a x then Spec.PressA else if btn_b x then Spec.PressB else Spec.Idle.

(** Both latches read are cleared: A always, B when A reported nothing. *)
Definition after_poll (x : ext_world) : ext_world :=
  mkExt false (if btn_a x then btn_b x else false) (sensor_ok x) (spectra x).

Lemma poll_input_run (x : ext_world) :
  exists l, poll_input (mkWorld x None) = Ok (input_of x) (mkWorld (after_poll x) None) l.
Proof. destruct x as [[|] [|] ok sp]; eexists; reflexivity. Qed.

Lemma run_effect_ok (g : globals) (e : Spec.effect) (x : ext_world) :
  indices_ok g -> e <> Spec.Acquire ->
  exists l, run_effect g e (mkWorld x None) = Ok tt (mkWorld x None) l.
Proof.
  intros Hg He. destruct (screens_complete g x Hg) as (H1 & H2 & H3 & H4).
  destruct e; simpl; [congruence|exact H1|exact H2|exact H3|exact H4|eexists; reflexivity].
Qed.

Lemma run_effects_ok (g : globals) (es : list Spec.effect) (x : ext_world) :
  indices_ok g -> ~ In Spec.Acquire es ->
  exists l, run_effects g es (mkWorld x None) = Ok tt (mkWorld x None) l.
Proof.
  intros Hg. induction es as [|e es IH]; intros Hin; [eexists; reflexivity|].
  destruct (run_effect_ok g e x Hg) as [l1 E1]; [intros ->; apply Hin; left; reflexivity|].
  destruct IH as [l2 E2]; [intros H; apply Hin; right; exact H|].
  exists (l1 ++ l2)%list. simpl. rewrite (bind_Ok _ _ _ _ _ _ E1), E2. reflexivity.
Qed.

Lemma mode_of_code_normal z : mode_of_code z = Spec.Normal -> z = 0.
Proof.
  unfold mode_of_code. destruct (Z.eqb_spec z 0); [auto|].
  destruct (z =? 1), (z =? 2); discriminate.
Qed.

Lemma step_acquire_only m c i :
  In Spec.Acquire (snd (Spec.step m c i)) -> m = Spec.Normal /\ i = Spec.PressA.
Proof. destruct m, i; simpl; intuition discriminate. Qed.

(** No settings transition can fail. In every mode but the normal one,
    and in the normal mode when A is not pressed, a tick without Ctrl-C
    completes: the indices it uses are always in range, so no [IndexError]
    is raised, and it moves to the state the table gives. *)
Theorem tick_total_without_acquisition (g : globals) (x : ext_world) :
  globals_inv g -> (current_mode g <> 0 \/ btn_a x = false) ->
  exists l, tick g (mkWorld x None)
            = Ok (globals_of (fst (fst (Spec.step (mode_of_code (current_mode g)) (config_of g) (input_of x))))
                             (snd (fst (Spec.step (mode_of_code (current_mode g)) (config_of g) (input_of x)))))
                 (mkWorld (after_poll x) None) l.
Proof.
  intros Hinv Hna. destruct (globals_inv_abs g Hinv) as [Eg Hc].
  assert (E : spec_tick (mode_of_code (current_mode g)) (config_of g) (mkWorld x None)
              = tick g (mkWorld x None))
    by (rewrite <- (tick_spec_equiv _ _ (mkWorld x None)), <- Eg; reflexivity).
  rewrite <- E. clear E.
  set (m := mode_of_code (current_mode g)) in *. set (c := config_of g) in *.
  destruct (poll_input_run x) as [l0 E0]. unfold spec_tick. rewrite (bind_Ok _ _ _ _ _ _ E0).
  pose proof (step_config_ok m c (input_of x) Hc) as Hc'.
  assert (Hacq : ~ In Spec.Acquire (snd (Spec.step m c (input_of x)))).
  { intros Hin. apply step_acquire_only in Hin as [Hm Hi].
    unfold input_of in Hi. destruct Hna as [Hna|Hna].
    - apply mode_of_code_normal in Hm. contradiction.
    - rewrite Hna in Hi. destruct (btn_b x); discriminate. }
  destruct (Spec.step m c (input_of x)) as [[m' c'] es]. simpl in *.
  destruct (run_effects_ok (globals_of m' c') es (after_poll x)) as [l1 E1];
    [apply globals_of_inv; exact Hc'|exact Hacq|].
  eexists. rewrite (bind_Ok _ _ _ _ _ _ E1). reflexivity.
Qed.

(** What a tick needs from the sensor: when it takes a measurement (mode
    0, A pressed), two 16-bit answers are queued. *)
Definition sensor_ready (g : globals) (x : ext_world) : Prop :=
  current_mode g = 0 -> btn_a x = true ->
  exists r1 r2 rest, spectra x = Some r1 :: Some r2 :: rest /\ reading6_ok r1 /\ reading6_ok r2.

(** A measurement tick completes, in mode 0, with both answers consumed. *)
Lemma tick_measure_run g x r1 r2 rest :
  globals_inv g -> current_mode g = 0 -> btn_a x = true ->
  spectra x = Some r1 :: Some r2 :: rest -> reading6_ok r1 -> reading6_ok r2 ->
  exists l, tick g (mkWorld x None) = Ok g (mkWorld (with_spectra (after_poll x) rest) None) l.
Proof.
  intros [Hi _] Hm Ha Hs H1 H2. destruct g as [gi ai m wi]. simpl in Hm. subst m.
  destruct x as [a b ok sp]. simpl in Ha, Hs. subst a sp.
  destruct (take_measurement_total (mkGlobals gi ai 0 wi) (mkExt false b ok (Some r1 :: Some r2 :: rest))
              rest r1 r2 Hi eq_refl H1 H2) as [l E].
  unfold tick, loop_body. cbv [bind]. cbn -[take_measurement]. rewrite E. cbn.
  eexists. reflexivity.
Qed.

(** Every tick completes when the sensor is ready: the settings
    transitions never fail, and a measurement on 16-bit answers neither. *)
Lemma tick_total g x :
  globals_inv g -> sensor_ready g x ->
  exists g' x' l, tick g (mkWorld x None) = Ok g' (mkWorld x' None) l.
Proof.
  intros Hinv Hr.
  destruct (Z.eq_dec (current_mode g) 0) as [Hm|Hm]; [destruct (btn_a x) eqn:Ha|].
  - destruct (Hr Hm Ha) as (r1 & r2 & rest & Hs & H1 & H2).
    destruct (tick_measure_run g x r1 r2 rest Hinv Hm Ha Hs H1 H2) as [l E]. eauto.
  - destruct (tick_total_without_acquisition g x Hinv (or_intror Ha)) as [l E]. eauto.
  - destruct (tick_total_without_acquisition g x Hinv (or_introl Hm)) as [l E]. eauto.
Qed.

(** ** What a measurement tick calls *)

(** The calls of one kind in a log, in order. *)
Definition led_call (e : event) : bool := match e with EvEnableLed _ => true | _ => false end.
Definition sensor_call (e : event) : bool :=
  match e with EvStartMeasure _ | EvGetSpectralData _ => true | _ => false end.
Definition clear_call (e : event) : bool := match e with EvClear _ => true | _ => false end.

Lemma filter_bars_calls (p : event -> bool) g : forall hs i,
  (forall x y w h c f, p (EvRect x y w h c f) = false) -> (forall f, p (EvFont f) = false) ->
  (forall x y s c, p (EvText x y s c) = false) ->
  List.filter p (bars_calls g i hs) = [].
Proof.
  induction hs as [|h rest IH]; intros i Hr Hf Ht; [reflexivity|].
  simpl bars_calls. rewrite filter_app, IH by assumption. unfold bar_calls.
  destruct (i =? wavelength_index g); simpl; rewrite ?Hr, ?Hf, ?Ht; reflexivity.
Qed.

(** The log of a measurement tick: the poll, the acquisition, the screen,
    the LED off and the sleep. *)
Lemma tick_measure_log g x r1 r2 rest :
  globals_inv g -> current_mode g = 0 -> btn_a x = true ->
  spectra x = Some r1 :: Some r2 :: rest -> reading6_ok r1 -> reading6_ok r2 ->
  exists hs s, tick g (mkWorld x None)
    = Ok g (mkWorld (with_spectra (after_poll x) rest) None)
        (EvWasPressed BtnA true :: acquisition_prefix r1 r2
           ++ (EvClear BLACK :: bars_calls g 0 hs ++ spectrum_header g s)
           ++ [EvEnableLed false; EvSleepMs 100]).
Proof.
  intros [Hi _] Hm Ha Hs H1 H2. destruct g as [gi ai m wi]. simpl in Hm. subst m.
  destruct x as [a b ok sp]. simpl in Ha, Hs. subst a sp.
  destruct r1 as [[[[[f1 f2] f3] f4] c1] n1], r2 as [[[[[f5 f6] f7] f8] c2] n2].
  destruct (display_spectrum_heights (mkGlobals gi ai 0 wi) f1 f2 f3 f4 f5 f6 f7 f8 n2
              (with_spectra (mkExt false b ok (Some (f1, f2, f3, f4, c1, n1) :: Some (f5, f6, f7, f8, c2, n2) :: rest)) rest)
              Hi) as (hs & _ & _ & E).
  { simpl in H1, H2. rewrite Forall_forall in H1, H2.
    repeat constructor; first [apply H1; simpl; tauto | apply H2; simpl; tauto]. }
  do 2 eexists. unfold tick, loop_body. cbv [bind]. cbn -[take_measurement].
  rewrite (take_measurement_run _ (mkExt false b ok (Some (f1, f2, f3, f4, c1, n1) :: Some (f5, f6, f7, f8, c2, n2) :: rest))
             rest f1 f2 f3 f4 c1 n1 f5 f6 f7 f8 c2 n2 eq_refl).
  cbv [bind].
  rewrite E. cbn. rewrite <- !app_assoc. reflexivity.
Qed.

(** C8: pressing A in the normal mode (specification section 8). With
    two 16-bit sensor answers queued, the tick keeps the globals (the mode
    stays normal) and makes exactly one acquisition and one render: its
    LED calls are one switch-on followed by one switch-off, its sensor
    calls are the two phases each followed by its read, and it clears the
    screen once. *)
Theorem normal_A_one_acquisition g x r1 r2 rest :
  globals_inv g -> current_mode g = 0 -> btn_a x = true ->
  spectra x = Some r1 :: Some r2 :: rest -> reading6_ok r1 -> reading6_ok r2 ->
  exists x' l, tick g (mkWorld x None) = Ok g (mkWorld x' None) l /\
    List.filter led_call l = [EvEnableLed true; EvEnableLed false] /\
    List.filter sensor_call l = [EvStartMeasure "F1F4CN"; EvGetSpectralData (Some r1);
                                 EvStartMeasure "F5F8CN"; EvGetSpectralData (Some r2)] /\
    List.filter clear_call l = [EvClear BLACK].
Proof.
  intros Hinv Hm Ha Hs H1 H2. destruct (tick_measure_log g x r1 r2 rest Hinv Hm Ha Hs H1 H2) as (hs & s & E).
  do 2 eexists. split; [exact E|].
  repeat split; simpl; rewrite ?filter_app; simpl; rewrite filter_bars_calls by reflexivity;
    reflexivity.
Qed.

Lemma normal_A_one_acquisition_witness :
  exists x' l, tick initial_globals (mkWorld (mkExt true false true
                    [Some (1, 2, 3, 4, 5, 6); Some (7, 8, 9, 10, 11, 12)]) None)
               = Ok initial_globals (mkWorld x' None) l /\
    List.filter led_call l = [EvEnableLed true; EvEnableLed false] /\
    List.filter sensor_call l = [EvStartMeasure "F1F4CN"; EvGetSpectralData (Some (1, 2, 3, 4, 5, 6));
                                 EvStartMeasure "F5F8CN"; EvGetSpectralData (Some (7, 8, 9, 10, 11, 12))] /\
    List.filter clear_call l = [EvClear BLACK].
Proof.
  apply (normal_A_one_acquisition initial_globals _ _ _ []);
    [unfold globals_inv, indices_ok; simpl; lia|reflexivity|reflexivity|reflexivity| |];
    repeat constructor; unfold reading_ok; lia.
Defined.

(** ** Sessions: presses interleaved with ticks *)

(** A press of a button by the user, between two ticks. *)
Definition press_hw (b : button) : HW unit :=
  fun w => Ok tt (mkWorld (press b (ext w)) (intr w)) [].

Inductive action := Press (b : button) | Tick.

(** A run of the loop in which the user's presses fall between ticks. *)
Fixpoint session (acts : list action) (g : globals) : HW globals :=
  match acts with
  | [] => ret g
  | Press b :: rest => press_hw b ;; session rest g
  | Tick :: rest => g' <- tick g ;; session rest g'
  end.

Definition after_B (g : globals) : globals :=
  set_mode g (mode_code (Spec.ring_next (mode_of_code (current_mode g)))).

Lemma after_B_inv g : globals_inv g -> globals_inv (after_B g).
Proof.
  intros [Hi _]. split; [exact Hi|]. unfold after_B, set_mode. simpl.
  destruct (Spec.ring_next _); simpl; lia.
Qed.

(** Button B moves along the ring 0 -> 3 -> 1 -> 2 -> 0 and changes
    nothing else: with A not pressed, a tick completes in the next mode of
    the ring, with the same indices. *)
Lemma tick_B_step (g : globals) (x : ext_world) :
  globals_inv g -> btn_a x = false -> btn_b x = true ->
  exists l, tick g (mkWorld x None) = Ok (after_B g) (mkWorld (after_poll x) None) l.
Proof.
  intros Hinv Ha Hb. destruct (tick_total_without_acquisition g x Hinv (or_intror Ha)) as [l E].
  exists l. rewrite E. unfold input_of, after_B. rewrite Ha, Hb.
  destruct (mode_of_code (current_mode g)); reflexivity.
Qed.

(** ** Rounds of one button

    A round is a press of button [b] followed by a tick. When every round
    from a state of [P] and a world of [Q] moves the globals by [f] and
    keeps [P] and [Q], [n] rounds move them by [f] iterated [n] times. *)
Section Rounds.
Variable b : button.
Variable f : globals -> globals.
Variable P : globals -> Prop.
Variable Q : ext_world -> Prop.
Hypothesis round_step : forall g x, P g -> Q x ->
  P (f g) /\ Q (after_poll (press b x)) /\
  exists l, tick g (mkWorld (press b x) None) = Ok (f g) (mkWorld (after_poll (press b x)) None) l.

Lemma session_round g x rest :
  P g -> Q x ->
  exists l, session (Press b :: Tick :: rest) g (mkWorld x None)
            = prepend l (session rest (f g) (mkWorld (after_poll (press b x)) None)).
Proof.
  intros Hg Hx. destruct (round_step g x Hg Hx) as (_ & _ & l & E).
  exists l. simpl session. unfold press_hw, bind at 1. simpl prepend.
  rewrite (bind_Ok _ _ _ _ _ _ E), prepend_nil. reflexivity.
Qed.

Lemma session_rounds (n : nat) : forall g x,
  P g -> Q x ->
  exists x' l, session (List.concat (List.repeat [Press b; Tick] n)) g (mkWorld x None)
               = Ok (Nat.iter n f g) (mkWorld x' None) l.
Proof.
  induction n as [|n IH]; intros g x Hg Hx.
  - do 2 eexists. reflexivity.
  - simpl List.repeat. simpl List.concat.
    destruct (session_round g x (List.concat (List.repeat [Press b; Tick] n)) Hg Hx) as [l1 ->].
    destruct (round_step g x Hg Hx) as (Hg' & Hx' & _).
    destruct (IH (f g) (after_poll (press b x)) Hg' Hx') as (x' & l2 & ->).
    exists x', (l1 ++ l2)%list. rewrite Nat.iter_succ_r. reflexivity.
Qed.
End Rounds.

Lemma B_round_step g x :
  globals_inv g -> btn_a x = false ->
  globals_inv (after_B g) /\ btn_a (after_poll (press BtnB x)) = false /\
  exists l, tick g (mkWorld (press BtnB x) None)
            = Ok (after_B g) (mkWorld (after_poll (press BtnB x)) None) l.
Proof.
  intros Hinv Ha. split; [apply after_B_inv; exact Hinv|]. split; [destruct x; reflexivity|].
  apply tick_B_step; [exact Hinv|destruct x; exact Ha|reflexivity].
Qed.

(** C22: the B ring closes after four presses. From any globals satisfying
    the invariant, with A not pressed, pressing B before each of four
    ticks gives back exactly the same globals (same mode, same indices). *)
Theorem B_ring_closes (g : globals) (x : ext_world) :
  globals_inv g -> btn_a x = false ->
  exists x' l, session (List.concat (List.repeat [Press BtnB; Tick] 4)) g (mkWorld x None)
               = Ok g (mkWorld x' None) l.
Proof.
  intros Hinv Ha.
  destruct (session_rounds BtnB after_B globals_inv (fun x => btn_a x = false) B_round_step 4 g x Hinv Ha)
    as (x' & l & E).
  exists x', l. rewrite E. f_equal.
  destruct g as [gi ai m wi]. destruct Hinv as [_ Hm]. simpl in Hm.
  enum_range Hm; reflexivity.
Qed.

Lemma B_ring_closes_witness :
  exists x' l, session (List.concat (List.repeat [Press BtnB; Tick] 4)) initial_globals
                 (mkWorld (mkExt false false true []) None)
               = Ok initial_globals (mkWorld x' None) l.
Proof.
  apply B_ring_closes; [unfold globals_inv, indices_ok; simpl; lia|reflexivity].
Defined.

(** The globals after a press of A in a settings mode: the table's
    transition on [PressA]. *)
Definition after_A (g : globals) : globals :=
  globals_of (fst (fst (Spec.step (mode_of_code (current_mode g)) (config_of g) Spec.PressA)))
             (snd (fst (Spec.step (mode_of_code (current_mode g)) (config_of g) Spec.PressA))).

(** The length of the table that A cycles through in settings mode [m]. *)
Definition ring_A_length (m : Z) : nat :=
  if m =? 1 then List.length gain_codes
  else if m =? 2 then List.length atime_settings
  else List.length wavelength_names.

(** In a settings mode, A advances the mode's own index by one, modulo
    its table, and leaves the mode and the other indices alone (in the
    normal mode the table's [PressA] keeps the globals). *)
Lemma after_A_iter (gi ai m wi : Z) (k : nat) :
  0 <= m < 4 ->
  Nat.iter k after_A (mkGlobals gi ai m wi)
  = mkGlobals (if m =? 1 then Nat.iter k (cycle 11) gi else gi)
              (if m =? 2 then Nat.iter k (cycle 6) ai else ai) m
              (if m =? 3 then Nat.iter k (cycle 9) wi else wi).
Proof.
  intros Hm. induction k as [|k IH]; [enum_range Hm; reflexivity|].
  rewrite Nat.iter_succ, IH. enum_range Hm; reflexivity.
Qed.

Lemma A_round_step (m : Z) g x :
  globals_inv g /\ current_mode g = m -> m <> 0 ->
  (globals_inv (after_A g) /\ current_mode (after_A g) = m) /\ True /\
  exists l, tick g (mkWorld (press BtnA x) None)
            = Ok (after_A g) (mkWorld (after_poll (press BtnA x)) None) l.
Proof.
  intros [Hinv Hm] Hm0. split; [|split; [exact I|]].
  - destruct g as [gi ai m' wi]. simpl in Hm. subst m'.
    destruct Hinv as [(Hg & Ha & Hw) Hr]. simpl in Hr, Hg, Ha, Hw.
    split; [split; [|]|]; unfold indices_ok in *; simpl in *;
      enum_range Hr; try lia; cbn; repeat split; try lia;
      match goal with |- context [cycle ?n ?i] => pose proof (cycle_range n i); lia end.
  - subst m. destruct (tick_total_without_acquisition g (press BtnA x) Hinv (or_introl Hm0)) as [l E].
    exists l. rewrite E. reflexivity.
Qed.

(** C23: the A rings close. In each settings mode (gain, integration
    time, wavelength), pressing A before each of as many ticks as the
    mode's table has entries (11 gains, 6 integration times, 9 channels)
    walks the mode's index once around its table: every tick completes,
    and the globals come back exactly (same mode, same three indices). *)
Theorem A_ring_closes (g : globals) (x : ext_world) :
  globals_inv g -> current_mode g <> 0 ->
  exists x' l, session (List.concat (List.repeat [Press BtnA; Tick] (ring_A_length (current_mode g))))
                 g (mkWorld x None)
               = Ok g (mkWorld x' None) l.
Proof.
  intros Hinv Hm0.
  destruct (session_rounds BtnA after_A (fun g' => globals_inv g' /\ current_mode g' = current_mode g)
              (fun _ => True) (fun g' x' Hg _ => A_round_step (current_mode g) g' x' Hg Hm0)
              (ring_A_length (current_mode g)) g x (conj Hinv eq_refl) I) as (x' & l & E).
  exists x', l. rewrite E. f_equal.
  destruct g as [gi ai m wi]. destruct Hinv as [(Hg & Ha & Hw) Hm]. simpl in *.
  rewrite after_A_iter by exact Hm.
  enum_range Hm; cbn [Z.eqb Pos.eqb ring_A_length List.length];
    f_equal; apply cycle_period; lia.
Qed.

Lemma A_ring_closes_witness :
  exists x' l, session (List.concat (List.repeat [Press BtnA; Tick] (ring_A_length 2)))
                 (mkGlobals 4 2 2 7) (mkWorld (mkExt false false true []) None)
               = Ok (mkGlobals 4 2 2 7) (mkWorld x' None) l.
Proof.
  apply (A_ring_closes (mkGlobals 4 2 2 7)); [unfold globals_inv, indices_ok; simpl; lia|simpl; lia].
Defined.

(** C21: a B press is not lost behind an A press. In a settings mode,
    when A and B are both pressed before the same tick, that tick polls
    A first and takes A's transition only; B's latch is not read and
    stays set, so the next tick, with no new press, takes B's
    transition. Both ticks complete. *)
Theorem press_A_and_B_both_handled (g : globals) (x : ext_world) :
  globals_inv g -> current_mode g <> 0 ->
  exists x' l, session [Press BtnA; Press BtnB; Tick; Tick] g (mkWorld x None)
               = Ok (after_B (after_A g)) (mkWorld x' None) l.
Proof.
  intros Hinv Hm.
  destruct (A_round_step (current_mode g) g (press BtnB x) (conj Hinv eq_refl) Hm)
    as ((Hinv' & _) & _ & l1 & E1).
  destruct (tick_B_step (after_A g) (after_poll (press BtnA (press BtnB x))) Hinv') as [l2 E2];
    [destruct x; reflexivity|destruct x; reflexivity|].
  assert (W : press BtnB (press BtnA x) = press BtnA (press BtnB x)) by (destruct x; reflexivity).
  do 2 eexists. cbn [session]. unfold press_hw, bind. cbn [ext intr prepend app].
  rewrite W, E1. cbn [prepend]. rewrite E2. reflexivity.
Qed.

Lemma press_A_and_B_both_handled_witness :
  exists x' l, session [Press BtnA; Press BtnB; Tick; Tick] (mkGlobals 10 2 1 2)
                 (mkWorld (mkExt false false true []) None)
               = Ok (after_B (after_A (mkGlobals 10 2 1 2))) (mkWorld x' None) l.
Proof.
  apply press_A_and_B_both_handled; [unfold globals_inv, indices_ok; simpl; lia|simpl; lia].
Defined.

(** ** Reachable states *)

(** The system moves by a user press or by a complete tick. *)
Inductive sys_step : globals * ext_world -> globals * ext_world -> Prop :=
| sys_press b g x : sys_step (g, x) (g, press b x)
| sys_tick g x g' x' l :
    tick g (mkWorld x None) = Ok g' (mkWorld x' None) l -> sys_step (g, x) (g', x').

(** From the globals the script starts with, whatever the world. *)
Inductive reachable : globals * ext_world -> Prop :=
| reach_init x : reachable (initial_globals, x)
| reach_step s s' : reachable s -> sys_step s s' -> reachable s'.

Lemma initial_globals_inv : globals_inv initial_globals.
Proof. unfold globals_inv, indices_ok. simpl. lia. Qed.

#[export] Hint Resolve initial_globals_inv : spectro.

(** C4: invariant and safety of the reachable states, by induction on the
    steps. In every state reached from the start-up globals by presses and
    completed ticks, the indices are in range of their tables and the mode
    is one of 0..3; and from such a state every tick completes without
    exception, provided that a tick which takes a measurement (mode 0, A
    pressed) finds two 16-bit answers of the sensor. *)
Theorem reachable_safe (g : globals) (x : ext_world) :
  reachable (g, x) ->
  globals_inv g /\
  (sensor_ready g x -> exists g' x' l, tick g (mkWorld x None) = Ok g' (mkWorld x' None) l).
Proof.
  intros Hr. assert (Hinv : globals_inv g).
  { remember (g, x) as s eqn:Es. revert g x Es.
    induction Hr as [x0|s s' Hr IH Hs]; intros g x Es.
    - injection Es as <- _. exact initial_globals_inv.
    - destruct Hs as [b g0 x0|g0 x0 g1 x1 l E]; injection Es as <- <-.
      + exact (IH g0 x0 eq_refl).
      + destruct (tick_result_abs g0 _ g1 _ l (IH g0 x0 eq_refl) E) as [Hc [i ->]].
        auto with spectro. }
  split; [exact Hinv|]. intros Hready. exact (tick_total g x Hinv Hready).
Qed.

Lemma reachable_safe_witness :
  reachable (initial_globals, mkExt true false true [Some (1,2,3,4,5,6); Some (7,8,9,10,11,12)]) /\
  globals_inv initial_globals /\
  (sensor_ready initial_globals (mkExt true false true [Some (1,2,3,4,5,6); Some (7,8,9,10,11,12)]) ->
   exists g' x' l, tick initial_globals
                     (mkWorld (mkExt true false true [Some (1,2,3,4,5,6); Some (7,8,9,10,11,12)]) None)
                   = Ok g' (mkWorld x' None) l).
Proof. split; [apply reach_init|]. apply reachable_safe. apply reach_init. Defined.
