(* ===== verification/Program.v ===== *)
(** * The whole script: start-up, the loop, Ctrl-C and shut-down

    main.py runs, in order: the I2C bus (line 8), the sensor object
    (line 21), the presence check with [sys.exit(1)] (lines 22-24), the
    initial sensor configuration (lines 26-29), the display (line 41), and
    [try: while True: ... except KeyboardInterrupt: print(...)] followed
    by [sensor.disable()] (lines 189-243). The loop never ends on its own:
    [loop] runs it with fuel and raises [LoopFuelExhausted] when the fuel
    runs out, an exception no [except] clause handles. The user's presses
    are an input of the run: before each iteration the buttons of the
    next entry of the schedule [sched] are pressed (their latches set),
    as a person does while the script sleeps. *)

From Stdlib Require Import ZArith List String Lia Bool.
From S2P Require Import Prelude PyFloat Hardware Params Spectrum Acquisition ModeMachine.
Import ListNotations.
Open Scope string_scope.
Open Scope Z_scope.
Open Scope list_scope.
Open Scope py_scope.

Definition startup : HW unit :=
  emit (EvI2CInit 32 33) ;;
  emit EvSensorInit ;;
  c <- is_connected ;;
  (if negb c
   then print "Failed to contact AS7341, terminating" ;; raise (SystemExit 1)
   else ret tt) ;;
  emit (EvSetMeasureMode AS7341_MODE_SPM) ;;
  emit (EvSetAtime 29) ;;
  emit (EvSetAstep 599) ;;
  emit (EvSetAgain 4) ;;
  emit EvTftInit.

(** The presses made since the last poll: latches set, no call made. *)
Definition user_presses (bs : list button) : HW unit :=
  fun w => Ok tt (mkWorld (fold_right press (ext w) bs) (intr w)) [].

Fixpoint loop (fuel : nat) (sched : list (list button)) (g : globals) : HW unit :=
  match fuel with
  | O => raise LoopFuelExhausted
  | S n => user_presses (hd [] sched) ;; g' <- tick g ;; loop n (tl sched) g'
  end.

Definition main (fuel : nat) (sched : list (list button)) : HW unit :=
  startup ;;
  try_except (loop fuel sched initial_globals) is_KeyboardInterrupt
    (fun _ => print "Interrupted from keyboard") ;;
  emit EvSensorDisable.

(** The calls of a successful start-up. *)
Definition startup_log : list event :=
  [EvI2CInit 32 33; EvSensorInit; EvIsConnected true;
   EvSetMeasureMode AS7341_MODE_SPM; EvSetAtime 29; EvSetAstep 599; EvSetAgain 4; EvTftInit].

(** ** Start-up *)

(** C25: with the sensor present, start-up makes the eight calls of
    [startup_log] and the ATIME and AGAIN it writes (29 and 4) are the
    ones [update_settings] pushes for the initial globals: the sensor's
    configuration agrees with the indices from the first tick on. *)
Theorem startup_agrees_with_update_settings (x : ext_world) :
  sensor_ok x = true ->
  startup (mkWorld x None) = Ok tt (mkWorld x None) startup_log /\
  update_settings initial_globals (mkWorld x None)
  = Ok tt (mkWorld x None) [EvSetAtime 29; EvSetAgain 4].
Proof.
  destruct x as [a b ok sp]. simpl. intros ->. split; reflexivity.
Qed.

Lemma startup_agrees_with_update_settings_witness :
  sensor_ok (mkExt false false true []) = true /\
  startup (mkWorld (mkExt false false true []) None)
  = Ok tt (mkWorld (mkExt false false true []) None) startup_log /\
  update_settings initial_globals (mkWorld (mkExt false false true []) None)
  = Ok tt (mkWorld (mkExt false false true []) None) [EvSetAtime 29; EvSetAgain 4].
Proof.
  split; [reflexivity|]. apply startup_agrees_with_update_settings. reflexivity.
Defined.

(** C15: a missing sensor stops the script before the loop: the message is
    printed and [SystemExit(1)] escapes; neither the display nor the loop
    is started and [sensor.disable()] is not called. *)
Theorem main_sensor_absent (fuel : nat) sched (x : ext_world) :
  sensor_ok x = false ->
  main fuel sched (mkWorld x None)
  = Exc (SystemExit 1) (mkWorld x None)
      [EvI2CInit 32 33; EvSensorInit; EvIsConnected false;
       EvPrint "Failed to contact AS7341, terminating"].
Proof.
  destruct x as [a b ok sp]. simpl. intros ->. reflexivity.
Qed.

Lemma main_sensor_absent_witness :
  sensor_ok (mkExt false false false []) = false /\
  main 3 [[BtnA]] (mkWorld (mkExt false false false []) None)
  = Exc (SystemExit 1) (mkWorld (mkExt false false false []) None)
      [EvI2CInit 32 33; EvSensorInit; EvIsConnected false;
       EvPrint "Failed to contact AS7341, terminating"].
Proof.
  split; [reflexivity|]. apply main_sensor_absent. reflexivity.
Defined.

(** ** A failed read in the first measurement *)

(** C14: an [OSError] from the sensor escapes the script. When the first
    tick takes a measurement (A pressed, sensor present) and the first
    [get_spectral_data()] fails, the error is not caught by
    [except KeyboardInterrupt]: the script stops after the failed read
    with the LED on, and [sensor.disable()] (line 243) is never called. *)
Theorem main_read_error_escapes (fuel : nat) (b : bool) (rest : list (option reading6)) :
  (0 < fuel)%nat ->
  main fuel [] (mkWorld (mkExt true b true (None :: rest)) None)
  = Exc OSError (mkWorld (mkExt false b true rest) None)
      (startup_log ++
       [EvWasPressed BtnA true; EvPrint "Taking measurement"; EvSetLedCurrent 25;
        EvEnableLed true; EvStartMeasure "F1F4CN"; EvGetSpectralData None]).
Proof.
  intros Hf. destruct fuel as [|n]; [lia|]. destruct b; reflexivity.
Qed.

Lemma main_read_error_escapes_witness :
  (0 < 5)%nat /\
  main 5 [] (mkWorld (mkExt true false true [None]) None)
  = Exc OSError (mkWorld (mkExt false false true []) None)
      (startup_log ++
       [EvWasPressed BtnA true; EvPrint "Taking measurement"; EvSetLedCurrent 25;
        EvEnableLed true; EvStartMeasure "F1F4CN"; EvGetSpectralData None]).
Proof. split; [lia|]. apply main_read_error_escapes. lia. Defined.

(** ** The idle loop *)

(** The three calls of a tick in which neither button was pressed. *)
Definition idle_tick_log : list event :=
  [EvWasPressed BtnA false; EvWasPressed BtnB false; EvSleepMs 100].

(** With no press latched, a tick in one of the four modes polls both
    buttons, sleeps, and changes nothing. (A mode outside 0..3 falls
    through the whole [if/elif] chain and polls nothing.) *)
Lemma tick_idle (g : globals) (x : ext_world) :
  0 <= current_mode g < 4 -> btn_a x = false -> btn_b x = false ->
  tick g (mkWorld x None) = Ok g (mkWorld x None) idle_tick_log.
Proof.
  destruct x as [a b ok sp], g as [gi ai m wi]. simpl. intros Hm -> ->.
  enum_range Hm; reflexivity.
Qed.

Lemma user_presses_run bs x i :
  user_presses bs (mkWorld x i) = Ok tt (mkWorld (fold_right press x bs) i) [].
Proof. reflexivity. Qed.

(** C24: the loop never leaves by itself. With no button pressed and no
    Ctrl-C, from globals whose mode is one of 0..3, [n] iterations of
    [while True] poll both buttons and sleep [n] times, draw nothing and
    keep the globals; the run is still inside the loop when the [n]
    iterations are spent. *)
Theorem loop_idle (n : nat) (g : globals) (x : ext_world) :
  0 <= current_mode g < 4 -> btn_a x = false -> btn_b x = false ->
  loop n [] g (mkWorld x None)
  = Exc LoopFuelExhausted (mkWorld x None) (List.concat (List.repeat idle_tick_log n)).
Proof.
  intros Hm Ha Hb. induction n as [|n IH]; [reflexivity|].
  simpl loop. rewrite (bind_Ok _ _ _ _ _ _ (user_presses_run [] x None)), prepend_nil.
  rewrite (bind_Ok _ _ _ _ _ _ (tick_idle g x Hm Ha Hb)), IH. reflexivity.
Qed.

Lemma loop_idle_witness :
  0 <= current_mode initial_globals < 4 /\ btn_a (mkExt false false true []) = false /\ btn_b (mkExt false false true []) = false /\
  loop 3 [] initial_globals (mkWorld (mkExt false false true []) None)
  = Exc LoopFuelExhausted (mkWorld (mkExt false false true []) None)
      (List.concat (List.repeat idle_tick_log 3)).
Proof.
  split; [simpl; lia|]. split; [reflexivity|]. split; [reflexivity|].
  apply loop_idle; [simpl; lia|reflexivity|reflexivity].
Defined.

(** ** Ctrl-C *)

#[export] Instance tick_interruptible g : Interruptible (tick g).
Proof. typeclasses eauto. Qed.

#[export] Instance startup_interruptible : Interruptible startup.
Proof. unfold startup. typeclasses eauto. Qed.

(** Every completed tick ends with its [sleep_ms(100)] call. *)
Lemma tick_log_sleep g w g' w' l :
  tick g w = Ok g' w' l -> exists l0, l = l0 ++ [EvSleepMs 100].
Proof.
  unfold tick. intros H.
  destruct (bind_Ok_inv _ _ _ _ _ _ H) as (g1 & w1 & l1 & l2 & _ & H2 & ->).
  destruct (bind_Ok_inv _ _ _ _ _ _ H2) as (u & w2 & l3 & l4 & H3 & H4 & ->).
  injection H4 as _ _ <-. unfold emit, hw_call in H3.
  destruct (intr w1) as [[|n]|]; [discriminate| |]; injection H3 as _ _ <-;
    exists l1; rewrite app_nil_r; reflexivity.
Qed.

(** With Ctrl-C due after [k] calls, the loop stops within [k + 1] ticks:
    with the delivered [KeyboardInterrupt], after which no interrupt is
    pending, or with an exception the script raises itself. *)
Lemma loop_interrupted (fuel k : nat) sched (g : globals) (x : ext_world) :
  (k < fuel)%nat ->
  exists e w' l, loop fuel sched g (mkWorld x (Some k)) = Exc e w' l /\
    (e = KeyboardInterrupt /\ intr w' = None \/ code_exn e = true).
Proof.
  revert k sched g x. induction fuel as [|n IH]; intros k sched g x Hk; [lia|].
  simpl loop. rewrite (bind_Ok _ _ _ _ _ _ (user_presses_run _ x _)), prepend_nil.
  set (x0 := fold_right press x (hd [] sched)).
  destruct (tick_interruptible g x0) as [H0 Hi]. specialize (Hi k).
  unfold interrupted in Hi.
  destruct (tick g (mkWorld x0 None)) as [g' w1 l1|e w1 l1] eqn:E; simpl out_log in Hi.
  - destruct (tick_log_sleep _ _ _ _ _ E) as [l0 ->].
    rewrite length_app in Hi. simpl List.length in Hi.
    destruct (Nat.leb_spec (List.length l0 + 1) k).
    + rewrite (bind_Ok _ _ _ _ _ _ Hi).
      destruct (IH (k - (List.length l0 + 1))%nat (tl sched) g' (ext w1)) as (e & w' & l & El & He);
        [lia|].
      rewrite El. simpl. eauto.
    + destruct Hi as [x' Hw]. rewrite (bind_Exc _ _ _ _ _ _ Hw). do 3 eexists.
      split; [reflexivity|left; split; reflexivity].
  - destruct (Nat.leb_spec (List.length l1) k).
    + rewrite (bind_Exc _ _ _ _ _ _ Hi). do 3 eexists. split; [reflexivity|right; apply H0].
    + destruct Hi as [x' Hw]. rewrite (bind_Exc _ _ _ _ _ _ Hw). do 3 eexists.
      split; [reflexivity|left; split; reflexivity].
Qed.

(** Start-up with the sensor present makes its eight calls. *)
Lemma startup_run x (j : nat) :
  sensor_ok x = true -> startup (mkWorld x (Some (8 + j)%nat)) = Ok tt (mkWorld x (Some j)) startup_log.
Proof. destruct x as [a b ok sp]. simpl. intros ->. reflexivity. Qed.

(** C12: Ctrl-C is handled. With the sensor present and Ctrl-C arriving
    inside the loop (after the eight start-up calls, within the
    iterations given), whatever the user presses, the run never ends as
    a loop still running, and the interrupt does not escape: either the
    [except KeyboardInterrupt] handler runs and the script's last two
    calls are its message and [sensor.disable()], or the run ends with an
    exception of the script's own (a failed sensor read). *)
Theorem main_interrupt_handled (fuel k : nat) sched (x : ext_world) :
  sensor_ok x = true -> (8 <= k < 8 + fuel)%nat ->
  match main fuel sched (mkWorld x (Some k)) with
  | Ok _ _ l => exists l0, l = l0 ++ [EvPrint "Interrupted from keyboard"; EvSensorDisable]
  | Exc e _ _ => code_exn e = true
  end.
Proof.
  intros Hok Hk. destruct (Nat.le_exists_sub 8 k (proj1 Hk)) as (j & -> & _).
  rewrite Nat.add_comm. unfold main.
  rewrite (bind_Ok _ _ _ _ _ _ (startup_run x j Hok)).
  destruct (loop_interrupted fuel j sched initial_globals x) as (e & w2 & l2 & El & He); [lia|].
  cbv [bind try_except]. rewrite El.
  destruct He as [[-> Hw2]|He].
  - destruct w2 as [x2 i2]. simpl in Hw2. subst i2. cbn [is_KeyboardInterrupt].
    unfold print, emit, hw_call. simpl. exists (startup_log ++ l2). rewrite <- !app_assoc. reflexivity.
  - destruct e; try discriminate He; exact He.
Qed.

Lemma main_interrupt_handled_witness :
  sensor_ok (mkExt false false true []) = true /\ (8 <= 20 < 8 + 21)%nat /\
  match main 21 [[BtnB]; []; [BtnA]] (mkWorld (mkExt false false true []) (Some 20%nat)) with
  | Ok _ _ l => exists l0, l = l0 ++ [EvPrint "Interrupted from keyboard"; EvSensorDisable]
  | Exc e _ _ => code_exn e = true
  end.
Proof. split; [reflexivity|]. split; [lia|]. apply main_interrupt_handled; [reflexivity|lia]. Defined.

(** Presses set latches only: A stays latched, the sensor and its
    answers are untouched. *)
Lemma presses_keep x bs :
  btn_a x = true ->
  btn_a (fold_right press x bs) = true /\ spectra (fold_right press x bs) = spectra x /\
  sensor_ok (fold_right press x bs) = sensor_ok x.
Proof. intros Ha. induction bs as [|[] bs IH]; simpl; intuition. Qed.

(** C11: Ctrl-C during the acquisition leaves the LED on. With the
    sensor present, A pressed at the first poll and two answers queued,
    when Ctrl-C arrives after the LED is switched on and before the
    second answer is read (after 3 to 6 calls of the measurement), the
    handler runs and the script ends normally; its calls are start-up,
    the poll, the first calls of the measurement, the message and
    [sensor.disable()]: [enable_led(True)] is among them and
    [enable_led(False)] is not, although the specification asks for the
    LED to be released on every exit. *)
Theorem main_interrupt_led_on (fuel : nat) sched (x : ext_world) rest (r1 r2 : reading6) (j : nat) :
  sensor_ok x = true -> btn_a x = true -> spectra x = Some r1 :: Some r2 :: rest ->
  (3 <= j <= 6)%nat -> (0 < fuel)%nat ->
  exists x', main fuel sched (mkWorld x (Some (9 + j)%nat))
    = Ok tt (mkWorld x' None)
        (startup_log ++ EvWasPressed BtnA true :: firstn j (acquisition_prefix r1 r2)
           ++ [EvPrint "Interrupted from keyboard"; EvSensorDisable])
    /\ In (EvEnableLed true) (firstn j (acquisition_prefix r1 r2))
    /\ ~ In (EvEnableLed false) (firstn j (acquisition_prefix r1 r2)).
Proof.
  intros Hok Ha Hs Hj Hf. destruct fuel as [|n]; [lia|]. unfold main.
  rewrite (bind_Ok _ _ _ _ _ _ (startup_run x (S j) Hok)).
  set (x0 := fold_right press x (hd [] sched)).
  destruct (presses_keep x (hd [] sched) Ha) as (Ha0 & Hs0 & _). fold x0 in Ha0, Hs0.
  assert (Hs1 : spectra (snd (take_latch BtnA x0)) = Some r1 :: Some r2 :: rest)
    by (destruct x0; simpl in *; congruence).
  destruct (take_measurement_interrupted initial_globals _ rest r1 r2 j Hs1 ltac:(lia)) as [x' Ex].
  exists x'. split.
  - cbv [bind try_except]. simpl loop. cbv [bind]. rewrite user_presses_run. fold x0.
    unfold tick, loop_body. cbv [bind]. cbn [initial_globals current_mode Z.eqb].
    unfold was_pressed, hw_call at 1. cbn [intr ext]. destruct (take_latch BtnA x0) as [a x1] eqn:Et.
    replace a with true by (destruct x0; simpl in *; injection Et; congruence).
    cbn [prepend]. simpl in Ex. rewrite Ex. cbn. rewrite <- !app_assoc. reflexivity.
  - assert ((j = 3 \/ j = 4 \/ j = 5 \/ j = 6)%nat) as [-> | [-> | [-> | ->]]] by lia;
      simpl; (split; [tauto|intuition discriminate]).
Qed.

Lemma main_interrupt_led_on_witness :
  exists x', main 4 [] (mkWorld (mkExt true false true [Some (1, 2, 3, 4, 5, 6); Some (7, 8, 9, 10, 11, 12)])
                          (Some (9 + 4)%nat))
    = Ok tt (mkWorld x' None)
        (startup_log ++ EvWasPressed BtnA true :: firstn 4 (acquisition_prefix (1, 2, 3, 4, 5, 6) (7, 8, 9, 10, 11, 12))
           ++ [EvPrint "Interrupted from keyboard"; EvSensorDisable])
    /\ In (EvEnableLed true) (firstn 4 (acquisition_prefix (1, 2, 3, 4, 5, 6) (7, 8, 9, 10, 11, 12)))
    /\ ~ In (EvEnableLed false) (firstn 4 (acquisition_prefix (1, 2, 3, 4, 5, 6) (7, 8, 9, 10, 11, 12))).
Proof.
  apply (main_interrupt_led_on 4 [] _ []); [reflexivity|reflexivity|reflexivity|lia|lia].
Defined.

(** ** Termination after Ctrl-C *)

(** With Ctrl-C due after [k] calls, the loop has the same outcome for
    every fuel above [k]: each completed iteration spends at least one
    call of the countdown. *)
Lemma loop_fuel_stable (k : nat) : forall n1 n2 sched g x,
  (k < n1)%nat -> (k < n2)%nat ->
  loop n1 sched g (mkWorld x (Some k)) = loop n2 sched g (mkWorld x (Some k)).
Proof.
  induction k as [k IH] using lt_wf_ind. intros n1 n2 sched g x H1 H2.
  destruct n1 as [|n1]; [lia|]. destruct n2 as [|n2]; [lia|].
  simpl loop. rewrite !(bind_Ok _ _ _ _ _ _ (user_presses_run _ x _)), !prepend_nil.
  set (x0 := fold_right press x (hd [] sched)). cbv [bind].
  destruct (tick g (mkWorld x0 (Some k))) as [g' w' l|e w' l] eqn:E; [|reflexivity].
  destruct (interruptible_counter (tick g) x0 k g' w' l (tick_interruptible g) E) as (k' & Hw & Hk).
  destruct (tick_log_sleep _ _ _ _ _ E) as [l0 ->]. rewrite length_app in Hk. simpl in Hk.
  destruct w' as [x' i']. simpl in Hw. subst i'.
  rewrite (IH k' ltac:(lia) n1 n2 (tl sched) g' x' ltac:(lia) ltac:(lia)). reflexivity.
Qed.

(** C13: termination after Ctrl-C. With Ctrl-C due after [k] hardware
    calls, the script has a single outcome: whatever the user presses,
    every run given more than [k] iterations of [while True] ends in the
    same way, with the same calls, the same final world and the same
    result. The unbounded loop of the program therefore terminates, with
    that outcome. *)
Theorem main_interrupt_fuel_stable (k n1 n2 : nat) sched (x : ext_world) :
  (k < n1)%nat -> (k < n2)%nat ->
  main n1 sched (mkWorld x (Some k)) = main n2 sched (mkWorld x (Some k)).
Proof.
  intros H1 H2. unfold main. cbv [bind].
  destruct (startup (mkWorld x (Some k))) as [u w1 l1|e w1 l1] eqn:Es; [|reflexivity].
  destruct (interruptible_counter startup x k u w1 l1 startup_interruptible Es) as (k1 & Hw1 & Hk1).
  destruct w1 as [x1 i1]. simpl in Hw1. subst i1. unfold try_except.
  rewrite (loop_fuel_stable k1 n1 n2 sched initial_globals x1 ltac:(lia) ltac:(lia)). reflexivity.
Qed.

Lemma main_interrupt_fuel_stable_witness :
  (30 < 31)%nat /\ (30 < 45)%nat /\
  main 31 [[BtnB]; [BtnB]; [BtnA]] (mkWorld (mkExt false false true []) (Some 30%nat))
  = main 45 [[BtnB]; [BtnB]; [BtnA]] (mkWorld (mkExt false false true []) (Some 30%nat)).
Proof.
  split; [lia|]. split; [lia|]. apply main_interrupt_fuel_stable; lia.
Defined.
