(* ===== verification/WellTyped.v ===== *)
(** * Every call of the script is well-typed

    The triples of [Contracts] proved along the program, bottom up: the
    settings screens and [update_settings] (any world), the bar loop and
    the spectrum screen (heights are non-negative when the readings are
    16-bit: [compute_scale_calls] uses the float bounds of
    [FloatBounds]), the measurement, the loop body (whose result keeps
    [globals_inv]), the fuelled loop, start-up and [main] with its
    [try/except]. The world invariant [answers_ok] is the sensor's
    promise that its queued answers are 16-bit counts. *)

From Stdlib Require Import ZArith List String Lia Bool.
From S2P Require Import Prelude PyFloat FloatBounds Hardware Contracts Params Spectrum SpectrumBounds.
From S2P Require Import Acquisition ModeMachine Program.
Import ListNotations.
Open Scope Z_scope.
Open Scope py_scope.

Section Screens.
Variable Iw : ext_world -> Prop.

Lemma update_settings_calls g : calls_ok Iw (update_settings g) (fun _ => True).
Proof. repeat calls_step. all: try exact I. Qed.

Lemma display_gain_settings_calls g : calls_ok Iw (display_gain_settings g) (fun _ => True).
Proof. repeat calls_step. all: try exact I. Qed.

Lemma display_integration_settings_calls g :
  calls_ok Iw (display_integration_settings g) (fun _ => True).
Proof. repeat calls_step. all: try exact I. Qed.

Lemma display_wavelength_selection_calls g :
  calls_ok Iw (display_wavelength_selection g) (fun _ => True).
Proof. repeat calls_step. all: try exact I. Qed.

Lemma draw_bar_calls g scale i bar :
  (forall h, int_of_product bar scale = Some h -> 0 <= h) ->
  calls_ok Iw (draw_bar g scale i bar) (fun _ => True).
Proof.
  intros Hh. unfold draw_bar, py_mul_int, bar_width.
  eapply calls_ok_bind; [apply calls_ok_lift_option|intros p Hp].
  eapply calls_ok_bind; [apply calls_ok_py_int|intros h Eh].
  cbv beta in Hp, Eh.
  assert (0 <= h) by (apply Hh; unfold int_of_product, int_of_product_in; change (num_mul_int_in prec emax) with num_mul_int; rewrite Hp; exact Eh).
  repeat calls_step. all: try exact I.
Qed.

Lemma draw_bars_calls g scale bars : forall i,
  (forall b, In b bars -> forall h, int_of_product b scale = Some h -> 0 <= h) ->
  calls_ok Iw (draw_bars g scale i bars) (fun _ => True).
Proof.
  induction bars as [|b rest IH]; intros i Hb; simpl draw_bars; [apply calls_ok_ret; exact I|].
  eapply calls_ok_bind; [apply draw_bar_calls; apply Hb; left; reflexivity|intros _ _].
  apply IH. intros b' Hb'. apply Hb. right. exact Hb'.
Qed.

Lemma py_truediv_calls a b : calls_ok Iw (py_truediv a b) (fun f => f = int_truediv a b).
Proof.
  unfold py_truediv. destruct (b =? 0); [apply calls_ok_raise|].
  destruct (int_truediv a b); first [apply calls_ok_raise | apply calls_ok_ret; reflexivity].
Qed.

(** The scale of a 16-bit maximum makes no bar up to it negative. *)
Lemma compute_scale_calls M :
  0 <= M < 2 ^ 16 ->
  calls_ok Iw (compute_scale M)
    (fun scale => forall b, 0 <= b <= M -> forall h, int_of_product b scale = Some h -> 0 <= h).
Proof.
  intros HM. unfold compute_scale. destruct (Z.ltb_spec 0 M) as [Hp|Hz].
  - eapply calls_ok_bind; [apply py_truediv_calls|intros f ->].
    apply calls_ok_ret. intros b Hb h Eh.
    destruct (bar_height_bound b M) as (h' & E' & B'); [lia|lia|].
    change (240 - top_margin - 20) with 125 in Eh. rewrite E' in Eh. injection Eh as <-. lia.
  - apply calls_ok_ret. intros b Hb h Eh. injection Eh as <-. lia.
Qed.

(** On 16-bit readings every call of the spectrum screen is well-typed,
    whatever the globals: an index out of range raises before a call
    with it is made. *)
Lemma display_spectrum_calls g f1 f2 f3 f4 f5 f6 f7 f8 nir :
  Forall reading_ok [f1; f2; f3; f4; f5; f6; f7; f8; nir] ->
  calls_ok Iw (display_spectrum g f1 f2 f3 f4 f5 f6 f7 f8 nir) (fun _ => True).
Proof.
  intros Hr. unfold display_spectrum.
  set (bars := [f1; f2; f3; f4; f5; f6; f7; f8; nir]) in *.
  do 4 (calls_step; [calls_step; try calls_step|]). all: try exact I.
  unfold py_max_hw. eapply calls_ok_bind; [apply calls_ok_lift_option|intros M HM].
  cbv beta in HM. apply py_max_spec in HM as [Min Mall]. rewrite Forall_forall in Hr, Mall.
  eapply calls_ok_bind; [apply compute_scale_calls; apply Hr; exact Min|intros scale Hs].
  eapply calls_ok_bind; [apply draw_bars_calls|intros _ _].
  { intros b Hb. apply Hs. split; [apply Hr; exact Hb|apply Mall; exact Hb]. }
  repeat calls_step. all: try exact I.
Qed.
End Screens.

(** ** The whole script

    The outside world keeps one promise: every answer the sensor has
    queued is a 16-bit reading (or a failed transfer). *)
Definition answers_ok (x : ext_world) : Prop :=
  Forall (fun o => forall r, o = Some r -> reading6_ok r) (spectra x).

Lemma was_pressed_calls b : calls_ok answers_ok (was_pressed b) (fun _ => True).
Proof.
  apply calls_ok_hw_call. intros x Hx. split; [destruct b; exact Hx|]. split; [exact I|reflexivity].
Qed.

Lemma is_connected_calls : calls_ok answers_ok is_connected (fun _ => True).
Proof. apply calls_ok_hw_call. intros x Hx. split; [exact Hx|]. split; [exact I|reflexivity]. Qed.

Lemma get_spectral_data_calls : calls_ok answers_ok get_spectral_data reading6_ok.
Proof.
  unfold get_spectral_data.
  apply (calls_ok_bind answers_ok _ _ (fun o => forall r, o = Some r -> reading6_ok r)).
  - apply calls_ok_hw_call. intros x Hx. destruct x as [a b ok sp]. unfold answers_ok, next_spectrum in *. simpl in *.
    destruct sp as [|o rest]; simpl.
    + split; [exact Hx|]. split; [intros r Hr; discriminate Hr|reflexivity].
    + inversion_clear Hx as [|? ? Ho Hrest]. split; [exact Hrest|]. split; [exact Ho|reflexivity].
  - intros o Ho. eapply calls_ok_weaken; [apply calls_ok_lift_option|]. intros r Er. apply Ho. exact Er.
Qed.

Lemma readings_ok9 f1 f2 f3 f4 c1 n1 f5 f6 f7 f8 c2 n2 :
  reading6_ok (f1, f2, f3, f4, c1, n1) -> reading6_ok (f5, f6, f7, f8, c2, n2) ->
  Forall reading_ok [f1; f2; f3; f4; f5; f6; f7; f8; n2].
Proof.
  simpl. intros H1 H2.
  repeat match goal with H : Forall _ (_ :: _) |- _ => inversion_clear H end.
  repeat (apply Forall_cons; [assumption|]). apply Forall_nil.
Qed.

Ltac wt_step :=
  match goal with
  | |- calls_ok _ (was_pressed _) _ => apply was_pressed_calls
  | |- calls_ok _ is_connected _ => apply is_connected_calls
  | |- calls_ok _ (bind get_spectral_data _) _ =>
      eapply calls_ok_bind; [apply get_spectral_data_calls|intros ?r ?Hr]
  | |- calls_ok _ (bind (display_spectrum _ _ _ _ _ _ _ _ _ _) _) _ =>
      eapply calls_ok_bind; [apply display_spectrum_calls; eapply readings_ok9; eassumption|intros _ _]
  | |- calls_ok _ (update_settings _) _ => apply update_settings_calls
  | |- calls_ok _ (display_gain_settings _) _ => apply display_gain_settings_calls
  | |- calls_ok _ (display_integration_settings _) _ => apply display_integration_settings_calls
  | |- calls_ok _ (display_wavelength_selection _) _ => apply display_wavelength_selection_calls
  | _ => calls_step
  end.

Lemma take_measurement_calls g : calls_ok answers_ok (take_measurement g) (fun _ => True).
Proof. unfold take_measurement. repeat wt_step. all: try exact I. Qed.

(** The globals a loop body returns satisfy the invariant again. *)
Ltac inv_tac :=
  match goal with
  | Hinv : globals_inv ?g |- globals_inv _ =>
      destruct g as [gi ai m wi]; destruct Hinv as [(Hg & Ha & Hw) Hm];
      unfold globals_inv, indices_ok in *; simpl in *;
      repeat split; try lia;
      match goal with |- context [cycle ?n ?i] => pose proof (cycle_range n i ltac:(lia)); lia end
  end.

Lemma loop_body_calls g :
  globals_inv g -> calls_ok answers_ok (loop_body g) globals_inv.
Proof.
  intros Hinv. unfold loop_body.
  repeat (wt_step || (eapply calls_ok_bind; [apply take_measurement_calls|intros _ _])).
  all: try exact I; try exact Hinv; inv_tac.
Qed.

(** The user's presses touch the latches only. *)
Lemma user_presses_calls bs : calls_ok answers_ok (user_presses bs) (fun _ => True).
Proof.
  intros w Hw. simpl. split; [constructor|]. split; [|exact I].
  unfold answers_ok in *. destruct w as [x i]. simpl in *.
  induction bs as [|[] bs IH]; [exact Hw|exact IH|exact IH].
Qed.

Lemma loop_calls n : forall sched g,
  globals_inv g -> calls_ok answers_ok (loop n sched g) (fun _ => True).
Proof.
  induction n as [|n IH]; intros sched g Hinv; simpl loop; [apply calls_ok_raise|].
  eapply calls_ok_bind; [apply user_presses_calls|intros _ _].
  eapply calls_ok_bind; [|intros g' Hg'; apply IH; exact Hg'].
  unfold tick. eapply calls_ok_bind; [apply loop_body_calls; exact Hinv|intros g' Hg'].
  repeat calls_step. exact Hg'.
Qed.

Lemma main_calls n sched : calls_ok answers_ok (main n sched) (fun _ => True).
Proof.
  unfold main. eapply calls_ok_bind; [|intros _ _].
  { unfold startup. repeat wt_step. }
  eapply calls_ok_bind; [apply calls_ok_try_except|intros _ _].
  - apply loop_calls. split; [exact initial_indices_ok|simpl; lia].
  - intros e. repeat calls_step.
  - repeat calls_step.
Qed.

(** C5: every call of every run is well-typed. Whatever the button
    presses, wherever Ctrl-C falls, and however many iterations the loop
    runs, when the sensor answers with 16-bit counts (or fails) every
    call the script makes, up to its end or its exception, has the
    argument types of the collaborators' interfaces: 24-bit colours,
    non-negative rectangle sizes (the bar heights included), a gain code
    of the table, ATIME and ASTEP within their registers, an LED current
    within [0..100] mA. *)
Theorem main_calls_typed (fuel : nat) (sched : list (list button)) (w : world) :
  answers_ok (ext w) -> Forall typed (out_log (main fuel sched w)).
Proof.
  intros Hw. pose proof (main_calls fuel sched w Hw) as H. destruct (main fuel sched w); tauto.
Qed.

(** A run that takes a measurement, then with B, B, A, B, A pressed
    before the next iterations walks to the gain screen, raises the gain
    (the push writes AGAIN 5), moves to the integration-time screen and
    raises the integration time (the push writes ATIME 39). *)
Lemma main_calls_typed_witness :
  answers_ok (mkExt true false true [Some (0, 5, 0, 0, 7, 9); Some (65535, 0, 3, 0, 0, 2)]) /\
  Forall typed (out_log (main 7 [[]; [BtnB]; [BtnB]; [BtnA]; [BtnB]; [BtnA]]
                           (mkWorld (mkExt true false true
                                     [Some (0, 5, 0, 0, 7, 9); Some (65535, 0, 3, 0, 0, 2)]) None))) /\
  In (EvSetAgain 5) (out_log (main 7 [[]; [BtnB]; [BtnB]; [BtnA]; [BtnB]; [BtnA]]
                           (mkWorld (mkExt true false true
                                     [Some (0, 5, 0, 0, 7, 9); Some (65535, 0, 3, 0, 0, 2)]) None))) /\
  In (EvSetAtime 39) (out_log (main 7 [[]; [BtnB]; [BtnB]; [BtnA]; [BtnB]; [BtnA]]
                           (mkWorld (mkExt true false true
                                     [Some (0, 5, 0, 0, 7, 9); Some (65535, 0, 3, 0, 0, 2)]) None))).
Proof.
  assert (H : answers_ok (mkExt true false true [Some (0, 5, 0, 0, 7, 9); Some (65535, 0, 3, 0, 0, 2)])).
  { unfold answers_ok. simpl.
    repeat constructor; intros r Hr; injection Hr as <-; repeat constructor; unfold reading_ok; lia. }
  split; [exact H|]. split; [apply (main_calls_typed 7 _ (mkWorld _ None)); exact H|].
  split; vm_compute; tauto.
Defined.
